(** * The autonomous cycle scheduler of ecco9, embedded in Rocq

  Two Go types carry the scheduler core:

  - [AutonomousConsciousnessV4] (package [deeptreeecho]): the wake/rest
    cycle driven by a fatigue level, with [Start], [Stop], [Wake], [Rest],
    [dreamCycle] and the periodic loops;
  - [AutonomousEchoself] (package [core]): the phase enumeration and the
    [cyclesCompleted] counter.

  Conventions of the embedding.

  - A Go [float64] is a rational ([Q]); infinities and NaN are outside the
    model.  Sums and products whose value is used as a number are exact;
    where a product is converted to an integer, which is not continuous,
    it is first rounded to binary64 as the hardware rounds it ([round64]).
    Comparisons are the decidable ones on [Q].
  - [time.Time] and [time.Duration] are integers counting nanoseconds.
    [int64] and [uint64] arithmetic has its wrap-around written out.
  - Every method is a function on an explicit world: the receiver, a
    logical clock read by [time.Now] and advanced by [time.Sleep], and the
    trace of calls made to collaborators whose code is elsewhere.
  - A goroutine started with [go] is recorded in the trace; the body of a
    periodic loop is given as the function run on one tick.
  - Console output ([fmt.Println], [fmt.Printf]) is not modelled. *)

From Stdlib Require Import ZArith QArith Qround Qpower Lqa Lia List Bool String.
From Stdlib Require PrimFloat FloatOps.
Import ListNotations.

Local Open Scope Z_scope.

(** ** Numbers *)

Module Num.

(** [x < y] on [float64], as a boolean. *)
Definition Qlt_bool (x y : Q) : bool := negb (Qle_bool y x).

(** Conversion of a [float64] to an integer type: the fraction is
    discarded (truncation toward zero). *)
Definition Qtrunc (x : Q) : Z := Z.quot (Qnum x) (Zpos (Qden x)).

(** Two's-complement wrap-around of [int64]. *)
Definition wrap64 (z : Z) : Z := (z + 2 ^ 63) mod 2 ^ 64 - 2 ^ 63.

(** Wrap-around of [uint64]. *)
Definition wrapU64 (z : Z) : Z := z mod 2 ^ 64.

(** [float64(n)] for an [int]. *)
Definition float64 (n : Z) : Q := inject_Z n.

(** The closed unit interval. *)
Definition unit_interval (x : Q) : Prop := (0 <= x /\ x <= 1)%Q.

(** *** Rounding to binary64

    The result of a [float64] operation is the exact result rounded to the
    nearest number with a 53-bit significand, ties going to the even
    significand; below [2^-1022] the spacing stays [2^-1074].  Results
    beyond the largest finite [float64] are outside the model. *)

Definition pow2 (e : Z) : Q := Qpower 2 e.

(** The nearest integer, ties to the even one. *)
Definition roundHalfEven (q : Q) : Z :=
  let fl := Qfloor q in
  match Qcompare (q - inject_Z fl) (1 # 2) with
  | Lt => fl
  | Gt => fl + 1
  | Eq => if Z.even fl then fl else fl + 1
  end.

(** For a positive [a], the integer [l] with [2^l <= a < 2^(l+1)]. *)
Definition floorLog2 (a : Q) : Z :=
  if Qle_bool 1 a then Z.log2 (Qfloor a) else - Z.log2_up (Qceiling (/ a)).

(** The exponent of the unit in the last place of a positive [a]. *)
Definition ulpExponent (a : Q) : Z := Z.max (floorLog2 a - 52) (-1074).

Definition round64_pos (a : Q) : Q :=
  let e := ulpExponent a in
  (inject_Z (roundHalfEven (a / pow2 e)) * pow2 e)%Q.

Definition round64 (x : Q) : Q :=
  match Qcompare x 0 with
  | Eq => 0%Q
  | Gt => round64_pos x
  | Lt => (- round64_pos (- x))%Q
  end.

End Num.

(** ** Package [time] *)

Module time.

Definition Time := Z.
Definition Duration := Z.

Definition Nanosecond : Duration := 1.
Definition Second : Duration := 1000000000.
Definition Minute : Duration := 60 * Second.
Definition Hour : Duration := 60 * Minute.

(** [time.Duration(x)] for a [float64] [x]. *)
Definition Duration_of_float (x : Q) : Duration := Num.Qtrunc x.

(** [a * b] on [Duration], an [int64]. *)
Definition mul (a b : Duration) : Duration := Num.wrap64 (a * b).

(** [d.Minutes()]. *)
Definition Minutes (d : Duration) : Q := inject_Z d / inject_Z Minute.

(** The largest [Duration], an [int64] count of nanoseconds. *)
Definition maxDuration : Duration := 2 ^ 63 - 1.

(** [t.Add(d)]. *)
Definition Add (t : Time) (d : Duration) : Time := t + d.

(** [time.Since(t)] when the clock shows [now]. *)
Definition Since (now t : Time) : Duration := now - t.

End time.

(** ** Methods that return an [error] *)

Module Go.

(** A Go [error] value; [None] is [nil]. *)
Definition error := option string.

(** A method on a world [W] that returns an [error] and may write. *)
Definition M (W : Type) := W -> error * W.

(** Sequencing as in the Go text: a non-nil error returns at once, and the
    writes made before it stay. *)
Definition andThen {W : Type} (m k : M W) : M W :=
  fun w =>
    match m w with
    | (Some e, w') => (Some e, w')
    | (None, w') => k w'
    end.

(** [return nil]. *)
Definition ok {W : Type} : M W := fun w => (None, w).

(** A statement that cannot fail. *)
Definition exec {W : Type} (f : W -> W) : M W := fun w => (None, f w).

(** A method leaves an observation [f] of the world as it was, whether it
    returns an error or not. *)
Definition keeps {W A : Type} (f : W -> A) (m : M W) : Prop :=
  forall w : W, f (snd (m w)) = f w.

(** [fmt.Errorf("<msg>: %w", err)]. *)
Definition Errorf_w (msg err : string) : string := (msg ++ ": " ++ err)%string.

End Go.

Notation "m ;; k" := (Go.andThen m k) (at level 61, right associativity).

(** ** Package [deeptreeecho]: [AutonomousConsciousnessV4] *)

Module deeptreeecho.

Import Num.
Import time.

Definition error := Go.error.

(** *** Data *)

Record Thought := {
  Type_ : string;
  Content : string;
  Importance : Q
}.

Record WorkingMemory := {
  buffer : list Thought;
  capacity : Z
}.

Record LoadSnapshot := {
  Timestamp : Time;
  Load : Q;
  Fatigue : Q
}.

Record CognitiveLoadManager := {
  currentLoad : Q;
  loadHistory : list LoadSnapshot;
  fatigueLevel : Q;
  fatigueRate : Q;
  recoveryRate : Q;
  maxLoad : Q
}.

Record AutomaticDreamTrigger := {
  enabled : bool;
  fatigueThreshold : Q;
  minWakeDuration : Duration;
  lastRestTime : Time;
  restQuality : Q;
  circadianPhase : Q
}.

(** [DiscussionManager] and [SkillRegistry] are declared in other files of
    the package.  The methods used here only ask them a yes/no question;
    the answer is kept as a field. *)
Record DiscussionManager := { HasActiveDiscussions : bool }.
Record SkillRegistry := { IsCurrentlyPracticing : bool }.

(** The fields of the Go struct that the scheduler reads or writes.
    [cancelled] stands for [ctx]/[cancel]: it is true once [cancel()] has
    run.  [discussionMgr] is a pointer that may be [nil]; [persistence]
    tells whether the pointer of that name is non-nil. *)
Record AutonomousConsciousnessV4 := {
  cancelled : bool;
  workingMemory : WorkingMemory;
  loadManager : CognitiveLoadManager;
  dreamTrigger : AutomaticDreamTrigger;
  discussionMgr : option DiscussionManager;
  skills : SkillRegistry;
  persistence : bool;
  awake : bool;
  running : bool;
  startTime : Time;
  iterations : Z
}.

(** The sub-systems started by [Start], in the order of the calls. *)
Inductive Component :=
| AARCore | InferenceSystem | TwelveStepScheduler
| ConsciousnessStream | EchoDream | SchemeMetamodel.

(** The goroutines the type launches. *)
Inductive Job :=
| JobConsciousnessIntegrationLoop
| JobCognitiveLoadMonitoring
| JobAutomaticDreamTriggerLoop
| JobSkillPracticeLoop
| JobPeriodicPersistence
| JobDreamCycle (duration : Duration).

(** Calls that leave the receiver: to a sub-system, to the runtime. *)
Inductive Call :=
| CallStart (c : Component)
| CallGo (j : Job)
| CallCancel
| CallEnterDream
| CallExitDream
| CallSleep (d : Duration).

Record World := {
  self : AutonomousConsciousnessV4;
  clock : Time;
  calls : list Call
}.

(** *** Field updates *)

Definition set_fatigueLevel (f : Q) (lm : CognitiveLoadManager) :=
  {| currentLoad := currentLoad lm; loadHistory := loadHistory lm;
     fatigueLevel := f; fatigueRate := fatigueRate lm;
     recoveryRate := recoveryRate lm; maxLoad := maxLoad lm |}.

Definition set_loadHistory (h : list LoadSnapshot) (lm : CognitiveLoadManager) :=
  {| currentLoad := currentLoad lm; loadHistory := h;
     fatigueLevel := fatigueLevel lm; fatigueRate := fatigueRate lm;
     recoveryRate := recoveryRate lm; maxLoad := maxLoad lm |}.

Definition set_loadManager (lm : CognitiveLoadManager) (ac : AutonomousConsciousnessV4) :=
  {| cancelled := cancelled ac; workingMemory := workingMemory ac;
     loadManager := lm; dreamTrigger := dreamTrigger ac;
     discussionMgr := discussionMgr ac; skills := skills ac;
     persistence := persistence ac; awake := awake ac;
     running := running ac; startTime := startTime ac;
     iterations := iterations ac |}.

Definition set_awake (b : bool) (ac : AutonomousConsciousnessV4) :=
  {| cancelled := cancelled ac; workingMemory := workingMemory ac;
     loadManager := loadManager ac; dreamTrigger := dreamTrigger ac;
     discussionMgr := discussionMgr ac; skills := skills ac;
     persistence := persistence ac; awake := b;
     running := running ac; startTime := startTime ac;
     iterations := iterations ac |}.

Definition set_running (b : bool) (ac : AutonomousConsciousnessV4) :=
  {| cancelled := cancelled ac; workingMemory := workingMemory ac;
     loadManager := loadManager ac; dreamTrigger := dreamTrigger ac;
     discussionMgr := discussionMgr ac; skills := skills ac;
     persistence := persistence ac; awake := awake ac;
     running := b; startTime := startTime ac;
     iterations := iterations ac |}.

Definition set_startTime (t : Time) (ac : AutonomousConsciousnessV4) :=
  {| cancelled := cancelled ac; workingMemory := workingMemory ac;
     loadManager := loadManager ac; dreamTrigger := dreamTrigger ac;
     discussionMgr := discussionMgr ac; skills := skills ac;
     persistence := persistence ac; awake := awake ac;
     running := running ac; startTime := t;
     iterations := iterations ac |}.

Definition set_cancelled (b : bool) (ac : AutonomousConsciousnessV4) :=
  {| cancelled := b; workingMemory := workingMemory ac;
     loadManager := loadManager ac; dreamTrigger := dreamTrigger ac;
     discussionMgr := discussionMgr ac; skills := skills ac;
     persistence := persistence ac; awake := awake ac;
     running := running ac; startTime := startTime ac;
     iterations := iterations ac |}.

Definition set_currentLoad (l : Q) (lm : CognitiveLoadManager) :=
  {| currentLoad := l; loadHistory := loadHistory lm;
     fatigueLevel := fatigueLevel lm; fatigueRate := fatigueRate lm;
     recoveryRate := recoveryRate lm; maxLoad := maxLoad lm |}.

Definition set_workingMemory (wm : WorkingMemory) (ac : AutonomousConsciousnessV4) :=
  {| cancelled := cancelled ac; workingMemory := wm;
     loadManager := loadManager ac; dreamTrigger := dreamTrigger ac;
     discussionMgr := discussionMgr ac; skills := skills ac;
     persistence := persistence ac; awake := awake ac;
     running := running ac; startTime := startTime ac;
     iterations := iterations ac |}.

Definition set_discussionMgr (dm : option DiscussionManager)
           (ac : AutonomousConsciousnessV4) :=
  {| cancelled := cancelled ac; workingMemory := workingMemory ac;
     loadManager := loadManager ac; dreamTrigger := dreamTrigger ac;
     discussionMgr := dm; skills := skills ac;
     persistence := persistence ac; awake := awake ac;
     running := running ac; startTime := startTime ac;
     iterations := iterations ac |}.

Definition set_skills (sk : SkillRegistry) (ac : AutonomousConsciousnessV4) :=
  {| cancelled := cancelled ac; workingMemory := workingMemory ac;
     loadManager := loadManager ac; dreamTrigger := dreamTrigger ac;
     discussionMgr := discussionMgr ac; skills := sk;
     persistence := persistence ac; awake := awake ac;
     running := running ac; startTime := startTime ac;
     iterations := iterations ac |}.

Definition set_iterations (n : Z) (ac : AutonomousConsciousnessV4) :=
  {| cancelled := cancelled ac; workingMemory := workingMemory ac;
     loadManager := loadManager ac; dreamTrigger := dreamTrigger ac;
     discussionMgr := discussionMgr ac; skills := skills ac;
     persistence := persistence ac; awake := awake ac;
     running := running ac; startTime := startTime ac;
     iterations := n |}.

Definition on_self (f : AutonomousConsciousnessV4 -> AutonomousConsciousnessV4)
           (w : World) : World :=
  {| self := f (self w); clock := clock w; calls := calls w |}.

Definition on_loadManager (f : CognitiveLoadManager -> CognitiveLoadManager)
           (w : World) : World :=
  on_self (fun ac => set_loadManager (f (loadManager ac)) ac) w.

(** A call to a collaborator is appended to the trace. *)
Definition call (c : Call) (w : World) : World :=
  {| self := self w; clock := clock w; calls := calls w ++ [c] |}.

(** [time.Sleep(d)]: returns at once when [d <= 0]. *)
Definition Sleep (d : Duration) (w : World) : World :=
  call (CallSleep d)
       {| self := self w; clock := Add (clock w) (Z.max 0 d); calls := calls w |}.

(** *** Construction *)

(** [NewAutonomousConsciousnessV4].  [withPersistence] tells whether the
    environment gave the persistence layer its credentials and the layer
    could be created.  The zero [time.Time] is instant 0.  A new discussion
    manager has no active discussion and a new skill registry is not
    practicing. *)
Definition NewAutonomousConsciousnessV4 (withPersistence : bool)
  : AutonomousConsciousnessV4 :=
  {| cancelled := false;
     workingMemory := {| buffer := []; capacity := 7 |};
     loadManager :=
       {| currentLoad := 0.0; loadHistory := []; fatigueLevel := 0.0;
          fatigueRate := 0.01; recoveryRate := 0.05; maxLoad := 1.0 |};
     dreamTrigger :=
       {| enabled := true; fatigueThreshold := 0.75;
          minWakeDuration := 30 * Minute; lastRestTime := 0;
          restQuality := 0; circadianPhase := 0.0 |};
     discussionMgr := Some {| HasActiveDiscussions := false |};
     skills := {| IsCurrentlyPracticing := false |};
     persistence := withPersistence;
     awake := false;
     running := false;
     startTime := 0;
     iterations := 0 |}.

Definition newWorld (withPersistence : bool) (now : Time) : World :=
  {| self := NewAutonomousConsciousnessV4 withPersistence;
     clock := now; calls := [] |}.

(** *** Helper methods

    The source gives these as stubs: each prints a line and returns. *)

Definition loadPersistedStateV4 (w : World) : error * World := (None, w).

Definition saveCurrentStateV4 (w : World) : error * World := (None, w).

Definition consolidateMemories (w : World) : World := w.

Definition dreamSkillPractice (w : World) : World := w.

Definition extractPatterns (w : World) : World := w.

(** *** The load model *)

(** [ac.discussionMgr != nil && ac.discussionMgr.HasActiveDiscussions()]. *)
Definition inActiveDiscussion (ac : AutonomousConsciousnessV4) : bool :=
  match discussionMgr ac with
  | Some dm => HasActiveDiscussions dm
  | None => false
  end.

(** [calculateCurrentLoad].  Division is the one of [Q]; the model agrees
    with the Go division only for a non-zero [capacity]. *)
Definition calculateCurrentLoad (ac : AutonomousConsciousnessV4) : Q :=
  let baseLoad := 0.1%Q in
  let memoryLoad :=
    (float64 (Z.of_nat (List.length (buffer (workingMemory ac))))
     / float64 (capacity (workingMemory ac)) * 0.3)%Q in
  let discussionLoad := if inActiveDiscussion ac then 0.4%Q else 0.0%Q in
  let practiceLoad :=
    if IsCurrentlyPracticing (skills ac) then 0.3%Q else 0.0%Q in
  let totalLoad := (baseLoad + memoryLoad + discussionLoad + practiceLoad)%Q in
  if Qlt_bool 1.0 totalLoad then 1.0%Q else totalLoad.

(** The period of the ticker of [cognitiveLoadMonitoring]. *)
Definition loadTickInterval : Duration := 5 * Second.

(** One tick of [cognitiveLoadMonitoring] (the body of the [ticker.C] case). *)
Definition cognitiveLoadMonitoring_tick (w : World) : World :=
  let ac := self w in
  let lm := loadManager ac in
  let lm :=
    if awake ac
    then set_fatigueLevel (fatigueLevel lm + currentLoad lm * fatigueRate lm)%Q lm
    else lm in
  let snapshot :=
    {| Timestamp := clock w; Load := currentLoad lm; Fatigue := fatigueLevel lm |} in
  let lm := set_loadHistory (loadHistory lm ++ [snapshot]) lm in
  let lm :=
    if (Z.of_nat (List.length (loadHistory lm)) >? 1000)
    then set_loadHistory (skipn 1 (loadHistory lm)) lm
    else lm in
  on_self (set_loadManager lm) w.

(** *** Wake and rest *)

(** [Wake]. *)
Definition Wake (w : World) : World :=
  if awake (self w) then w
  else
    let w := on_self (set_awake true) w in
    let w := on_self (set_startTime (clock w)) w in
    on_loadManager (fun lm => set_fatigueLevel (fatigueLevel lm * 0.3)%Q lm) w.

(** The duration computed in [Rest] from the fatigue read there.  The
    product [fatigue*60] is a [float64], the exact product rounded; the
    conversion [time.Duration(...)] drops its fraction, and is specified
    by Go only when the value fits [int64]. *)
Definition restDuration (fatigue : Q) : Duration :=
  let restDuration :=
    mul (Duration_of_float (round64 (fatigue * 60)%Q)) Minute in
  let restDuration :=
    if restDuration <? 5 * Minute then 5 * Minute else restDuration in
  let restDuration :=
    if restDuration >? 2 * Hour then 2 * Hour else restDuration in
  restDuration.

(** [Rest]: the dream cycle is handed to a new goroutine. *)
Definition Rest (w : World) : World :=
  if negb (awake (self w)) then w
  else
    let w := on_self (set_awake false) w in
    let fatigue := fatigueLevel (loadManager (self w)) in
    call (CallGo (JobDreamCycle (restDuration fatigue))) w.

(** The recovery update of [dreamCycle], made under the load manager's lock. *)
Definition recover (duration : Duration) (lm : CognitiveLoadManager)
  : CognitiveLoadManager :=
  let lm :=
    set_fatigueLevel
      (fatigueLevel lm * (1.0 - recoveryRate lm * Minutes duration))%Q lm in
  if Qlt_bool (fatigueLevel lm) 0 then set_fatigueLevel 0 lm else lm.

(** [dreamCycle]. *)
Definition dreamCycle (duration : Duration) (w : World) : World :=
  let w := call CallEnterDream w in
  let w := consolidateMemories w in
  let w := dreamSkillPractice w in
  let w := extractPatterns w in
  let w := Sleep duration w in
  let w := on_loadManager (recover duration) w in
  let w := call CallExitDream w in
  Wake w.

(** [shouldInitiateRest]. *)
Definition shouldInitiateRest (w : World) : bool :=
  let ac := self w in
  let fatigue := fatigueLevel (loadManager ac) in
  if Qlt_bool fatigue (fatigueThreshold (dreamTrigger ac)) then false
  else
    let timeSinceWake := Since (clock w) (startTime ac) in
    if timeSinceWake <? minWakeDuration (dreamTrigger ac) then false
    else if inActiveDiscussion ac then false
    else true.

(** One tick of [automaticDreamTriggerLoop]. *)
Definition automaticDreamTriggerLoop_tick (w : World) : World :=
  if negb (enabled (dreamTrigger (self w))) || negb (awake (self w)) then w
  else if shouldInitiateRest w then Rest w
  else w.

(** One tick of [periodicPersistence]; a failed save is only reported. *)
Definition periodicPersistence_tick (w : World) : World :=
  if persistence (self w) then snd (saveCurrentStateV4 w) else w.

(** *** Start and stop *)

Definition M := Go.M World.

Definition ok : M := Go.ok.

Definition exec : (World -> World) -> M := Go.exec.

(** [if err := c.Start(); err != nil { return fmt.Errorf("failed to start
    <what>: %w", err) }], where [env c] is what [c.Start()] returns. *)
Definition startComponent (env : Component -> error) (c : Component)
           (what : string) : M :=
  fun w =>
    let w := call (CallStart c) w in
    match env c with
    | Some err => (Some (Go.Errorf_w ("failed to start " ++ what) err), w)
    | None => (None, w)
    end.

(** [Start]. *)
Definition Start (env : Component -> error) : M :=
  fun w =>
    if running (self w)
    then (Some "autonomous consciousness already running"%string, w)
    else
      (exec (on_self (set_running true)) ;;
       exec (fun w => on_self (set_startTime (clock w)) w) ;;
       startComponent env AARCore "AAR core" ;;
       startComponent env InferenceSystem "concurrent inference engines" ;;
       startComponent env TwelveStepScheduler "12-step scheduler" ;;
       startComponent env ConsciousnessStream "consciousness stream" ;;
       startComponent env EchoDream "dream system" ;;
       startComponent env SchemeMetamodel "metamodel" ;;
       exec (fun w => if persistence (self w)
                    then snd (loadPersistedStateV4 w) else w) ;;
       exec (call (CallGo JobConsciousnessIntegrationLoop)) ;;
       exec (call (CallGo JobCognitiveLoadMonitoring)) ;;
       exec (call (CallGo JobAutomaticDreamTriggerLoop)) ;;
       exec (call (CallGo JobSkillPracticeLoop)) ;;
       exec (call (CallGo JobPeriodicPersistence)) ;;
       exec Wake ;;
       ok) w.

(** [Stop]. *)
Definition Stop : M :=
  fun w =>
    if negb (running (self w))
    then (Some "autonomous consciousness not running"%string, w)
    else
      (exec (on_self (set_running false)) ;;
       exec (fun w => if persistence (self w)
                    then snd (saveCurrentStateV4 w) else w) ;;
       exec (fun w => call CallCancel (on_self (set_cancelled true) w)) ;;
       ok) w.

(** Every sub-system starts without error. *)
Definition allStart : Component -> error := fun _ => None.

(** How often a kind of call occurs in a trace. *)
Definition occurrences (p : Call -> bool) (l : list Call) : nat :=
  List.length (filter p l).

Definition isCancel (c : Call) : bool :=
  match c with CallCancel => true | _ => false end.

Definition isGo (c : Call) : bool :=
  match c with CallGo _ => true | _ => false end.

(** *** The specification's wording of the load and of the rest guard *)

Definition indicator (b : bool) : Q := if b then 1%Q else 0%Q.

(** Working-memory occupancy: buffer length over capacity. *)
Definition occupancy (ac : AutonomousConsciousnessV4) : Q :=
  (inject_Z (Z.of_nat (List.length (buffer (workingMemory ac))))
   / inject_Z (capacity (workingMemory ac)))%Q.

(** The weighted sum of the contributors plus the base term, capped at 1. *)
Definition weightedLoad (occ : Q) (discussion practice : bool) : Q :=
  let total :=
    (0.1 + 0.3 * occ + 0.4 * indicator discussion + 0.3 * indicator practice)%Q in
  if Qle_bool total 1 then total else 1%Q.

(** The three conjuncts of the guard of the automatic transition to rest. *)
Definition restGuard (w : World) : Prop :=
  minWakeDuration (dreamTrigger (self w)) <= Since (clock w) (startTime (self w))
  /\ (fatigueThreshold (dreamTrigger (self w))
      <= fatigueLevel (loadManager (self w)))%Q
  /\ inActiveDiscussion (self w) = false.

(** [clamp(x, lo, hi)] on minutes, and the rest duration in minutes as the
    specification words it: the fatigue times 60, clamped to [5, 120]. *)
Definition clampQ (x lo hi : Q) : Q :=
  if Qlt_bool x lo then lo else if Qlt_bool hi x then hi else x.

Definition specRestMinutes (fatigue : Q) : Q := clampQ (fatigue * 60)%Q 5 120.

Definition clampZ (x lo hi : Z) : Z :=
  if x <? lo then lo else if hi <? x then hi else x.

(** The largest whole number of minutes whose count of nanoseconds fits
    [int64]. *)
Definition maxWholeMinutes : Z := 153722867.

(** A rest that is long enough for a given positive recovery rate: the
    least whole number of minutes not below the inverse of the rate. *)
Definition longEnough (r : Q) : Duration := Qceiling (1 / r) * Minute.

(** The calls of a start that goes through: the six sub-systems in order,
    then the five loops. *)
Definition startCalls : list Call :=
  [CallStart AARCore; CallStart InferenceSystem;
   CallStart TwelveStepScheduler; CallStart ConsciousnessStream;
   CallStart EchoDream; CallStart SchemeMetamodel;
   CallGo JobConsciousnessIntegrationLoop;
   CallGo JobCognitiveLoadMonitoring;
   CallGo JobAutomaticDreamTriggerLoop;
   CallGo JobSkillPracticeLoop;
   CallGo JobPeriodicPersistence].

End deeptreeecho.

(** ** Package [core]: [AutonomousEchoself] *)

Module core.

Import Num.
Import time.

Definition error := Go.error.

Inductive EchoselfState :=
| StateInitializing
| StateAsleep
| StateWaking
| StateAwake
| StateThinking
| StateResting
| StateDreaming.

Record EchoselfConfig := {
  PersistenceDir : string;
  WakeCycleDuration : Duration;
  RestCycleDuration : Duration;
  DreamCycleDuration : Duration;
  FatigueThreshold : Q;
  EngagementThreshold : Q;
  CuriosityLevel : Q;
  EnableStreamOfConsciousness : bool;
  EnableAutonomousLearning : bool;
  EnableDiscussions : bool;
  EnableDreamCycles : bool
}.

(** [DefaultEchoselfConfig]. *)
Definition DefaultEchoselfConfig : EchoselfConfig :=
  {| PersistenceDir := "/tmp/echoself";
     WakeCycleDuration := 4 * Hour;
     RestCycleDuration := 30 * Minute;
     DreamCycleDuration := 15 * Minute;
     FatigueThreshold := 0.8;
     EngagementThreshold := 0.5;
     CuriosityLevel := 0.8;
     EnableStreamOfConsciousness := true;
     EnableAutonomousLearning := true;
     EnableDiscussions := true;
     EnableDreamCycles := true |}.

(** The fields of the struct.  The collaborators live in other packages:
    for each pointer that may be [nil] the record keeps whether it is set;
    [cancelled] stands for [ctx]/[cancel]. *)
Record AutonomousEchoself := {
  cancelled : bool;
  streamOfConsciousness : bool;
  dreamCycle : bool;
  discussionManager : bool;
  isAwake : bool;
  currentState : EchoselfState;
  config : EchoselfConfig;
  uptimeStart : Time;
  cyclesCompleted : Z;
  wisdomCultivated : Z;
  autonomousActions : Z
}.

Inductive Job :=
| JobAutonomousLifeCycle
| JobInterestDecayLoop
| JobConsciousnessMonitoring
| JobDreamEnd.

Inductive Call :=
| CallEchoBeatsStart
| CallEchoBeatsStop
| CallStreamStart
| CallStreamStop
| CallScheduleWake (at_ : Time)
| CallCollectRecentThoughts
| CallBeginDreamCycle
| CallEndDreamCycle
| CallPersistInterests
| CallPersistDiscussions
| CallGo (j : Job)
| CallCancel.

(** The receiver, the clock, the trace, and the goroutines in flight: the
    local [wakeTime] of [autonomousLifeCycle] and the number of dream-end
    goroutines that have been launched and have not finished. *)
Record World := {
  self : AutonomousEchoself;
  clock : Time;
  calls : list Call;
  wakeTime : Time;
  dreamsInFlight : nat
}.

Definition on_self (f : AutonomousEchoself -> AutonomousEchoself) (w : World) :=
  {| self := f (self w); clock := clock w; calls := calls w;
     wakeTime := wakeTime w; dreamsInFlight := dreamsInFlight w |}.

Definition call (c : Call) (w : World) : World :=
  {| self := self w; clock := clock w; calls := calls w ++ [c];
     wakeTime := wakeTime w; dreamsInFlight := dreamsInFlight w |}.

Definition set_wakeTime (t : Time) (w : World) : World :=
  {| self := self w; clock := clock w; calls := calls w;
     wakeTime := t; dreamsInFlight := dreamsInFlight w |}.

Definition set_dreamsInFlight (n : nat) (w : World) : World :=
  {| self := self w; clock := clock w; calls := calls w;
     wakeTime := wakeTime w; dreamsInFlight := n |}.

Definition set_clock (t : Time) (w : World) : World :=
  {| self := self w; clock := t; calls := calls w;
     wakeTime := wakeTime w; dreamsInFlight := dreamsInFlight w |}.

Definition set_currentState (s : EchoselfState) (ae : AutonomousEchoself) :=
  {| cancelled := cancelled ae;
     streamOfConsciousness := streamOfConsciousness ae;
     dreamCycle := dreamCycle ae; discussionManager := discussionManager ae;
     isAwake := isAwake ae; currentState := s; config := config ae;
     uptimeStart := uptimeStart ae; cyclesCompleted := cyclesCompleted ae;
     wisdomCultivated := wisdomCultivated ae;
     autonomousActions := autonomousActions ae |}.

Definition set_isAwake (b : bool) (ae : AutonomousEchoself) :=
  {| cancelled := cancelled ae;
     streamOfConsciousness := streamOfConsciousness ae;
     dreamCycle := dreamCycle ae; discussionManager := discussionManager ae;
     isAwake := b; currentState := currentState ae; config := config ae;
     uptimeStart := uptimeStart ae; cyclesCompleted := cyclesCompleted ae;
     wisdomCultivated := wisdomCultivated ae;
     autonomousActions := autonomousActions ae |}.

Definition set_cancelled (b : bool) (ae : AutonomousEchoself) :=
  {| cancelled := b;
     streamOfConsciousness := streamOfConsciousness ae;
     dreamCycle := dreamCycle ae; discussionManager := discussionManager ae;
     isAwake := isAwake ae; currentState := currentState ae; config := config ae;
     uptimeStart := uptimeStart ae; cyclesCompleted := cyclesCompleted ae;
     wisdomCultivated := wisdomCultivated ae;
     autonomousActions := autonomousActions ae |}.

Definition set_cyclesCompleted (n : Z) (ae : AutonomousEchoself) :=
  {| cancelled := cancelled ae;
     streamOfConsciousness := streamOfConsciousness ae;
     dreamCycle := dreamCycle ae; discussionManager := discussionManager ae;
     isAwake := isAwake ae; currentState := currentState ae; config := config ae;
     uptimeStart := uptimeStart ae; cyclesCompleted := n;
     wisdomCultivated := wisdomCultivated ae;
     autonomousActions := autonomousActions ae |}.

Definition set_wisdomCultivated (n : Z) (ae : AutonomousEchoself) :=
  {| cancelled := cancelled ae;
     streamOfConsciousness := streamOfConsciousness ae;
     dreamCycle := dreamCycle ae; discussionManager := discussionManager ae;
     isAwake := isAwake ae; currentState := currentState ae; config := config ae;
     uptimeStart := uptimeStart ae; cyclesCompleted := cyclesCompleted ae;
     wisdomCultivated := n;
     autonomousActions := autonomousActions ae |}.

Definition set_autonomousActions (n : Z) (ae : AutonomousEchoself) :=
  {| cancelled := cancelled ae;
     streamOfConsciousness := streamOfConsciousness ae;
     dreamCycle := dreamCycle ae; discussionManager := discussionManager ae;
     isAwake := isAwake ae; currentState := currentState ae; config := config ae;
     uptimeStart := uptimeStart ae; cyclesCompleted := cyclesCompleted ae;
     wisdomCultivated := wisdomCultivated ae;
     autonomousActions := n |}.

(** [NewAutonomousEchoself config], created when the clock shows [now]. *)
Definition NewAutonomousEchoself (config : EchoselfConfig) (now : Time)
  : AutonomousEchoself :=
  {| cancelled := false;
     streamOfConsciousness := EnableStreamOfConsciousness config;
     dreamCycle := EnableDreamCycles config;
     discussionManager := EnableDiscussions config;
     isAwake := false;
     currentState := StateInitializing;
     config := config;
     uptimeStart := now;
     cyclesCompleted := 0;
     wisdomCultivated := 0;
     autonomousActions := 0 |}.

Definition newWorld (config : EchoselfConfig) (now : Time) : World :=
  {| self := NewAutonomousEchoself config now; clock := now; calls := [];
     wakeTime := now; dreamsInFlight := 0 |}.

(** *** Start and stop *)

Definition M := Go.M World.

Definition ok : M := Go.ok.

Definition exec : (World -> World) -> M := Go.exec.

Inductive Component := EchoBeats | StreamOfConsciousness.

(** [env c] is what the [Start] method of collaborator [c] returns. *)
Definition startEchoBeats (env : Component -> error) : M :=
  fun w =>
    let w := call CallEchoBeatsStart w in
    match env EchoBeats with
    | Some err => (Some (Go.Errorf_w "failed to start echobeats" err), w)
    | None => (None, w)
    end.

Definition startStream (env : Component -> error) : M :=
  fun w =>
    if streamOfConsciousness (self w)
    then
      let w := call CallStreamStart w in
      match env StreamOfConsciousness with
      | Some err =>
          (Some (Go.Errorf_w "failed to start stream of consciousness" err), w)
      | None => (None, w)
      end
    else (None, w).

(** [Start].  The life-cycle goroutine reads the clock into its [wakeTime]
    when it begins. *)
Definition Start (env : Component -> error) : M :=
  fun w =>
    if isAwake (self w)
    then (Some "echoself already awake"%string, w)
    else
      (exec (on_self (set_currentState StateWaking)) ;;
       startEchoBeats env ;;
       startStream env ;;
       exec (fun w => set_wakeTime (clock w) (call (CallGo JobAutonomousLifeCycle) w)) ;;
       exec (call (CallGo JobInterestDecayLoop)) ;;
       exec (call (CallGo JobConsciousnessMonitoring)) ;;
       exec (on_self (set_isAwake true)) ;;
       exec (on_self (set_currentState StateAwake)) ;;
       ok) w.

(** [persistAllState]: the interest patterns, then the discussions when
    there is a discussion manager. *)
Definition persistAllState (w : World) : World :=
  let w := call CallPersistInterests w in
  if discussionManager (self w) then call CallPersistDiscussions w else w.

(** [Stop]. *)
Definition Stop : M :=
  fun w =>
    if negb (isAwake (self w))
    then (Some "echoself not awake"%string, w)
    else
      (exec (on_self (set_currentState StateResting)) ;;
       exec (on_self (set_isAwake false)) ;;
       exec (fun w => if streamOfConsciousness (self w)
                      then call CallStreamStop w else w) ;;
       exec (call CallEchoBeatsStop) ;;
       exec persistAllState ;;
       exec (fun w => call CallCancel (on_self (set_cancelled true) w)) ;;
       ok) w.

Definition allStart : Component -> error := fun _ => None.

(** *** The life cycle *)

(** [initiateRest]. *)
Definition initiateRest (w : World) : World :=
  let w := on_self (set_currentState StateResting) w in
  call (CallScheduleWake (Add (clock w) (RestCycleDuration (config (self w))))) w.

(** [initiateDream]: the phase is written first; with a dream component
    the recent thoughts are handed over as memories, the cycle begins and a
    goroutine is launched to end it. *)
Definition initiateDream (w : World) : World :=
  let w := on_self (set_currentState StateDreaming) w in
  if dreamCycle (self w)
  then
    let w :=
      if streamOfConsciousness (self w)
      then call CallCollectRecentThoughts w else w in
    let w := call CallBeginDreamCycle w in
    let w := call (CallGo JobDreamEnd) w in
    set_dreamsInFlight (S (dreamsInFlight w)) w
  else w.

(** The goroutine launched by [initiateDream], from the moment its
    [time.Sleep] returns: the cycle is ended and counted.  It can run only
    if it was launched. *)
Definition dreamEnd (w : World) : option World :=
  match dreamsInFlight w with
  | O => None
  | S n =>
      let w := call CallEndDreamCycle w in
      let w :=
        on_self (fun ae =>
                   set_cyclesCompleted (wrapU64 (cyclesCompleted ae + 1)) ae) w in
      Some (set_dreamsInFlight n w)
  end.

(** One tick of [autonomousLifeCycle]; [isDreaming] is the answer of
    [dreamCycle.IsDreaming()]. *)
Definition autonomousLifeCycle_tick (isDreaming : bool) (w : World) : World :=
  match currentState (self w) with
  | StateAwake | StateThinking =>
      if Since (clock w) (wakeTime w) >? WakeCycleDuration (config (self w))
      then let w := initiateRest w in set_wakeTime (clock w) w
      else w
  | StateResting =>
      if EnableDreamCycles (config (self w)) && dreamCycle (self w)
         && negb isDreaming
      then initiateDream w
      else w
  | _ => w
  end.

(** The event handlers registered with the scheduler, and the callback on
    extracted wisdom. *)
Definition handleWakeEvent (w : World) : World :=
  on_self (set_currentState StateAwake) w.

Definition handleRestEvent (w : World) : World := initiateRest w.

Definition handleDreamEvent (w : World) : World := initiateDream w.

Definition handleThoughtEvent (payloadIsString : bool) (w : World) : World :=
  if payloadIsString
  then on_self (fun ae =>
                  set_autonomousActions (wrapU64 (autonomousActions ae + 1)) ae) w
  else w.

Definition handleLearningEvent (w : World) : World := w.

Definition onWisdomExtracted (w : World) : World :=
  on_self (fun ae => set_wisdomCultivated (wrapU64 (wisdomCultivated ae + 1)) ae) w.

(** [GetMetrics], restricted to the entries read from the receiver. *)
Record Metrics := {
  current_state : EchoselfState;
  is_awake : bool;
  cycles_completed : Z;
  wisdom_cultivated : Z;
  autonomous_actions : Z
}.

Definition GetMetrics (w : World) : Metrics :=
  {| current_state := currentState (self w);
     is_awake := isAwake (self w);
     cycles_completed := cyclesCompleted (self w);
     wisdom_cultivated := wisdomCultivated (self w);
     autonomous_actions := autonomousActions (self w) |}.

(** *** Runs

    Everything that can happen to a running instance, one event at a
    time: a call from outside, a tick, a handler, a goroutine finishing, or
    time passing. *)
Inductive Event :=
| EvStart (env : Component -> error)
| EvStop
| EvTick (isDreaming : bool)
| EvWake
| EvRest
| EvDream
| EvThought (payloadIsString : bool)
| EvLearning
| EvWisdom
| EvDreamEnd
| EvElapse (d : Duration).

Definition step (e : Event) (w : World) : option World :=
  match e with
  | EvStart env => Some (snd (Start env w))
  | EvStop => Some (snd (Stop w))
  | EvTick isDreaming => Some (autonomousLifeCycle_tick isDreaming w)
  | EvWake => Some (handleWakeEvent w)
  | EvRest => Some (handleRestEvent w)
  | EvDream => Some (handleDreamEvent w)
  | EvThought b => Some (handleThoughtEvent b w)
  | EvLearning => Some (handleLearningEvent w)
  | EvWisdom => Some (onWisdomExtracted w)
  | EvDreamEnd => dreamEnd w
  | EvElapse d => Some (set_clock (Add (clock w) (Z.max 0 d)) w)
  end.

Fixpoint run (es : list Event) (w : World) : option World :=
  match es with
  | [] => Some w
  | e :: es' =>
      match step e w with
      | Some w' => run es' w'
      | None => None
      end
  end.

Definition isDreamEnd (e : Event) : bool :=
  match e with EvDreamEnd => true | _ => false end.

(** The number of dream cycles brought to completion by a run. *)
Definition completedDreams (es : list Event) : Z :=
  Z.of_nat (List.length (filter isDreamEnd es)).

(** [n] dream cycles in a row, each begun and then completed. *)
Fixpoint dreamCycles (n : nat) : list Event :=
  match n with
  | O => []
  | S n' => EvDream :: EvDreamEnd :: dreamCycles n'
  end.

Definition occurrences (p : Call -> bool) (l : list Call) : nat :=
  List.length (filter p l).

Definition isCancel (c : Call) : bool :=
  match c with CallCancel => true | _ => false end.

End core.

(** ** The arithmetic steps in binary64

    The same expressions as in the methods above, on the machine's
    [float64], to evaluate them at given inputs with the rounding the
    hardware applies. *)

Module Binary64.

Import PrimFloat.

#[local] Set Warnings "-inexact-float".

Local Open Scope float_scope.

(** [fatigueLevel += currentLoad * fatigueRate]. *)
Definition accumulate (fatigueLevel currentLoad fatigueRate : float) : float :=
  fatigueLevel + currentLoad * fatigueRate.

(** The recovery write of [dreamCycle], for a rest of [minutes]. *)
Definition recover (fatigueLevel recoveryRate minutes : float) : float :=
  let fatigueLevel := fatigueLevel * (1.0 - recoveryRate * minutes) in
  if fatigueLevel <? 0 then 0 else fatigueLevel.

(** The operand of [time.Duration(fatigue*60)]. *)
Definition restMinutes (fatigue : float) : float := fatigue * 60.

Definition fatigueRate : float := 0.01.

Definition recoveryRate : float := 0.05.

(** The rational a finite [float64] stands for. *)
Definition Q_of_float (x : float) : Q :=
  match FloatOps.Prim2SF x with
  | SpecFloat.S754_finite s m e =>
      ((if s then -1 else 1) * inject_Z (Zpos m) * Num.pow2 e)%Q
  | _ => 0%Q
  end.

(** The hardware product of two [float64] is the rounded exact product. *)
Definition mul_is_rounded (x y : float) : bool :=
  Qeq_bool (Num.round64 (Q_of_float x * Q_of_float y)) (Q_of_float (x * y)).

(** Fatigue levels at which the product with 60 is checked. *)
Definition sampleLevels : list float :=
  [0.95; 0.15; 0.9; 0.875; 0.76; 0.2; 0.1; 0.3333333333333333; 1; 2.5;
   0.001; 1e-300; 1e-320].

End Binary64.

(** ** Sample states *)

Module Samples.

Import Num.
Import time.
Import deeptreeecho.

(** An instance that is awake since instant 0, with the given fatigue and
    current load; everything else as constructed. *)
Definition awakeWith (fatigue load : Q) (now : Time) : World :=
  let ac := NewAutonomousConsciousnessV4 false in
  let lm := set_currentLoad load (set_fatigueLevel fatigue (loadManager ac)) in
  {| self := set_running true (set_awake true (set_loadManager lm ac));
     clock := now; calls := [] |}.

Definition aThought : Thought :=
  {| Type_ := "reflection"; Content := "pattern"; Importance := 0.5 |}.

(** An instance with three thoughts in working memory, an open discussion
    and no skill practice. *)
Definition inDiscussion : AutonomousConsciousnessV4 :=
  let ac := NewAutonomousConsciousnessV4 false in
  set_discussionMgr (Some {| HasActiveDiscussions := true |})
    (set_workingMemory
       {| buffer := [aThought; aThought; aThought]; capacity := 7 |} ac).

(** The dream system refuses to start; the other sub-systems start. *)
Definition dreamFails (c : Component) : error :=
  match c with
  | EchoDream => Some "out of memory"%string
  | _ => None
  end.

(** An instance with a persistence layer that has been running for a
    while: awake, fatigue one half, three iterations done. *)
Definition worked : World :=
  let ac := NewAutonomousConsciousnessV4 true in
  let lm := set_currentLoad 0.5 (set_fatigueLevel 0.5 (loadManager ac)) in
  {| self :=
       set_iterations 3
         (set_running true (set_awake true (set_loadManager lm ac)));
     clock := 10 * Minute; calls := [] |}.

End Samples.

(** ** More of [AutonomousConsciousnessV4]: thoughts and the loops at work *)

Module V4Loops.

Import Num.
Import time.
Import deeptreeecho.

(** The calls [processEmergedThought] makes to the wisdom metrics. *)
Inductive ThoughtCall :=
| CallRecordThought (t : Thought).

(** [storeThoughtInHypergraph]: in the source the body of its only branch
    is empty. *)
Definition storeThoughtInHypergraph (hypergraph : bool) (thought : Thought)
           (w : World) : World :=
  if hypergraph then w else w.

(** [processEmergedThought].  [hypergraph] tells whether the pointer of
    that name is non-nil.  The result carries the call to
    [wisdomMetrics.RecordThought]. *)
Definition processEmergedThought (hypergraph : bool) (thought : Thought)
           (w : World) : World * list ThoughtCall :=
  let wm := workingMemory (self w) in
  let buf := buffer wm ++ [thought] in
  let buf :=
    if Z.of_nat (List.length buf) >? capacity wm then skipn 1 buf else buf in
  let w :=
    on_self (set_workingMemory {| buffer := buf; capacity := capacity wm |}) w in
  let w :=
    if Qlt_bool 0.6 (Importance thought) && hypergraph
    then storeThoughtInHypergraph hypergraph thought w
    else w in
  (w, [CallRecordThought thought]).

(** The thoughts of a list processed one after the other. *)
Fixpoint processThoughts (hypergraph : bool) (ts : list Thought) (w : World)
  : World :=
  match ts with
  | [] => w
  | t :: ts' => processThoughts hypergraph ts' (fst (processEmergedThought hypergraph t w))
  end.

(** The last [c] elements of a list. *)
Definition lastn {A : Type} (c : nat) (l : list A) : list A :=
  skipn (List.length l - c) l.

(** [n] ticks of [cognitiveLoadMonitoring] in a row. *)
Fixpoint loadTicks (n : nat) (w : World) : World :=
  match n with
  | O => w
  | S n' => loadTicks n' (cognitiveLoadMonitoring_tick w)
  end.

(** The ticks the load monitor makes in a time [d], the first one a period
    after the ticker is made. *)
Definition ticksIn (d : Duration) : nat := Z.to_nat (d / loadTickInterval).

(** The worlds the first [n] ticks of the load monitor leave, the oldest
    first. *)
Fixpoint tickStates (n : nat) (w : World) : list World :=
  match n with
  | O => []
  | S n' =>
      let w' := cognitiveLoadMonitoring_tick w in
      w' :: tickStates n' w'
  end.

(** The snapshot a tick of [cognitiveLoadMonitoring] records. *)
Definition snapshotOf (w : World) : LoadSnapshot :=
  {| Timestamp := clock w;
     Load := currentLoad (loadManager (self w));
     Fatigue := fatigueLevel (loadManager (self w)) |}.

(** Time passing with no goroutine running. *)
Definition elapse (d : Duration) (w : World) : World :=
  {| self := self w; clock := Add (clock w) (Z.max 0 d); calls := calls w |}.

(** What the three loops with a modelled body do, one tick at a time, and
    time passing between ticks. *)
Inductive LoopEvent :=
| LoadTick
| TriggerTick
| PersistTick
| Elapse (d : Duration).

Definition loopStep (e : LoopEvent) (w : World) : World :=
  match e with
  | LoadTick => cognitiveLoadMonitoring_tick w
  | TriggerTick => automaticDreamTriggerLoop_tick w
  | PersistTick => periodicPersistence_tick w
  | Elapse d => elapse d w
  end.

Fixpoint loopRun (es : list LoopEvent) (w : World) : World :=
  match es with
  | [] => w
  | e :: es' => loopRun es' (loopStep e w)
  end.

(** A whole rest as the trigger loop starts it: [Rest], then the dream
    cycle [Rest] has launched, run to its end. *)
Definition restCycle (w : World) : World :=
  dreamCycle (restDuration (fatigueLevel (loadManager (self w)))) (Rest w).

End V4Loops.

(** ** More of [AutonomousEchoself]: what runs are made of *)

Module EchoselfRuns.

Import Num.
Import time.
Import core.

Definition isStringThought (e : Event) : bool :=
  match e with EvThought true => true | _ => false end.

Definition isWisdom (e : Event) : bool :=
  match e with EvWisdom => true | _ => false end.

Definition count (p : Event -> bool) (es : list Event) : Z :=
  Z.of_nat (List.length (filter p es)).

Definition isBegin (c : Call) : bool :=
  match c with CallBeginDreamCycle => true | _ => false end.

Definition isEnd (c : Call) : bool :=
  match c with CallEndDreamCycle => true | _ => false end.

Definition isGoDreamEnd (c : Call) : bool :=
  match c with CallGo JobDreamEnd => true | _ => false end.

Definition isGo (c : Call) : bool :=
  match c with CallGo _ => true | _ => false end.

(** Every dream cycle that was begun has been ended or has its goroutine
    still in flight, and each was given its goroutine. *)
Definition balanced (w : World) : Prop :=
  occurrences isBegin (calls w)
  = (occurrences isEnd (calls w) + dreamsInFlight w)%nat
  /\ occurrences isGoDreamEnd (calls w) = occurrences isBegin (calls w).

(** The events that come from the instance's own goroutines and from time:
    ticks, dream cycles ending, time passing, and the handlers that do not
    write the phase.  The others are calls from outside ([Start], [Stop])
    and the wake, rest and dream events of the scheduler. *)
Definition isInternal (e : Event) : bool :=
  match e with
  | EvTick _ | EvDreamEnd | EvElapse _
  | EvThought _ | EvLearning | EvWisdom => true
  | EvStart _ | EvStop | EvWake | EvRest | EvDream => false
  end.

Definition resting (s : EchoselfState) : bool :=
  match s with StateResting | StateDreaming => true | _ => false end.

Definition dreaming (s : EchoselfState) : bool :=
  match s with StateDreaming => true | _ => false end.

Definition isScheduleWake (c : Call) : bool :=
  match c with CallScheduleWake _ => true | _ => false end.

(** The rests still open to the life-cycle loop: those it has scheduled a
    wake for, and one more as long as the phase is not yet a resting one. *)
Definition restBudget (w : World) : nat :=
  occurrences isScheduleWake (calls w)
  + (if resting (currentState (self w)) then 0 else 1).

(** The same for dream cycles: those begun, and one more as long as the
    phase is not Dreaming. *)
Definition dreamBudget (w : World) : nat :=
  occurrences isBegin (calls w)
  + (if dreaming (currentState (self w)) then 0 else 1).

End EchoselfRuns.

(** ** Package [main]: the helpers of the test program of [AutonomousEchoself] *)

Module main.

Import Num.

Local Open Scope string_scope.

(** [repeat]: the loop body [result += s] runs [count] times, and not at
    all for a [count] that is not positive. *)
Fixpoint repeat_loop (n : nat) (s result : string) : string :=
  match n with
  | O => result
  | S n' => repeat_loop n' s (result ++ s)
  end.

Definition repeat (s : string) (count : Z) : string :=
  repeat_loop (Z.to_nat count) s "".

(** [s[:hi]] on a string: a run-time panic ([None]) unless
    [0 <= hi <= len(s)]. *)
Definition slice_to (s : string) (hi : Z) : option string :=
  if (hi <? 0)%Z || (Z.of_nat (String.length s) <? hi)%Z
  then None
  else Some (substring 0 (Z.to_nat hi) s).

(** [truncate]; [maxLen-3] is computed on [int]. *)
Definition truncate (s : string) (maxLen : Z) : option string :=
  if (Z.of_nat (String.length s) <=? maxLen)%Z then Some s
  else
    match slice_to s (wrap64 (maxLen - 3)) with
    | Some prefix => Some (prefix ++ "...")
    | None => None
    end.

End main.

(** * Properties *)

(** ** Arithmetic *)

Section NumFacts.

Import Num.

Lemma Qlt_bool_iff (x y : Q) : Qlt_bool x y = true <-> (x < y)%Q.
Proof.
  unfold Qlt_bool. rewrite negb_true_iff.
  split; intro H.
  - apply Qnot_le_lt. intro Hle. apply Qle_bool_iff in Hle. congruence.
  - destruct (Qle_bool y x) eqn:E; [|reflexivity].
    apply Qle_bool_iff in E. exfalso. apply (Qlt_not_le _ _ H E).
Qed.

Lemma Qlt_bool_false_iff (x y : Q) : Qlt_bool x y = false <-> (y <= x)%Q.
Proof.
  unfold Qlt_bool. rewrite negb_false_iff. apply Qle_bool_iff.
Qed.

Lemma Qle_bool_false_iff (x y : Q) : Qle_bool x y = false <-> (y < x)%Q.
Proof.
  rewrite <- Qlt_bool_iff. unfold Qlt_bool.
  destruct (Qle_bool x y); simpl; intuition congruence.
Qed.

Lemma wrap64_small (z : Z) : - 2 ^ 63 <= z < 2 ^ 63 -> wrap64 z = z.
Proof.
  intro H. unfold wrap64. rewrite Z.mod_small; lia.
Qed.

Lemma wrapU64_small (z : Z) : 0 <= z < 2 ^ 64 -> wrapU64 z = z.
Proof.
  intro H. unfold wrapU64. apply Z.mod_small; lia.
Qed.

(** A quotient of a length by a positive capacity is not negative. *)
Lemma ratio_nonneg (n : nat) (c : Z) :
  0 < c -> (0 <= inject_Z (Z.of_nat n) / inject_Z c)%Q.
Proof.
  intro Hc.
  apply Qle_shift_div_l.
  - change 0%Q with (inject_Z 0). rewrite <- Zlt_Qlt. exact Hc.
  - rewrite Qmult_0_l. change 0%Q with (inject_Z 0). rewrite <- Zle_Qle. lia.
Qed.

Lemma roundHalfEven_ge_floor (q : Q) : Qfloor q <= roundHalfEven q.
Proof.
  unfold roundHalfEven.
  destruct (Qcompare (q - inject_Z (Qfloor q)) (1 # 2)); [|lia|lia].
  destruct (Z.even (Qfloor q)); lia.
Qed.

Lemma roundHalfEven_ge (j : Z) (q : Q) :
  (inject_Z j <= q)%Q -> j <= roundHalfEven q.
Proof.
  intro H. apply Qfloor_resp_le in H. rewrite Qfloor_Z in H.
  pose proof (roundHalfEven_ge_floor q). lia.
Qed.

Lemma pow2_pos (e : Z) : (0 < pow2 e)%Q.
Proof.
  unfold pow2. apply Qpower_0_lt. reflexivity.
Qed.

Lemma pow2_nonneg_exp (e : Z) : 0 <= e -> (pow2 e == inject_Z (2 ^ e))%Q.
Proof.
  intro H. unfold pow2. rewrite Zpower_Qpower by exact H. reflexivity.
Qed.

Lemma pow2_neg_exp (e : Z) : e <= 0 -> (pow2 e == / inject_Z (2 ^ (- e)))%Q.
Proof.
  intro H. unfold pow2.
  replace e with (- - e) at 1 by lia.
  rewrite Qpower_opp, Zpower_Qpower by lia. reflexivity.
Qed.

(** Rounding to binary64 does not fall below a whole number that the
    operand has reached. *)
Lemma round64_ge (k : Z) (x : Q) :
  0 < k <= 2 ^ 52 -> (inject_Z k <= x)%Q -> (inject_Z k <= round64 x)%Q.
Proof.
  intros Hk Hx.
  assert (1 <= x)%Q as H1.
  { eapply Qle_trans; [|exact Hx]. change 1%Q with (inject_Z 1).
    rewrite <- Zle_Qle. lia. }
  unfold round64.
  assert (Qcompare x 0 = Gt) as ->.
  { rewrite <- Qgt_alt. lra. }
  unfold round64_pos, ulpExponent, floorLog2.
  assert (Qle_bool 1 x = true) as -> by (apply Qle_bool_iff; exact H1).
  assert (1 <= Qfloor x) as Hfl.
  { rewrite <- (Qfloor_Z 1). apply Qfloor_resp_le. exact H1. }
  pose proof (Z.log2_nonneg (Qfloor x)) as HL0.
  destruct (Z.log2_spec (Qfloor x) ltac:(lia)) as [HL _].
  set (L := Z.log2 (Qfloor x)) in *.
  rewrite Z.max_l by lia.
  set (e := L - 52).
  destruct (Z_le_gt_dec e 0) as [He|He].
  - assert (pow2 e == / inject_Z (2 ^ (- e)))%Q as Hpe
        by (apply pow2_neg_exp; exact He).
    assert (0 < 2 ^ (- e)) as HP by (apply Z.pow_pos_nonneg; lia).
    assert (0 < inject_Z (2 ^ (- e)))%Q as HPq
        by (change 0%Q with (inject_Z 0); rewrite <- Zlt_Qlt; exact HP).
    assert (inject_Z (k * 2 ^ (- e)) <= x / pow2 e)%Q as Hq.
    { rewrite Hpe, inject_Z_mult. unfold Qdiv. rewrite Qinv_involutive.
      apply Qmult_le_compat_r; [exact Hx|]. apply Qlt_le_weak. exact HPq. }
    apply roundHalfEven_ge in Hq.
    set (m := roundHalfEven (x / pow2 e)) in *.
    rewrite Zle_Qle, inject_Z_mult in Hq.
    rewrite Hpe.
    apply Qle_shift_div_l; [exact HPq|]. exact Hq.
  - assert (pow2 e == inject_Z (2 ^ e))%Q as Hpe
        by (apply pow2_nonneg_exp; lia).
    assert (0 < 2 ^ e) as HP by (apply Z.pow_pos_nonneg; lia).
    assert (0 < inject_Z (2 ^ e))%Q as HPq
        by (change 0%Q with (inject_Z 0); rewrite <- Zlt_Qlt; exact HP).
    assert (2 ^ L = 2 ^ 52 * 2 ^ e) as HLe.
    { rewrite <- Z.pow_add_r by lia. f_equal. unfold e. lia. }
    assert (inject_Z (2 ^ 52) <= x / pow2 e)%Q as Hq.
    { rewrite Hpe. apply Qle_shift_div_l; [exact HPq|].
      rewrite <- inject_Z_mult, <- HLe.
      eapply Qle_trans; [|apply Qfloor_le]. rewrite <- Zle_Qle. exact HL. }
    apply roundHalfEven_ge in Hq.
    set (m := roundHalfEven (x / pow2 e)) in *.
    rewrite Hpe, <- inject_Z_mult, <- Zle_Qle.
    assert (1 <= 2 ^ e) by lia. nia.
Qed.

End NumFacts.

(** A boolean comparison on [Q] is split into its two outcomes, each with
    the order fact it stands for. *)
Ltac case_Qlt x y :=
  let E := fresh "E" in
  destruct (Num.Qlt_bool x y) eqn:E;
  [ apply Qlt_bool_iff in E | apply Qlt_bool_false_iff in E ].

(** ** The load and fatigue model of [AutonomousConsciousnessV4] *)

Section LoadModel.

Import Num.
Import time.
Import deeptreeecho.

Local Open Scope Q_scope.

(** The memory term of the load lies between 0 and its weight as long as
    the working memory is a proper buffer. *)
Lemma occupancy_nonneg (ac : AutonomousConsciousnessV4) :
  (0 < capacity (workingMemory ac))%Z -> 0 <= occupancy ac.
Proof.
  intro Hc. unfold occupancy. apply ratio_nonneg. exact Hc.
Qed.

Lemma indicator_range (b : bool) : 0 <= indicator b <= 1.
Proof.
  destruct b; simpl; lra.
Qed.

(** The code's sum, contributor by contributor, is the weighted sum. *)
Lemma calculateCurrentLoad_unfold (ac : AutonomousConsciousnessV4) :
  calculateCurrentLoad ac ==
  weightedLoad (occupancy ac) (inActiveDiscussion ac)
               (IsCurrentlyPracticing (skills ac)).
Proof.
  unfold calculateCurrentLoad, weightedLoad, float64.
  fold (occupancy ac).
  set (occ := occupancy ac).
  destruct (inActiveDiscussion ac), (IsCurrentlyPracticing (skills ac));
    cbn [indicator];
    match goal with
    | |- (if Qlt_bool ?a ?b then _ else _) == (if Qle_bool ?c ?d then _ else _) =>
        case_Qlt a b;
        destruct (Qle_bool c d) eqn:E';
        [ apply Qle_bool_iff in E' | apply Qle_bool_false_iff in E'
        | apply Qle_bool_iff in E' | apply Qle_bool_false_iff in E' ]
    end; lra.
Qed.

Lemma weightedLoad_range (occ : Q) (d p : bool) :
  0 <= occ -> 0 <= weightedLoad occ d p <= 1.
Proof.
  intro Hocc. unfold weightedLoad.
  pose proof (indicator_range d) as Hd.
  pose proof (indicator_range p) as Hp.
  match goal with
  | |- context [Qle_bool ?c ?e] =>
      destruct (Qle_bool c e) eqn:E;
      [ apply Qle_bool_iff in E | apply Qle_bool_false_iff in E ]
  end; lra.
Qed.

Lemma calculateCurrentLoad_range (ac : AutonomousConsciousnessV4) :
  (0 < capacity (workingMemory ac))%Z -> unit_interval (calculateCurrentLoad ac).
Proof.
  intro Hc. unfold unit_interval. rewrite calculateCurrentLoad_unfold.
  apply weightedLoad_range, occupancy_nonneg, Hc.
Qed.

(** C7. For every state whose working memory has a positive capacity, the
    load computed by [calculateCurrentLoad] is the weighted sum of its
    contributors (occupancy of the working memory with weight 0.3, an open
    discussion contributing 0.4, skill practice contributing 0.3, and the
    base term 0.1) capped at 1, and it lies in the unit interval. *)
Theorem calculateCurrentLoad_weighted_sum (ac : AutonomousConsciousnessV4) :
  (0 < capacity (workingMemory ac))%Z ->
  calculateCurrentLoad ac ==
    weightedLoad (occupancy ac) (inActiveDiscussion ac)
                 (IsCurrentlyPracticing (skills ac))
  /\ unit_interval (calculateCurrentLoad ac).
Proof.
  intro Hc. split.
  - apply calculateCurrentLoad_unfold.
  - apply calculateCurrentLoad_range, Hc.
Qed.

End LoadModel.

Section LoadModelWitness.

Import Num.
Import deeptreeecho.

Lemma calculateCurrentLoad_weighted_sum_witness :
  (calculateCurrentLoad Samples.inDiscussion ==
     weightedLoad (3 # 7) true false)%Q
  /\ unit_interval (calculateCurrentLoad Samples.inDiscussion).
Proof.
  apply (calculateCurrentLoad_weighted_sum Samples.inDiscussion).
  reflexivity.
Defined.

End LoadModelWitness.

(** ** Writes to the fatigue level *)

Section FatigueWrites.

Import Num.
Import time.
Import deeptreeecho.

Local Open Scope Q_scope.

Lemma Minutes_nonneg (d : Duration) : (0 <= d)%Z -> 0 <= Minutes d.
Proof.
  intro Hd. unfold Minutes.
  apply Qle_shift_div_l.
  - reflexivity.
  - rewrite Qmult_0_l. change 0 with (inject_Z 0). rewrite <- Zle_Qle. exact Hd.
Qed.

Lemma Minutes_le (d d' : Duration) : (d <= d')%Z -> Minutes d <= Minutes d'.
Proof.
  intro H. unfold Minutes, Qdiv.
  apply Qmult_le_compat_r.
  - rewrite <- Zle_Qle. exact H.
  - apply Qinv_le_0_compat. discriminate.
Qed.

Lemma Minutes_of_minutes (n : Z) : Minutes (n * Minute)%Z == inject_Z n.
Proof.
  unfold Minutes. rewrite inject_Z_mult. field. discriminate.
Qed.

(** The tick changes the fatigue only by the accumulation step; the
    bookkeeping of the history leaves both the level and the load alone. *)
Lemma tick_fatigueLevel (w : World) :
  fatigueLevel (loadManager (self (cognitiveLoadMonitoring_tick w))) =
  if awake (self w)
  then fatigueLevel (loadManager (self w))
       + currentLoad (loadManager (self w)) * fatigueRate (loadManager (self w))
  else fatigueLevel (loadManager (self w)).
Proof.
  unfold cognitiveLoadMonitoring_tick.
  destruct (awake (self w)); cbn;
    match goal with
    | |- context [if ?c then _ else _] => destruct c
    end; reflexivity.
Qed.

Lemma tick_currentLoad (w : World) :
  currentLoad (loadManager (self (cognitiveLoadMonitoring_tick w))) =
  currentLoad (loadManager (self w)).
Proof.
  unfold cognitiveLoadMonitoring_tick.
  destruct (awake (self w)); cbn;
    match goal with
    | |- context [if ?c then _ else _] => destruct c
    end; reflexivity.
Qed.

(** The recovery write, as a function of the level before it. *)
Lemma recover_fatigueLevel (d : Duration) (lm : CognitiveLoadManager) :
  fatigueLevel (recover d lm) =
  let f := fatigueLevel lm * (1.0 - recoveryRate lm * Minutes d) in
  if Qlt_bool f 0 then 0 else f.
Proof.
  unfold recover. cbn.
  destruct (Qlt_bool _ 0); reflexivity.
Qed.

Lemma recover_nonneg (d : Duration) (lm : CognitiveLoadManager) :
  0 <= fatigueLevel (recover d lm).
Proof.
  rewrite recover_fatigueLevel. cbv zeta.
  case_Qlt (fatigueLevel lm * (1.0 - recoveryRate lm * Minutes d)) 0.
  - apply Qle_refl.
  - exact E.
Qed.

Lemma recover_le (d : Duration) (lm : CognitiveLoadManager) :
  0 <= fatigueLevel lm -> 0 <= recoveryRate lm -> (0 <= d)%Z ->
  fatigueLevel (recover d lm) <= fatigueLevel lm.
Proof.
  intros Hf Hr Hd.
  rewrite recover_fatigueLevel. cbv zeta.
  pose proof (Minutes_nonneg d Hd) as Hm.
  case_Qlt (fatigueLevel lm * (1.0 - recoveryRate lm * Minutes d)) 0.
  - exact Hf.
  - assert (0 <= recoveryRate lm * Minutes d) as Hp by (apply Qmult_le_0_compat; assumption).
    assert (0 <= fatigueLevel lm * (recoveryRate lm * Minutes d)) as Hq
        by (apply Qmult_le_0_compat; assumption).
    lra.
Qed.

(** [Wake] scales the level by 0.3 or leaves it. *)
Lemma Wake_fatigueLevel (w : World) :
  fatigueLevel (loadManager (self (Wake w))) =
  if awake (self w) then fatigueLevel (loadManager (self w))
  else fatigueLevel (loadManager (self w)) * 0.3.
Proof.
  unfold Wake. destruct (awake (self w)) eqn:E; reflexivity.
Qed.

(** The level after a whole dream cycle: recovery, then the wake-up. *)
Lemma dreamCycle_fatigueLevel (d : Duration) (w : World) :
  fatigueLevel (loadManager (self (dreamCycle d w))) =
  if awake (self w)
  then fatigueLevel (recover d (loadManager (self w)))
  else fatigueLevel (recover d (loadManager (self w))) * 0.3.
Proof.
  unfold dreamCycle. rewrite Wake_fatigueLevel. reflexivity.
Qed.

(** C1, as the code has it. Provided the level, the load and the two rates
    are not negative: after an accumulation tick the fatigue level is the
    old level plus load times rate when awake (and the old level when
    not), so it is not negative, and the tick leaves the current load as
    it was; after the recovery write of a dream cycle of non-negative
    duration the level is floored at 0 in that same write and does not
    exceed a previous level of at most 1, also once the cycle has woken the
    instance; and a load computed by [calculateCurrentLoad] for a working
    memory of positive capacity lies in the unit interval. *)
Theorem fatigue_writes_bounds (w : World) (d : Duration) :
  0 <= fatigueLevel (loadManager (self w)) ->
  0 <= currentLoad (loadManager (self w)) ->
  0 <= fatigueRate (loadManager (self w)) ->
  0 <= recoveryRate (loadManager (self w)) ->
  (0 <= d)%Z ->
  (fatigueLevel (loadManager (self (cognitiveLoadMonitoring_tick w))) ==
     (if awake (self w)
      then fatigueLevel (loadManager (self w))
           + currentLoad (loadManager (self w)) * fatigueRate (loadManager (self w))
      else fatigueLevel (loadManager (self w)))
   /\ 0 <= fatigueLevel (loadManager (self (cognitiveLoadMonitoring_tick w)))
   /\ currentLoad (loadManager (self (cognitiveLoadMonitoring_tick w))) =
      currentLoad (loadManager (self w)))
  /\ (0 <= fatigueLevel (recover d (loadManager (self w)))
      /\ (fatigueLevel (loadManager (self w)) <= 1 ->
          unit_interval (fatigueLevel (recover d (loadManager (self w))))
          /\ unit_interval (fatigueLevel (loadManager (self (dreamCycle d w))))))
  /\ ((0 < capacity (workingMemory (self w)))%Z ->
      unit_interval (calculateCurrentLoad (self w))).
Proof.
  intros Hf Hl Hfr Hrr Hd.
  pose proof (recover_nonneg d (loadManager (self w))) as Hn.
  pose proof (recover_le d (loadManager (self w)) Hf Hrr Hd) as Hle.
  repeat split.
  - rewrite tick_fatigueLevel. reflexivity.
  - rewrite tick_fatigueLevel.
    destruct (awake (self w)); [|exact Hf].
    assert (0 <= currentLoad (loadManager (self w))
                 * fatigueRate (loadManager (self w)))
      by (apply Qmult_le_0_compat; assumption).
    lra.
  - apply tick_currentLoad.
  - exact Hn.
  - exact Hn.
  - lra.
  - rewrite dreamCycle_fatigueLevel. destruct (awake (self w)); lra.
  - rewrite dreamCycle_fatigueLevel. destruct (awake (self w)); lra.
  - apply (calculateCurrentLoad_range (self w)). assumption.
  - apply (calculateCurrentLoad_range (self w)). assumption.
Qed.

End FatigueWrites.

Section FatigueWritesAtSamples.

Import Num.
Import time.
Import deeptreeecho.

Local Open Scope Q_scope.

(** A rested instance: fatigue one half, load one half, and a dream cycle of
    ten minutes. *)
Lemma fatigue_writes_bounds_witness :
  let w := Samples.awakeWith 0.5 0.5 0%Z in
  0 <= fatigueLevel (loadManager (self w))
  /\ fatigueLevel (loadManager (self (cognitiveLoadMonitoring_tick w))) == 0.505
  /\ unit_interval (fatigueLevel (recover (10 * Minute)%Z (loadManager (self w))))
  /\ unit_interval (calculateCurrentLoad (self w)).
Proof.
  intro w.
  assert (0 <= fatigueLevel (loadManager (self w))) as Hf by (vm_compute; discriminate).
  assert (0 <= currentLoad (loadManager (self w))) as Hl by (vm_compute; discriminate).
  assert (0 <= fatigueRate (loadManager (self w))) as Hfr by (vm_compute; discriminate).
  assert (0 <= recoveryRate (loadManager (self w))) as Hrr by (vm_compute; discriminate).
  assert (0 <= 10 * Minute)%Z as Hd by (vm_compute; discriminate).
  destruct (fatigue_writes_bounds w (10 * Minute)%Z Hf Hl Hfr Hrr Hd)
    as [[Htick _] [[_ Hrec] Hload]].
  split; [exact Hf|].
  split; [rewrite Htick; reflexivity|].
  split; [apply Hrec; vm_compute; discriminate|].
  apply Hload. reflexivity.
Defined.

(** C1, as stated, fails at the accumulation tick: an awake instance whose
    fatigue and load are both 1 (inside the unit interval) has fatigue 1.01
    after the tick, since the sum is stored without an upper clamp. *)
Lemma accumulation_tick_exceeds_one :
  let w := Samples.awakeWith 1 1 0%Z in
  unit_interval (fatigueLevel (loadManager (self w)))
  /\ unit_interval (currentLoad (loadManager (self w)))
  /\ fatigueLevel (loadManager (self (cognitiveLoadMonitoring_tick w))) == 1.01
  /\ ~ unit_interval (fatigueLevel (loadManager (self (cognitiveLoadMonitoring_tick w)))).
Proof.
  cbv zeta. repeat split; try (vm_compute; discriminate).
  intros [_ H]. vm_compute in H. apply H. reflexivity.
Qed.

End FatigueWritesAtSamples.

(** ** The load monitor, tick after tick *)

Section TicksInARow.

Import Num.
Import time.
Import deeptreeecho.
Import V4Loops.

Local Open Scope Q_scope.

(** The parts of the world a tick of the load monitor leaves alone. *)
Lemma tick_frame (w : World) :
  awake (self (cognitiveLoadMonitoring_tick w)) = awake (self w)
  /\ fatigueRate (loadManager (self (cognitiveLoadMonitoring_tick w)))
     = fatigueRate (loadManager (self w))
  /\ clock (cognitiveLoadMonitoring_tick w) = clock w
  /\ calls (cognitiveLoadMonitoring_tick w) = calls w
  /\ workingMemory (self (cognitiveLoadMonitoring_tick w)) = workingMemory (self w).
Proof.
  unfold cognitiveLoadMonitoring_tick.
  destruct (awake (self w)) eqn:E; cbn;
    match goal with
    | |- context [if ?c then _ else _] => destruct c
    end; cbn; repeat split; first [reflexivity | exact E].
Qed.

Lemma loadTicks_succ (n : nat) (w : World) :
  loadTicks (S n) w = cognitiveLoadMonitoring_tick (loadTicks n w).
Proof.
  revert w. induction n as [|n IH]; intro w.
  - reflexivity.
  - change (loadTicks (S (S n)) w)
      with (loadTicks (S n) (cognitiveLoadMonitoring_tick w)).
    rewrite IH. reflexivity.
Qed.

Lemma loadTicks_frame (n : nat) (w : World) :
  awake (self (loadTicks n w)) = awake (self w)
  /\ currentLoad (loadManager (self (loadTicks n w)))
     = currentLoad (loadManager (self w))
  /\ fatigueRate (loadManager (self (loadTicks n w)))
     = fatigueRate (loadManager (self w)).
Proof.
  induction n as [|n IH].
  - repeat split.
  - rewrite loadTicks_succ.
    destruct (tick_frame (loadTicks n w)) as (Ha & Hr & _).
    rewrite Ha, Hr, tick_currentLoad. exact IH.
Qed.

(** An awake instance gains load times rate on each tick. *)
Lemma loadTicks_fatigueLevel_awake (n : nat) (w : World) :
  awake (self w) = true ->
  fatigueLevel (loadManager (self (loadTicks n w)))
  == fatigueLevel (loadManager (self w))
     + inject_Z (Z.of_nat n)
       * (currentLoad (loadManager (self w)) * fatigueRate (loadManager (self w))).
Proof.
  intro Haw. induction n as [|n IH].
  - cbn [loadTicks]. cbn. ring.
  - rewrite loadTicks_succ, tick_fatigueLevel.
    destruct (loadTicks_frame n w) as (Ha & Hl & Hr).
    rewrite Ha, Hl, Hr, Haw.
    rewrite IH, Nat2Z.inj_succ. unfold Z.succ. rewrite inject_Z_plus. ring.
Qed.

(** [n] periods of the load monitor, in minutes. *)
Lemma Minutes_of_ticks (n : nat) :
  Minutes (Z.of_nat n * loadTickInterval)%Z == inject_Z (Z.of_nat n) / 12.
Proof.
  unfold Minutes. rewrite inject_Z_mult.
  change (inject_Z loadTickInterval) with (inject_Z 5000000000).
  change (inject_Z Minute) with (inject_Z 60000000000).
  set (N := inject_Z (Z.of_nat n)).
  unfold Qdiv. rewrite <- Qmult_assoc.
  apply Qmult_comp; [reflexivity|]. reflexivity.
Qed.

End TicksInARow.

(** ** The automatic transition to rest *)

Section RestTrigger.

Import Num.
Import time.
Import deeptreeecho.

Lemma shouldInitiateRest_true (w : World) :
  shouldInitiateRest w = true <-> restGuard w.
Proof.
  unfold shouldInitiateRest, restGuard.
  case_Qlt (fatigueLevel (loadManager (self w)))
           (fatigueThreshold (dreamTrigger (self w))).
  - split; [discriminate|].
    intros (_ & Hf & _). exfalso. apply (Qlt_not_le _ _ E Hf).
  - destruct (Z.ltb_spec (Since (clock w) (startTime (self w)))
                         (minWakeDuration (dreamTrigger (self w)))) as [Ht|Ht].
    + split; [discriminate|]. intros (Ht' & _). lia.
    + destruct (inActiveDiscussion (self w)).
      * split; [discriminate|]. intros (_ & _ & Hd). discriminate.
      * split; auto.
Qed.

Lemma Rest_awake (w : World) : awake (self (Rest w)) = false.
Proof.
  unfold Rest. destruct (awake (self w)) eqn:E; [reflexivity|exact E].
Qed.

(** C2. [shouldInitiateRest] answers true exactly when the three conjuncts
    of the guard hold: at least [minWakeDuration] has passed since the
    instance woke, the fatigue has reached [fatigueThreshold], and no
    discussion is active.  On a tick of the trigger loop of an awake
    instance with the trigger enabled, the instance goes to rest exactly
    when the guard holds: the tick is then the call of [Rest], and is
    without effect otherwise. *)
Theorem automatic_rest_iff_guard (w : World) :
  (shouldInitiateRest w = true <-> restGuard w)
  /\ (enabled (dreamTrigger (self w)) = true ->
      awake (self w) = true ->
      (awake (self (automaticDreamTriggerLoop_tick w)) = false <-> restGuard w)
      /\ (restGuard w -> automaticDreamTriggerLoop_tick w = Rest w)
      /\ (~ restGuard w -> automaticDreamTriggerLoop_tick w = w)).
Proof.
  split; [apply shouldInitiateRest_true|].
  intros Hen Haw.
  unfold automaticDreamTriggerLoop_tick. rewrite Hen, Haw. cbn [negb orb].
  pose proof (shouldInitiateRest_true w) as Hiff.
  destruct (shouldInitiateRest w) eqn:E.
  - assert (restGuard w) as Hg by (apply Hiff; reflexivity).
    split; [split; [intros _; exact Hg | intros _; apply Rest_awake]|].
    split; [reflexivity | intro Hn; contradiction].
  - assert (~ restGuard w) as Hg
        by (intro Hg; apply Hiff in Hg; discriminate).
    split; [split; [intro H; congruence | intro H; contradiction]|].
    split; [intro H; contradiction | reflexivity].
Qed.

(** Awake for 31 minutes with fatigue 0.9 and no discussion: the tick
    sends the instance to rest. *)
Lemma automatic_rest_iff_guard_witness :
  let w := Samples.awakeWith 0.9 0.5 (31 * Minute) in
  enabled (dreamTrigger (self w)) = true
  /\ awake (self w) = true
  /\ restGuard w
  /\ awake (self (automaticDreamTriggerLoop_tick w)) = false.
Proof.
  intro w.
  assert (enabled (dreamTrigger (self w)) = true) as Hen by reflexivity.
  assert (awake (self w) = true) as Haw by reflexivity.
  destruct (automatic_rest_iff_guard w) as [Hiff Htick].
  destruct (Htick Hen Haw) as [Hfire _].
  assert (restGuard w) as Hg by (apply Hiff; vm_compute; reflexivity).
  split; [exact Hen|]. split; [exact Haw|]. split; [exact Hg|].
  apply Hfire. exact Hg.
Defined.

End RestTrigger.

(** ** The duration of a rest *)

Section RestDuration.

Import Num.
Import time.
Import deeptreeecho.

Lemma mul_Minute_exact (n : Z) :
  Z.abs n <= maxWholeMinutes -> mul n Minute = n * Minute.
Proof.
  unfold maxWholeMinutes, mul, Minute, Second. intro H.
  apply wrap64_small. lia.
Qed.

Lemma restDuration_clamp (f : Q) :
  Z.abs (Qtrunc (round64 (f * 60))) <= maxWholeMinutes ->
  restDuration f
  = clampZ (Qtrunc (round64 (f * 60)) * Minute) (5 * Minute) (2 * Hour).
Proof.
  intro H. unfold restDuration, Duration_of_float, clampZ.
  rewrite (mul_Minute_exact _ H).
  set (d := Qtrunc (round64 (f * 60)) * Minute).
  unfold Hour, Minute, Second in *.
  destruct (Z.ltb_spec d (5 * (60 * 1000000000))) as [H1|H1].
  - destruct (Z.gtb_spec (5 * (60 * 1000000000)) (2 * (60 * (60 * 1000000000))));
      [lia | reflexivity].
  - destruct (Z.gtb_spec d (2 * (60 * (60 * 1000000000))));
      destruct (Z.ltb_spec (2 * (60 * (60 * 1000000000))) d); (reflexivity || lia).
Qed.

Lemma clampZ_range (x lo hi : Z) : lo <= hi -> lo <= clampZ x lo hi <= hi.
Proof.
  intro H. unfold clampZ.
  destruct (Z.ltb_spec x lo); [lia|].
  destruct (Z.ltb_spec hi x); lia.
Qed.

Lemma Rest_of_awake (w : World) :
  awake (self w) = true ->
  Rest w =
  call (CallGo (JobDreamCycle (restDuration (fatigueLevel (loadManager (self w))))))
       (on_self (set_awake false) w).
Proof.
  intro H. unfold Rest. rewrite H. reflexivity.
Qed.

(** A dream cycle run on a resting instance: the calls it makes, the clock
    when it returns, and the instance awake from that instant. *)
Lemma dreamCycle_of_resting (d : Duration) (w : World) :
  awake (self w) = false ->
  0 <= d ->
  let w' := dreamCycle d w in
  awake (self w') = true
  /\ clock w' = clock w + d
  /\ startTime (self w') = clock w + d
  /\ calls w' = calls w ++ [CallEnterDream; CallSleep d; CallExitDream].
Proof.
  intros Haw Hd. cbv zeta.
  unfold dreamCycle, consolidateMemories, dreamSkillPractice, extractPatterns.
  unfold Wake. cbn. rewrite Haw. cbn. unfold Add.
  rewrite Z.max_r by exact Hd.
  repeat split.
  rewrite <- !app_assoc. reflexivity.
Qed.

(** C3, as the code has it. For a fatigue [f] read by [Rest], let [p] be
    the [float64] product [f*60], that is the exact product rounded to
    binary64 (with [p] small enough for its whole part to be counted in
    nanoseconds).  The rest lasts the whole part of [p] in minutes, the
    fraction of a minute being dropped, clamped to the interval from 5
    minutes to 2 hours; [Rest] hands exactly that duration to the dream
    cycle it launches, and the dream cycle returns the instance to the
    awake state when exactly that duration has passed on the clock. *)
Theorem rest_duration_whole_minutes (w : World) :
  let f := fatigueLevel (loadManager (self w)) in
  let p := round64 (f * 60) in
  let d := restDuration f in
  Z.abs (Qtrunc p) <= maxWholeMinutes ->
  awake (self w) = true ->
  d = clampZ (Qtrunc p * Minute) (5 * Minute) (2 * Hour)
  /\ 5 * Minute <= d <= 2 * Hour
  /\ Rest w = call (CallGo (JobDreamCycle d)) (on_self (set_awake false) w)
  /\ awake (self (Rest w)) = false
  /\ awake (self (dreamCycle d (Rest w))) = true
  /\ clock (dreamCycle d (Rest w)) = clock w + d
  /\ startTime (self (dreamCycle d (Rest w))) = clock w + d
  /\ calls (dreamCycle d (Rest w)) =
     calls (Rest w) ++ [CallEnterDream; CallSleep d; CallExitDream].
Proof.
  intros f p d Hfit Haw.
  assert (d = clampZ (Qtrunc p * Minute) (5 * Minute) (2 * Hour)) as Hd
      by (apply restDuration_clamp; exact Hfit).
  assert (5 * Minute <= d <= 2 * Hour) as Hr
      by (rewrite Hd; apply clampZ_range; vm_compute; discriminate).
  assert (awake (self (Rest w)) = false) as Hrest by apply Rest_awake.
  assert (0 <= d) as Hpos by (unfold Minute, Second in Hr; lia).
  destruct (dreamCycle_of_resting d (Rest w) Hrest Hpos) as (H1 & H2 & H3 & H4).
  assert (clock (Rest w) = clock w) as Hc
      by (rewrite (Rest_of_awake w Haw); reflexivity).
  rewrite Hc in H2, H3.
  repeat split; try assumption; try apply Hr.
  apply Rest_of_awake. exact Haw.
Qed.

(** Fatigue 0.9: a rest of 54 minutes. *)
Lemma rest_duration_whole_minutes_witness :
  let w := Samples.awakeWith 0.9 0.5 (31 * Minute) in
  awake (self w) = true
  /\ restDuration (fatigueLevel (loadManager (self w))) = 54 * Minute
  /\ clock (dreamCycle (54 * Minute) (Rest w)) = 85 * Minute.
Proof.
  intro w.
  assert (awake (self w) = true) as Haw by reflexivity.
  assert (Z.abs (Qtrunc (round64 (fatigueLevel (loadManager (self w)) * 60)))
          <= maxWholeMinutes) as Hfit by (vm_compute; discriminate).
  assert (restDuration (fatigueLevel (loadManager (self w))) = 54 * Minute)
    as Hd by (vm_compute; reflexivity).
  destruct (rest_duration_whole_minutes w Hfit Haw)
    as (_ & _ & _ & _ & _ & Hc & _).
  cbv zeta in Hc. rewrite Hd in Hc.
  split; [exact Haw|].
  split; [exact Hd|].
  rewrite Hc. reflexivity.
Defined.

(** C3, as stated, fails for a fatigue of 7/8 (above the threshold of the
    automatic trigger): the claim gives 52.5 minutes, the code rests for 52
    minutes. *)
Lemma rest_duration_drops_fraction :
  restDuration (7 # 8) = 52 * Minute
  /\ (specRestMinutes (7 # 8) == 52.5)%Q
  /\ ~ (Minutes (restDuration (7 # 8)) == specRestMinutes (7 # 8))%Q.
Proof.
  split; [vm_compute; reflexivity|].
  split; [reflexivity|].
  intro H. vm_compute in H. discriminate H.
Qed.

End RestDuration.

(** ** Recovery during rest *)

Section Recovery.

Import Num.
Import time.
Import deeptreeecho.
Import V4Loops.

Local Open Scope Q_scope.

(** Once the rate times the minutes rested reaches 1, the factor of the
    recovery write is not positive and the level is stored as 0. *)
Lemma recover_zero (d : Duration) (lm : CognitiveLoadManager) :
  0 <= fatigueLevel lm ->
  1 <= recoveryRate lm * Minutes d ->
  fatigueLevel (recover d lm) == 0.
Proof.
  intros Hf Hone.
  rewrite recover_fatigueLevel. cbv zeta.
  case_Qlt (fatigueLevel lm * (1.0 - recoveryRate lm * Minutes d)) 0.
  - reflexivity.
  - assert (0 <= fatigueLevel lm * (recoveryRate lm * Minutes d - 1)) as Hp
        by (apply Qmult_le_0_compat; lra).
    lra.
Qed.

Lemma longEnough_reaches_one (r : Q) (d : Duration) :
  0 < r -> (longEnough r <= d)%Z -> 1 <= r * Minutes d.
Proof.
  intros Hr Hd.
  apply Minutes_le in Hd. unfold longEnough in Hd.
  rewrite Minutes_of_minutes in Hd.
  pose proof (Qle_ceiling (1 / r)) as Hc.
  assert (1 / r <= Minutes d) as Hm by (eapply Qle_trans; eassumption).
  assert (r * (1 / r) == 1) as Hinv by (field; lra).
  rewrite <- Hinv.
  apply Qmult_le_l; assumption.
Qed.

(** The level a rest leaves, when the rest is too short to drain it. *)
Lemma recover_partial (d : Duration) (lm : CognitiveLoadManager) :
  0 <= fatigueLevel lm ->
  recoveryRate lm * Minutes d <= 1 ->
  fatigueLevel (recover d lm)
  == fatigueLevel lm * (1 - recoveryRate lm * Minutes d).
Proof.
  intros Hf Hone.
  rewrite recover_fatigueLevel. cbv zeta.
  case_Qlt (fatigueLevel lm * (1.0 - recoveryRate lm * Minutes d)) 0.
  - assert (0 <= fatigueLevel lm * (1 - recoveryRate lm * Minutes d)) as Hp
        by (apply Qmult_le_0_compat; lra).
    lra.
  - lra.
Qed.

(** A positive level is drained only by a rest that is long enough. *)
Lemma recover_positive (d : Duration) (lm : CognitiveLoadManager) :
  0 < fatigueLevel lm ->
  recoveryRate lm * Minutes d < 1 ->
  0 < fatigueLevel (recover d lm).
Proof.
  intros Hf Hone.
  rewrite recover_partial by lra.
  apply Qmult_lt_0_compat; lra.
Qed.

(** What a rest takes off the level is at most level times rate times
    minutes. *)
Lemma recover_loss (d : Duration) (lm : CognitiveLoadManager) :
  fatigueLevel lm - fatigueLevel (recover d lm)
  <= fatigueLevel lm * (recoveryRate lm * Minutes d).
Proof.
  rewrite recover_fatigueLevel. cbv zeta.
  case_Qlt (fatigueLevel lm * (1.0 - recoveryRate lm * Minutes d)) 0.
  - lra.
  - lra.
Qed.

Lemma longEnough_fits (r : Q) :
  0 < r ->
  (Qceiling (1 / r) <= maxWholeMinutes)%Z ->
  (0 < longEnough r <= maxDuration)%Z.
Proof.
  intros Hr Hfit.
  assert (0 < Qceiling (1 / r))%Z as Hpos.
  { apply Z.lt_nge. intro Hle.
    pose proof (Qle_ceiling (1 / r)) as Hc.
    assert (inject_Z (Qceiling (1 / r)) <= 0) as Hz
        by (change 0 with (inject_Z 0); rewrite <- Zle_Qle; exact Hle).
    assert (0 < 1 / r) as Hinv
        by (unfold Qdiv; rewrite Qmult_1_l; apply Qinv_lt_0_compat; exact Hr).
    lra. }
  unfold longEnough, maxDuration, maxWholeMinutes, Minute, Second in *. lia.
Qed.

(** C6, as the code has it.  The constructor sets the fatigue rate to 0.01
    and the recovery rate to 0.05, but the two are not rates over the same
    time: the fatigue rate, times the load, is added on each tick of the
    load monitor (every 5 seconds), the recovery rate is per minute of rest
    and scales the level.  Over the same time, [n] ticks awake and a rest
    of [n] periods, the instance gains more than the rest takes off as soon
    as level times recovery rate is below 12 times load times fatigue rate,
    and exactly then while the rest is too short to drain the level.

    A rest of duration [d] leaves a level [f] that is not negative at
    [f * (1 - rate * minutes d)], floored at 0, and changes nothing else of
    the load manager.  A positive level is at exactly 0 after the rest if
    and only if rate times minutes is at least 1.  So for a positive rate
    whose inverse, in whole minutes, is a [Duration], there is a [Duration]
    from which on every rest drains the level (20 minutes for the rate
    0.05, and nothing shorter drains a positive level); for a rate so small
    that rate times the minutes of the largest [Duration] stays below 1, no
    rest drains a positive level.  The level after a rest is never
    negative. *)
Theorem rest_drains_fatigue :
  let lm0 := loadManager (NewAutonomousConsciousnessV4 false) in
  (fatigueRate lm0 == 0.01 /\ recoveryRate lm0 == 0.05
   /\ fatigueRate lm0 < recoveryRate lm0)
  /\ (forall (w : World) (n : nat),
         let lm := loadManager (self w) in
         let d := (Z.of_nat n * loadTickInterval)%Z in
         let gained :=
           fatigueLevel (loadManager (self (loadTicks n w))) - fatigueLevel lm in
         let lost := fatigueLevel lm - fatigueLevel (recover d lm) in
         awake (self w) = true ->
         (0 < n)%nat ->
         (fatigueLevel lm * recoveryRate lm
          < 12 * (currentLoad lm * fatigueRate lm) ->
          lost < gained)
         /\ (0 <= fatigueLevel lm ->
             recoveryRate lm * Minutes d <= 1 ->
             (lost < gained
              <-> fatigueLevel lm * recoveryRate lm
                  < 12 * (currentLoad lm * fatigueRate lm))))
  /\ (forall (lm : CognitiveLoadManager) (d : Duration),
         0 <= fatigueLevel lm ->
         (recoveryRate lm * Minutes d <= 1 ->
          fatigueLevel (recover d lm)
          == fatigueLevel lm * (1 - recoveryRate lm * Minutes d))
         /\ (1 <= recoveryRate lm * Minutes d ->
             fatigueLevel (recover d lm) == 0))
  /\ (forall (lm : CognitiveLoadManager) (d : Duration),
         recover d lm = set_fatigueLevel (fatigueLevel (recover d lm)) lm)
  /\ (forall (lm : CognitiveLoadManager) (d : Duration),
         0 < fatigueLevel lm ->
         (fatigueLevel (recover d lm) == 0
          <-> 1 <= recoveryRate lm * Minutes d))
  /\ (forall lm : CognitiveLoadManager,
         0 < recoveryRate lm ->
         0 <= fatigueLevel lm ->
         (Qceiling (1 / recoveryRate lm) <= maxWholeMinutes)%Z ->
         (0 < longEnough (recoveryRate lm) <= maxDuration)%Z
         /\ forall d : Duration,
              (longEnough (recoveryRate lm) <= d)%Z ->
              fatigueLevel (recover d lm) == 0)
  /\ (forall (lm : CognitiveLoadManager) (d : Duration),
         0 < fatigueLevel lm ->
         0 <= recoveryRate lm ->
         recoveryRate lm * Minutes maxDuration < 1 ->
         (d <= maxDuration)%Z ->
         0 < fatigueLevel (recover d lm))
  /\ (forall (f : Q) (d : Duration),
         unit_interval f ->
         (20 * Minute <= d)%Z ->
         fatigueLevel (recover d (set_fatigueLevel f lm0)) == 0)
  /\ (forall (f : Q) (d : Duration),
         0 < f ->
         (d < 20 * Minute)%Z ->
         0 < fatigueLevel (recover d (set_fatigueLevel f lm0)))
  /\ (forall (lm : CognitiveLoadManager) (d : Duration),
         0 <= fatigueLevel (recover d lm)).
Proof.
  cbv zeta.
  split; [repeat split; reflexivity|].
  split; [|split; [|split; [|split; [|split; [|split; [|split; [|split]]]]]]].
  - intros w n Haw Hn.
    pose proof (loadTicks_fatigueLevel_awake n w Haw) as Hg.
    pose proof (recover_loss (Z.of_nat n * loadTickInterval)%Z
                             (loadManager (self w))) as Hl.
    pose proof (Minutes_of_ticks n) as Hm.
    set (lm := loadManager (self w)) in *.
    set (N := inject_Z (Z.of_nat n)) in *.
    set (d := (Z.of_nat n * loadTickInterval)%Z) in *.
    set (m := Minutes d) in *.
    set (g := fatigueLevel (loadManager (self (loadTicks n w)))) in *.
    set (r := fatigueLevel (recover d lm)) in *.
    assert (1 <= N) as HN.
    { unfold N. change 1 with (inject_Z 1). rewrite <- Zle_Qle. lia. }
    assert (m == N * (1 # 12)) as Hm' by (rewrite Hm; field).
    set (x := fatigueLevel lm * recoveryRate lm) in *.
    set (y := currentLoad lm * fatigueRate lm) in *.
    assert (fatigueLevel lm * (recoveryRate lm * m) == N * (x * (1 # 12)))
      as Hxm by (unfold x; rewrite Hm'; ring).
    assert (g - fatigueLevel lm == N * y) as Hgy by (rewrite Hg; ring).
    split.
    + intro Hxy. rewrite Hgy.
      apply Qle_lt_trans with (N * (x * (1 # 12))); [lra|].
      apply Qmult_lt_l; lra.
    + intros Hf Hone.
      pose proof (recover_partial d lm Hf Hone) as Hp.
      fold r m in Hp.
      assert (fatigueLevel lm - r == N * (x * (1 # 12))) as Hlost
          by (rewrite Hp, <- Hxm; ring).
      rewrite Hlost, Hgy. split.
      * intro H. apply Qmult_lt_l in H; lra.
      * intro H. apply Qmult_lt_l; lra.
  - intros lm d Hf. split.
    + apply recover_partial; exact Hf.
    + apply recover_zero; exact Hf.
  - intros lm d. unfold recover. cbn.
    destruct (Qlt_bool _ 0); reflexivity.
  - intros lm d Hf. split.
    + intro Hz.
      destruct (Qlt_le_dec (recoveryRate lm * Minutes d) 1) as [Hlt|Hge];
        [|exact Hge].
      pose proof (recover_positive d lm Hf Hlt). lra.
    + apply recover_zero. lra.
  - intros lm Hr Hf Hfit. split.
    + apply longEnough_fits; assumption.
    + intros d Hd. apply recover_zero; [exact Hf|].
      apply longEnough_reaches_one; assumption.
  - intros lm d Hf Hr Hsmall Hd.
    apply recover_positive; [exact Hf|].
    apply Qle_lt_trans with (recoveryRate lm * Minutes maxDuration);
      [|exact Hsmall].
    rewrite !(Qmult_comm (recoveryRate lm)).
    apply Qmult_le_compat_r; [|exact Hr].
    apply Minutes_le. exact Hd.
  - intros f d [Hf _] Hd.
    apply recover_zero; [exact Hf|].
    apply Minutes_le in Hd. rewrite Minutes_of_minutes in Hd.
    cbn [recoveryRate set_fatigueLevel loadManager NewAutonomousConsciousnessV4].
    change (inject_Z 20) with 20 in Hd. lra.
  - intros f d Hf Hd.
    apply recover_positive; [exact Hf|].
    assert (d <= 20 * Minute - 1)%Z as Hd' by lia.
    apply Minutes_le in Hd'.
    assert (Minutes (20 * Minute - 1)%Z < 20) as Hlt by reflexivity.
    cbn [recoveryRate set_fatigueLevel loadManager NewAutonomousConsciousnessV4].
    lra.
  - intros lm d. apply recover_nonneg.
Qed.

(** Default rates.  A full level rested for half an hour is drained, rested
    for 19 minutes it is not; at load 1 a minute awake adds more than a
    minute of rest takes off; and the shortest draining rest is 20
    minutes. *)
Lemma rest_drains_fatigue_witness :
  let w := Samples.awakeWith 1 1 0%Z in
  let lm := loadManager (self w) in
  unit_interval (fatigueLevel lm)
  /\ fatigueLevel (recover (30 * Minute)%Z lm) == 0
  /\ 0 < fatigueLevel (recover (19 * Minute)%Z lm)
  /\ (0 < longEnough (recoveryRate lm) <= maxDuration)%Z
  /\ fatigueLevel lm - fatigueLevel (recover (12 * loadTickInterval)%Z lm)
     < fatigueLevel (loadManager (self (loadTicks 12 w))) - fatigueLevel lm.
Proof.
  cbv zeta.
  set (w := Samples.awakeWith 1 1 0%Z).
  set (lm := loadManager (self w)).
  destruct rest_drains_fatigue
    as (_ & Hrate & _ & _ & Hiff & Hlong & _ & _ & _ & _).
  assert (unit_interval (fatigueLevel lm)) as Hu
      by (split; vm_compute; discriminate).
  assert (0 < fatigueLevel lm) as Hpos by reflexivity.
  assert (0 < recoveryRate lm) as Hr by reflexivity.
  assert (0 <= fatigueLevel lm) as Hf by (vm_compute; discriminate).
  assert (Qceiling (1 / recoveryRate lm) <= maxWholeMinutes)%Z as Hfit
      by (vm_compute; discriminate).
  assert (awake (self w) = true) as Haw by reflexivity.
  assert (0 < 12)%nat as Hn by (repeat constructor).
  assert (fatigueLevel lm * recoveryRate lm
          < 12 * (currentLoad lm * fatigueRate lm)) as Hxy by reflexivity.
  split; [exact Hu|].
  split; [apply (Hiff lm (30 * Minute)%Z Hpos); vm_compute; discriminate|].
  split.
  { destruct (Qlt_le_dec 0 (fatigueLevel (recover (19 * Minute)%Z lm)))
      as [H|H]; [exact H|].
    exfalso.
    assert (fatigueLevel (recover (19 * Minute)%Z lm) == 0) as Hz
        by (apply Qle_antisym; [exact H|apply recover_nonneg]).
    apply (Hiff lm (19 * Minute)%Z Hpos) in Hz.
    vm_compute in Hz. apply Hz. reflexivity. }
  split; [apply (Hlong lm Hr Hf Hfit)|].
  destruct (Hrate w 12%nat Haw Hn) as [Hgain _].
  exact (Hgain Hxy).
Defined.

(** C6, as stated, fails: at equal elapsed time the accumulation outpaces
    the recovery.  An awake instance with the rates of the constructor, at
    full fatigue and full load, gains 0.12 in a minute (12 ticks of the
    load monitor), while a minute of rest takes 0.05 off the same level. *)
Lemma accumulation_outpaces_recovery :
  let w := Samples.awakeWith 1 1 0%Z in
  let lm := loadManager (self w) in
  let gained :=
    fatigueLevel (loadManager (self (loadTicks (ticksIn Minute) w)))
    - fatigueLevel lm in
  let lost := fatigueLevel lm - fatigueLevel (recover Minute lm) in
  fatigueRate lm < recoveryRate lm
  /\ unit_interval (fatigueLevel lm)
  /\ unit_interval (currentLoad lm)
  /\ ticksIn Minute = 12%nat
  /\ gained == 0.12
  /\ lost == 0.05
  /\ ~ gained < lost.
Proof.
  cbv zeta.
  split; [reflexivity|].
  split; [split; vm_compute; discriminate|].
  split; [split; vm_compute; discriminate|].
  split; [reflexivity|].
  split; [reflexivity|].
  split; [reflexivity|].
  intro H. vm_compute in H. discriminate H.
Qed.

(** A rest shorter than that does not empty the level: fatigue 0.2 gives
    a rest of 12 minutes, after which the recovery write stores 0.08. *)
Lemma short_rest_keeps_some_fatigue :
  restDuration 0.2 = (12 * Minute)%Z
  /\ fatigueLevel
       (recover (12 * Minute)%Z
          (set_fatigueLevel 0.2 (loadManager (NewAutonomousConsciousnessV4 false))))
     == 0.08.
Proof.
  split; reflexivity.
Qed.

End Recovery.

(** ** The counter of completed cycles of [AutonomousEchoself] *)

Section CyclesCompleted.

Import Num.
Import time.
Import core.

Local Notation "'cycles' w" := (cyclesCompleted (self w)) (at level 1, w at level 0, only parsing).

Lemma keeps_andThen {W A : Type} (f : W -> A) (m k : Go.M W) :
  Go.keeps f m -> Go.keeps f k -> Go.keeps f (m ;; k).
Proof.
  intros Hm Hk w. unfold Go.andThen.
  specialize (Hm w). destruct (m w) as [[e|] w1]; cbn in *.
  - exact Hm.
  - rewrite Hk. exact Hm.
Qed.

Lemma keeps_exec {W A : Type} (f : W -> A) (g : W -> W) :
  (forall w, f (g w) = f w) -> Go.keeps f (Go.exec g).
Proof.
  intros H w. apply H.
Qed.

Lemma keeps_ok {W A : Type} (f : W -> A) : Go.keeps f Go.ok.
Proof.
  intro w. reflexivity.
Qed.

Lemma Start_cycles (env : Component -> error) (w : World) :
  cycles (snd (Start env w)) = cycles w.
Proof.
  unfold Start. destruct (isAwake (self w)); [reflexivity|].
  revert w. change (Go.keeps (fun w => cycles w)
    (exec (on_self (set_currentState StateWaking)) ;;
     startEchoBeats env ;; startStream env ;;
     exec (fun w => set_wakeTime (clock w) (call (CallGo JobAutonomousLifeCycle) w)) ;;
     exec (call (CallGo JobInterestDecayLoop)) ;;
     exec (call (CallGo JobConsciousnessMonitoring)) ;;
     exec (on_self (set_isAwake true)) ;;
     exec (on_self (set_currentState StateAwake)) ;; ok)).
  repeat apply keeps_andThen;
    try (apply keeps_exec; intro w; reflexivity);
    try apply keeps_ok.
  - intro w. unfold startEchoBeats. destruct (env EchoBeats); reflexivity.
  - intro w. unfold startStream.
    destruct (streamOfConsciousness (self w)); [|reflexivity].
    destruct (env StreamOfConsciousness); reflexivity.
Qed.

Lemma Stop_cycles (w : World) : cycles (snd (Stop w)) = cycles w.
Proof.
  unfold Stop. destruct (isAwake (self w)); cbn [negb]; [|reflexivity].
  revert w. change (Go.keeps (fun w => cycles w)
    (exec (on_self (set_currentState StateResting)) ;;
     exec (on_self (set_isAwake false)) ;;
     exec (fun w => if streamOfConsciousness (self w)
                    then call CallStreamStop w else w) ;;
     exec (call CallEchoBeatsStop) ;;
     exec persistAllState ;;
     exec (fun w => call CallCancel (on_self (set_cancelled true) w)) ;;
     ok)).
  repeat apply keeps_andThen;
    try (apply keeps_exec; intro w; reflexivity);
    try apply keeps_ok.
  - apply keeps_exec. intro w.
    destruct (streamOfConsciousness (self w)); reflexivity.
  - apply keeps_exec. intro w. unfold persistAllState. cbn.
    destruct (discussionManager (self w)); reflexivity.
Qed.

Lemma initiateDream_cycles (w : World) : cycles (initiateDream w) = cycles w.
Proof.
  unfold initiateDream. cbn.
  destruct (dreamCycle (self w)); [|reflexivity].
  destruct (streamOfConsciousness (self w)); reflexivity.
Qed.

Lemma tick_cycles (b : bool) (w : World) :
  cycles (autonomousLifeCycle_tick b w) = cycles w.
Proof.
  unfold autonomousLifeCycle_tick.
  destruct (currentState (self w)); try reflexivity.
  - destruct (_ >? _); reflexivity.
  - destruct (_ >? _); reflexivity.
  - destruct (_ && _); [apply initiateDream_cycles | reflexivity].
Qed.

(** What one event does to the counter. *)
Lemma step_cycles (e : Event) (w w' : World) :
  step e w = Some w' ->
  cycles w' = if isDreamEnd e then wrapU64 (cycles w + 1) else cycles w.
Proof.
  destruct e; cbn [step isDreamEnd]; intro H;
    try (injection H as <-).
  - apply Start_cycles.
  - apply Stop_cycles.
  - apply tick_cycles.
  - reflexivity.
  - reflexivity.
  - apply initiateDream_cycles.
  - unfold handleThoughtEvent. destruct payloadIsString; reflexivity.
  - reflexivity.
  - reflexivity.
  - unfold dreamEnd in H. destruct (dreamsInFlight w); [discriminate|].
    injection H as <-. reflexivity.
  - reflexivity.
Qed.

Lemma completedDreams_cons (e : Event) (es : list Event) :
  completedDreams (e :: es) =
  (if isDreamEnd e then 1 else 0) + completedDreams es.
Proof.
  unfold completedDreams. cbn [filter].
  destruct (isDreamEnd e); cbn [List.length]; lia.
Qed.

Lemma completedDreams_nonneg (es : list Event) : 0 <= completedDreams es.
Proof.
  unfold completedDreams. lia.
Qed.

(** Along a run the counter grows by the number of dream cycles completed. *)
Lemma run_cycles (es : list Event) :
  forall w w' : World,
    0 <= cycles w ->
    cycles w + completedDreams es < 2 ^ 64 ->
    run es w = Some w' ->
    cycles w' = cycles w + completedDreams es.
Proof.
  induction es as [|e es IH]; intros w w' H0 Hlt Hrun.
  - cbn in Hrun. injection Hrun as <-. unfold completedDreams. cbn. lia.
  - cbn [run] in Hrun. destruct (step e w) as [w1|] eqn:Hstep; [|discriminate].
    rewrite completedDreams_cons in *.
    pose proof (completedDreams_nonneg es) as Hn.
    pose proof (step_cycles e w w1 Hstep) as Hc.
    destruct (isDreamEnd e).
    + rewrite wrapU64_small in Hc by lia.
      rewrite (IH w1 w'); [lia | lia | lia | exact Hrun].
    + rewrite (IH w1 w'); [lia | lia | lia | exact Hrun].
Qed.

Lemma completedDreams_dreamCycles (n : nat) :
  completedDreams (dreamCycles n) = Z.of_nat n.
Proof.
  induction n as [|n IH].
  - reflexivity.
  - cbn [dreamCycles]. rewrite !completedDreams_cons, IH. cbn [isDreamEnd]. lia.
Qed.

(** A dream cycle can always be driven to completion on an instance that
    has its dream component. *)
Lemma dreamCycles_run (n : nat) :
  forall w : World,
    dreamCycle (self w) = true ->
    exists w', run (dreamCycles n) w = Some w'.
Proof.
  induction n as [|n IH]; intros w Hd.
  - exists w. reflexivity.
  - cbn [dreamCycles run step].
    unfold handleDreamEvent, initiateDream. cbn. rewrite Hd.
    destruct (streamOfConsciousness (self w)); cbn; apply IH; cbn; exact Hd.
Qed.

(** C4. Along any sequence of events of an instance (calls, ticks,
    handlers, goroutines finishing, time passing) the counter
    [cyclesCompleted] changes only when a dream cycle completes, and then by
    exactly 1; so, below the bound of [uint64], it is non-decreasing and
    ends at its starting value plus the number of completed dream cycles.
    Driving [n] dream cycles to completion is always possible on an
    instance with its dream component, and leaves the counter, as reported
    by [GetMetrics], at the starting value plus [n]. *)
Theorem cyclesCompleted_counts_dream_cycles :
  (forall (e : Event) (w w' : World),
      step e w = Some w' ->
      cycles w' = if isDreamEnd e then wrapU64 (cycles w + 1) else cycles w)
  /\ (forall (es : list Event) (w w' : World),
         0 <= cycles w ->
         cycles w + completedDreams es < 2 ^ 64 ->
         run es w = Some w' ->
         cycles w' = cycles w + completedDreams es /\ cycles w <= cycles w')
  /\ (forall (n : nat) (w : World),
         dreamCycle (self w) = true ->
         0 <= cycles w ->
         cycles w + Z.of_nat n < 2 ^ 64 ->
         exists w' : World,
           run (dreamCycles n) w = Some w'
           /\ cycles_completed (GetMetrics w')
              = cycles_completed (GetMetrics w) + Z.of_nat n).
Proof.
  split; [exact step_cycles|]. split.
  - intros es w w' H0 Hlt Hrun.
    pose proof (run_cycles es w w' H0 Hlt Hrun) as H.
    pose proof (completedDreams_nonneg es). lia.
  - intros n w Hd H0 Hlt.
    destruct (dreamCycles_run n w Hd) as [w' Hrun].
    exists w'. split; [exact Hrun|].
    cbn [cycles_completed GetMetrics].
    rewrite (run_cycles (dreamCycles n) w w' H0); rewrite ?completedDreams_dreamCycles; auto.
Qed.

(** A fresh default instance, started, sent to rest, then three dream
    cycles: the counter reads 3. *)
Lemma cyclesCompleted_counts_dream_cycles_witness :
  let w := newWorld DefaultEchoselfConfig 0 in
  dreamCycle (self w) = true
  /\ exists w' : World,
       run (dreamCycles 3) w = Some w'
       /\ cycles_completed (GetMetrics w') = 3.
Proof.
  intro w.
  destruct cyclesCompleted_counts_dream_cycles as (_ & _ & Hdrive).
  assert (dreamCycle (self w) = true) as Hd by reflexivity.
  assert (0 <= cycles w) as H0 by (vm_compute; discriminate).
  assert (cycles w + Z.of_nat 3 < 2 ^ 64) as Hlt by (vm_compute; reflexivity).
  split; [exact Hd|].
  exact (Hdrive 3%nat w Hd H0 Hlt).
Defined.

End CyclesCompleted.

(** ** Start and stop of [AutonomousConsciousnessV4] *)

Section V4StartStop.

Import deeptreeecho.

Ltac unfold_methods :=
  unfold Start, Stop, startComponent, exec, ok, Go.andThen, Go.exec, Go.ok.

Lemma occurrences_app (p : Call -> bool) (l l' : list Call) :
  occurrences p (l ++ l') = (occurrences p l + occurrences p l')%nat.
Proof.
  unfold occurrences. rewrite filter_app, length_app. reflexivity.
Qed.

Lemma V4_Start_running (env : Component -> error) (w : World) :
  running (self w) = true ->
  Start env w = (Some "autonomous consciousness already running"%string, w).
Proof.
  intro H. unfold Start. rewrite H. reflexivity.
Qed.

Lemma Wake_running (w : World) : running (self (Wake w)) = running (self w).
Proof.
  unfold Wake. destruct (awake (self w)); reflexivity.
Qed.

Lemma Wake_calls (w : World) : calls (Wake w) = calls w.
Proof.
  unfold Wake. destruct (awake (self w)); reflexivity.
Qed.

Lemma Wake_awake (w : World) : awake (self (Wake w)) = true.
Proof.
  unfold Wake. destruct (awake (self w)) eqn:E; [exact E|reflexivity].
Qed.

Lemma V4_Start_fresh (env : Component -> error) (w : World) :
  (forall c, env c = None) ->
  running (self w) = false ->
  fst (Start env w) = None
  /\ running (self (snd (Start env w))) = true
  /\ awake (self (snd (Start env w))) = true
  /\ calls (snd (Start env w)) = calls w ++ startCalls.
Proof.
  intros Henv Hrun. unfold_methods. rewrite Hrun, !Henv.
  cbn [fst snd].
  split; [reflexivity|].
  split; [rewrite Wake_running; destruct (persistence _); reflexivity|].
  split; [apply Wake_awake|].
  rewrite Wake_calls.
  destruct (persistence _); cbn; rewrite <- !app_assoc; reflexivity.
Qed.

(** The case where [Start] has returned at the failing sub-system: the
    flag is set, and the trace holds only calls to sub-systems. *)
Ltac stopped_here :=
  cbn -[occurrences]; rewrite ?occurrences_app; cbn;
  repeat split; first [discriminate | reflexivity | lia].

(** A start during which some sub-system fails. *)
Lemma V4_Start_failure (env : Component -> error) (w : World)
      (c : Component) (err : string) :
  running (self w) = false ->
  env c = Some err ->
  fst (Start env w) <> None
  /\ running (self (snd (Start env w))) = true
  /\ awake (self (snd (Start env w))) = awake (self w)
  /\ occurrences isGo (calls (snd (Start env w))) = occurrences isGo (calls w).
Proof.
  intros Hrun Hc. unfold_methods. rewrite Hrun.
  destruct (env AARCore) eqn:E1; [stopped_here|].
  destruct (env InferenceSystem) eqn:E2; [stopped_here|].
  destruct (env TwelveStepScheduler) eqn:E3; [stopped_here|].
  destruct (env ConsciousnessStream) eqn:E4; [stopped_here|].
  destruct (env EchoDream) eqn:E5; [stopped_here|].
  destruct (env SchemeMetamodel) eqn:E6; [stopped_here|].
  destruct c; congruence.
Qed.

Lemma V4_Stop_not_running (w : World) :
  running (self w) = false ->
  Stop w = (Some "autonomous consciousness not running"%string, w).
Proof.
  intro H. unfold Stop. rewrite H. reflexivity.
Qed.

Lemma V4_Stop_running (w : World) :
  running (self w) = true ->
  fst (Stop w) = None
  /\ running (self (snd (Stop w))) = false
  /\ cancelled (self (snd (Stop w))) = true
  /\ calls (snd (Stop w)) = calls w ++ [CallCancel].
Proof.
  intro H. unfold_methods. rewrite H. cbn.
  destruct (persistence (self w)); repeat split.
Qed.

End V4StartStop.

(** ** Start and stop of [AutonomousEchoself] *)

Section EchoselfStartStop.

Import core.

Ltac unfold_methods :=
  unfold Start, Stop, startEchoBeats, startStream, persistAllState,
    exec, ok, Go.andThen, Go.exec, Go.ok.

Lemma Echoself_occurrences_app (p : Call -> bool) (l l' : list Call) :
  occurrences p (l ++ l') = (occurrences p l + occurrences p l')%nat.
Proof.
  unfold occurrences. rewrite filter_app, length_app. reflexivity.
Qed.

Lemma Echoself_Start_awake (env : Component -> error) (w : World) :
  isAwake (self w) = true ->
  Start env w = (Some "echoself already awake"%string, w).
Proof.
  intro H. unfold Start. rewrite H. reflexivity.
Qed.

Lemma Echoself_Start_fresh (env : Component -> error) (w : World) :
  (forall c, env c = None) ->
  isAwake (self w) = false ->
  fst (Start env w) = None
  /\ isAwake (self (snd (Start env w))) = true
  /\ currentState (self (snd (Start env w))) = StateAwake.
Proof.
  intros Henv H. unfold_methods. rewrite H, !Henv. cbn.
  destruct (streamOfConsciousness (self w)); cbn; repeat split.
Qed.

Lemma Echoself_Stop_not_awake (w : World) :
  isAwake (self w) = false ->
  Stop w = (Some "echoself not awake"%string, w).
Proof.
  intro H. unfold Stop. rewrite H. reflexivity.
Qed.

Lemma Echoself_Stop_awake (w : World) :
  isAwake (self w) = true ->
  fst (Stop w) = None
  /\ isAwake (self (snd (Stop w))) = false
  /\ occurrences isCancel (calls (snd (Stop w)))
     = S (occurrences isCancel (calls w)).
Proof.
  intro H. unfold_methods. rewrite H. cbn -[occurrences].
  destruct (streamOfConsciousness (self w)); cbn -[occurrences];
    destruct (discussionManager (self w)); cbn -[occurrences];
    rewrite ?Echoself_occurrences_app; cbn; (repeat split);
    first [reflexivity | lia].
Qed.

End EchoselfStartStop.

(** ** Misuse of the start/stop pair *)

Section Lifecycle.

Import time.

(** C8. [Start] on an instance that is already running returns the
    "already running" error and leaves the whole world as it was: no
    field is written and no goroutine is launched.  [Start] on an instance
    that is not running, all of whose sub-systems start, returns [nil],
    marks the instance running and launches the periodic loops; a second
    [Start] is then refused.  This holds for [AutonomousConsciousnessV4]
    (flag [running]) and for [AutonomousEchoself] (flag [isAwake]). *)
Theorem Start_twice_is_refused :
  (forall (env : deeptreeecho.Component -> Go.error) (w : deeptreeecho.World),
      deeptreeecho.running (deeptreeecho.self w) = true ->
      deeptreeecho.Start env w
      = (Some "autonomous consciousness already running"%string, w))
  /\ (forall (env env' : deeptreeecho.Component -> Go.error)
             (w : deeptreeecho.World),
         (forall c, env c = None) ->
         deeptreeecho.running (deeptreeecho.self w) = false ->
         let w1 := snd (deeptreeecho.Start env w) in
         fst (deeptreeecho.Start env w) = None
         /\ deeptreeecho.running (deeptreeecho.self w1) = true
         /\ deeptreeecho.calls w1
            = (deeptreeecho.calls w ++ deeptreeecho.startCalls)%list
         /\ deeptreeecho.Start env' w1
            = (Some "autonomous consciousness already running"%string, w1))
  /\ (forall (env : core.Component -> Go.error) (w : core.World),
         core.isAwake (core.self w) = true ->
         core.Start env w = (Some "echoself already awake"%string, w))
  /\ (forall (env env' : core.Component -> Go.error) (w : core.World),
         (forall c, env c = None) ->
         core.isAwake (core.self w) = false ->
         let w1 := snd (core.Start env w) in
         fst (core.Start env w) = None
         /\ core.isAwake (core.self w1) = true
         /\ core.Start env' w1 = (Some "echoself already awake"%string, w1)).
Proof.
  split; [exact V4_Start_running|].
  split.
  - intros env env' w Henv Hrun w1.
    destruct (V4_Start_fresh env w Henv Hrun) as (H1 & H2 & _ & H4).
    repeat split; try assumption.
    apply V4_Start_running. exact H2.
  - split; [exact Echoself_Start_awake|].
    intros env env' w Henv Hrun w1.
    destruct (Echoself_Start_fresh env w Henv Hrun) as (H1 & H2 & _).
    repeat split; try assumption.
    apply Echoself_Start_awake. exact H2.
Qed.

(** A new instance is started twice. *)
Lemma Start_twice_is_refused_witness :
  let w := deeptreeecho.newWorld false 0 in
  let w1 := snd (deeptreeecho.Start deeptreeecho.allStart w) in
  deeptreeecho.running (deeptreeecho.self w) = false
  /\ fst (deeptreeecho.Start deeptreeecho.allStart w) = None
  /\ deeptreeecho.Start deeptreeecho.allStart w1
     = (Some "autonomous consciousness already running"%string, w1).
Proof.
  intros w w1.
  destruct Start_twice_is_refused as (_ & Hfresh & _).
  assert (deeptreeecho.running (deeptreeecho.self w) = false) as Hrun
      by reflexivity.
  assert (forall c, deeptreeecho.allStart c = None) as Henv
      by (intro c; reflexivity).
  destruct (Hfresh deeptreeecho.allStart deeptreeecho.allStart w Henv Hrun)
    as (H1 & _ & _ & H4).
  split; [exact Hrun|]. split; [exact H1|]. exact H4.
Defined.

(** C9. On a running instance the first [Stop] returns [nil] and clears
    the flag, and the [Stop] that follows returns the "not running" error
    and changes nothing, so that over the two calls the context is
    cancelled once.  [Stop] on an instance that was never started returns
    the error and leaves the world as it was.  This holds for
    [AutonomousConsciousnessV4] and for [AutonomousEchoself]. *)
Theorem Stop_twice_is_refused :
  (forall w : deeptreeecho.World,
      deeptreeecho.running (deeptreeecho.self w) = true ->
      let w1 := snd (deeptreeecho.Stop w) in
      fst (deeptreeecho.Stop w) = None
      /\ deeptreeecho.Stop w1
         = (Some "autonomous consciousness not running"%string, w1)
      /\ deeptreeecho.calls (snd (deeptreeecho.Stop w1))
         = (deeptreeecho.calls w ++ [deeptreeecho.CallCancel])%list)
  /\ (forall (p : bool) (now : Time),
         deeptreeecho.Stop (deeptreeecho.newWorld p now)
         = (Some "autonomous consciousness not running"%string,
            deeptreeecho.newWorld p now))
  /\ (forall w : core.World,
         core.isAwake (core.self w) = true ->
         let w1 := snd (core.Stop w) in
         fst (core.Stop w) = None
         /\ core.Stop w1 = (Some "echoself not awake"%string, w1)
         /\ core.occurrences core.isCancel (core.calls (snd (core.Stop w1)))
            = S (core.occurrences core.isCancel (core.calls w)))
  /\ (forall (cfg : core.EchoselfConfig) (now : Time),
         core.Stop (core.newWorld cfg now)
         = (Some "echoself not awake"%string, core.newWorld cfg now)).
Proof.
  split.
  - intros w Hrun w1.
    destruct (V4_Stop_running w Hrun) as (H1 & H2 & _ & H4).
    assert (deeptreeecho.Stop w1
            = (Some "autonomous consciousness not running"%string, w1)) as H
        by (apply V4_Stop_not_running; exact H2).
    split; [exact H1|]. split; [exact H|].
    rewrite H. exact H4.
  - split; [intros p now; reflexivity|].
    split; [|intros cfg now; reflexivity].
    intros w Hrun w1.
    destruct (Echoself_Stop_awake w Hrun) as (H1 & H2 & H3).
    assert (core.Stop w1 = (Some "echoself not awake"%string, w1)) as H
        by (apply Echoself_Stop_not_awake; exact H2).
    split; [exact H1|]. split; [exact H|].
    rewrite H. exact H3.
Qed.

(** A started instance is stopped twice. *)
Lemma Stop_twice_is_refused_witness :
  let w := snd (deeptreeecho.Start deeptreeecho.allStart
                  (deeptreeecho.newWorld false 0)) in
  let w1 := snd (deeptreeecho.Stop w) in
  deeptreeecho.running (deeptreeecho.self w) = true
  /\ fst (deeptreeecho.Stop w) = None
  /\ deeptreeecho.Stop w1
     = (Some "autonomous consciousness not running"%string, w1).
Proof.
  intros w w1.
  destruct Stop_twice_is_refused as (Hstop & _).
  assert (deeptreeecho.running (deeptreeecho.self w) = true) as Hrun
      by reflexivity.
  destruct (Hstop w Hrun) as (H1 & H2 & _).
  split; [exact Hrun|]. split; [exact H1|]. exact H2.
Defined.

(** C10. When a sub-system fails during [Start] of an instance that was
    not running, [Start] returns an error, yet the instance stays marked
    as running: the loops have not been launched and the instance has not
    been woken, and every later [Start] is refused as "already running". *)
Theorem Start_failure_keeps_running_flag
        (env : deeptreeecho.Component -> Go.error) (w : deeptreeecho.World)
        (c : deeptreeecho.Component) (err : string) :
  deeptreeecho.running (deeptreeecho.self w) = false ->
  env c = Some err ->
  let w1 := snd (deeptreeecho.Start env w) in
  fst (deeptreeecho.Start env w) <> None
  /\ deeptreeecho.running (deeptreeecho.self w1) = true
  /\ deeptreeecho.awake (deeptreeecho.self w1)
     = deeptreeecho.awake (deeptreeecho.self w)
  /\ deeptreeecho.occurrences deeptreeecho.isGo (deeptreeecho.calls w1)
     = deeptreeecho.occurrences deeptreeecho.isGo (deeptreeecho.calls w)
  /\ (forall env' : deeptreeecho.Component -> Go.error,
         deeptreeecho.Start env' w1
         = (Some "autonomous consciousness already running"%string, w1)).
Proof.
  intros Hrun Hc w1.
  destruct (V4_Start_failure env w c err Hrun Hc) as (H1 & H2 & H3 & H4).
  repeat split; try assumption.
  intro env'. apply V4_Start_running. exact H2.
Qed.

End Lifecycle.

Section LifecycleAtSamples.

Import time.
Import deeptreeecho.

(** The dream system fails on the first start; the second start, with
    every sub-system healthy, is refused. *)
Lemma Start_failure_keeps_running_flag_witness :
  let w := newWorld false 0 in
  let w1 := snd (Start Samples.dreamFails w) in
  running (self w) = false
  /\ fst (Start Samples.dreamFails w)
     = Some "failed to start dream system: out of memory"%string
  /\ running (self w1) = true
  /\ awake (self w1) = false
  /\ Start allStart w1
     = (Some "autonomous consciousness already running"%string, w1).
Proof.
  intros w w1.
  assert (running (self w) = false) as Hrun by reflexivity.
  assert (Samples.dreamFails EchoDream = Some "out of memory"%string) as Hc
      by reflexivity.
  destruct (Start_failure_keeps_running_flag
              Samples.dreamFails w EchoDream _ Hrun Hc)
    as (_ & H2 & H3 & _ & H5).
  split; [exact Hrun|]. split; [reflexivity|]. split; [exact H2|].
  split; [exact H3|]. apply H5.
Defined.

End LifecycleAtSamples.

(** ** Persistence *)

Section Persistence.

Import Num.
Import time.
Import deeptreeecho.

(** C5 does not hold of the code: both halves of the persistence pair
    return [nil] without reading or writing anything.  Saving the state of
    an instance that has worked (awake, fatigue 0.5, 3 iterations) and
    loading on a fresh instance leaves the fresh instance as constructed:
    asleep, fatigue 0, no iterations. *)
Theorem persistence_round_trip_restores_nothing :
  let saved := Samples.worked in
  let fresh := newWorld true 0 in
  let loaded := snd (loadPersistedStateV4 fresh) in
  saveCurrentStateV4 saved = (None, saved)
  /\ loadPersistedStateV4 fresh = (None, fresh)
  /\ awake (self saved) = true /\ awake (self loaded) = false
  /\ (fatigueLevel (loadManager (self saved)) == 0.5)%Q
  /\ (fatigueLevel (loadManager (self loaded)) == 0)%Q
  /\ iterations (self saved) = 3 /\ iterations (self loaded) = 0.
Proof.
  cbv zeta. repeat split.
Qed.

End Persistence.

(** ** The counterexamples in binary64 *)

Section Binary64Checks.

Import PrimFloat.

Local Open Scope float_scope.

(** Fatigue 1 and load 1: the accumulation step stores a value above 1. *)
Lemma binary64_accumulate_exceeds_one :
  (1 <? Binary64.accumulate 1 1 Binary64.fatigueRate) = true.
Proof.
  reflexivity.
Qed.

(** Fatigue 7/8: the operand of the conversion is 52.5, strictly between
    52 and 53, so the conversion yields 52. *)
Lemma binary64_rest_minutes_fraction :
  (Binary64.restMinutes 0.875 =? 52.5) = true
  /\ (52 <? Binary64.restMinutes 0.875) = true
  /\ (Binary64.restMinutes 0.875 <? 53) = true.
Proof.
  repeat split.
Qed.

(** A rest of 20 minutes at the default rate stores 0 for full fatigue. *)
Lemma binary64_recover_twenty_minutes :
  (Binary64.recover 1 Binary64.recoveryRate 20 =? 0) = true.
Proof.
  reflexivity.
Qed.

(** [round64] against the hardware: at each of the sample levels, the
    product with 60 the machine computes is the exact product rounded by
    [round64]. *)
Lemma binary64_product_is_round64 :
  forallb (fun x => Binary64.mul_is_rounded x 60) Binary64.sampleLevels = true.
Proof.
  vm_compute. reflexivity.
Qed.

#[local] Set Warnings "-inexact-float".

(** The rounding comes before the truncation.  The [float64] written 0.95
    lies below 0.95, and its exact product with 60 below 57; the [float64]
    product is 57 and the rest lasts 57 minutes.  Likewise the [float64]
    written 0.15 gives 9 minutes, where the exact product has the whole
    part 8. *)
Lemma binary64_rest_rounds_before_truncating :
  Num.Qtrunc (Binary64.Q_of_float 0.95 * 60)%Q = 56%Z
  /\ (Binary64.restMinutes 0.95 =? 57) = true
  /\ deeptreeecho.restDuration (Binary64.Q_of_float 0.95)
     = (57 * time.Minute)%Z
  /\ Num.Qtrunc (Binary64.Q_of_float 0.15 * 60)%Q = 8%Z
  /\ (Binary64.restMinutes 0.15 =? 9) = true
  /\ deeptreeecho.restDuration (Binary64.Q_of_float 0.15)
     = (9 * time.Minute)%Z.
Proof.
  repeat split; vm_compute; reflexivity.
Qed.

End Binary64Checks.

(** * Further properties of the code *)

(** ** The working memory as a sliding window *)

Section WorkingMemoryWindow.

Import Num.
Import time.
Import deeptreeecho.
Import V4Loops.

Lemma lastn_fits {A : Type} (c : nat) (l : list A) :
  (List.length l <= c)%nat -> lastn c l = l.
Proof.
  intro H. unfold lastn.
  replace (List.length l - c)%nat with 0%nat by lia. reflexivity.
Qed.

Lemma length_lastn {A : Type} (c : nat) (l : list A) :
  List.length (lastn c l) = Nat.min c (List.length l).
Proof.
  unfold lastn. rewrite length_skipn. lia.
Qed.

(** Appending to a window and cutting again is cutting the appended list. *)
Lemma lastn_app_one {A : Type} (c : nat) (l : list A) (x : A) :
  lastn c (lastn c l ++ [x]) = lastn c (l ++ [x]).
Proof.
  destruct (Nat.le_gt_cases (List.length l) c) as [H|H].
  - rewrite (lastn_fits c l H). reflexivity.
  - unfold lastn at 1. rewrite length_app, length_lastn.
    cbn [List.length].
    replace (Nat.min c (List.length l) + 1 - c)%nat with 1%nat by lia.
    unfold lastn. rewrite length_app. cbn [List.length].
    replace (List.length l + 1 - c)%nat with (1 + (List.length l - c))%nat by lia.
    rewrite <- skipn_skipn. f_equal.
    rewrite skipn_app.
    replace (List.length l - c - List.length l)%nat with 0%nat by lia.
    reflexivity.
Qed.

Lemma lastn_app_window {A : Type} (c : nat) (ts : list A) :
  forall l : list A, lastn c (lastn c l ++ ts) = lastn c (l ++ ts).
Proof.
  induction ts as [|u ts IH]; intro l.
  - rewrite !app_nil_r. apply lastn_fits. rewrite length_lastn. lia.
  - replace (lastn c l ++ u :: ts) with ((lastn c l ++ [u]) ++ ts)
      by (rewrite <- app_assoc; reflexivity).
    replace (l ++ u :: ts) with ((l ++ [u]) ++ ts)
      by (rewrite <- app_assoc; reflexivity).
    rewrite <- (IH (l ++ [u])), <- (IH (lastn c l ++ [u])).
    rewrite lastn_app_one. reflexivity.
Qed.

(** What one thought does to the buffer. *)
Lemma processEmergedThought_buffer (hg : bool) (t : Thought) (w : World) :
  (Z.of_nat (List.length (buffer (workingMemory (self w))))
   <= capacity (workingMemory (self w)))%Z ->
  fst (processEmergedThought hg t w)
  = on_self
      (set_workingMemory
         {| buffer :=
              lastn (Z.to_nat (capacity (workingMemory (self w))))
                    (buffer (workingMemory (self w)) ++ [t]);
            capacity := capacity (workingMemory (self w)) |}) w.
Proof.
  intro H. unfold processEmergedThought, storeThoughtInHypergraph.
  cbn [fst].
  set (b := buffer (workingMemory (self w))) in *.
  set (c := capacity (workingMemory (self w))) in *.
  assert ((if (Z.of_nat (List.length (b ++ [t])) >? c)%Z
           then skipn 1 (b ++ [t]) else b ++ [t])
          = lastn (Z.to_nat c) (b ++ [t])) as ->.
  { unfold lastn. rewrite length_app. cbn [List.length].
    destruct (Z.gtb_spec (Z.of_nat (List.length b + 1)) c) as [Hgt|Hle].
    - replace (List.length b + 1 - Z.to_nat c)%nat with 1%nat by lia.
      reflexivity.
    - replace (List.length b + 1 - Z.to_nat c)%nat with 0%nat by lia.
      reflexivity. }
  destruct (Qlt_bool 0.6 (Importance t) && hg); [destruct hg|]; reflexivity.
Qed.

Lemma processThoughts_buffer (hg : bool) (ts : list Thought) :
  forall w : World,
    (Z.of_nat (List.length (buffer (workingMemory (self w))))
     <= capacity (workingMemory (self w)))%Z ->
    processThoughts hg ts w
    = on_self
        (set_workingMemory
           {| buffer :=
                lastn (Z.to_nat (capacity (workingMemory (self w))))
                      (buffer (workingMemory (self w)) ++ ts);
              capacity := capacity (workingMemory (self w)) |}) w.
Proof.
  induction ts as [|t ts IH]; intros w H.
  - cbn [processThoughts]. rewrite app_nil_r, lastn_fits by lia.
    destruct w as [[? [? ?] ? ? ? ? ? ? ? ? ?] ? ?]. reflexivity.
  - cbn [processThoughts]. rewrite processEmergedThought_buffer by exact H.
    rewrite IH.
    + cbn -[lastn]. rewrite lastn_app_window, <- app_assoc. reflexivity.
    + cbn -[lastn]. rewrite length_lastn. lia.
Qed.

(** X1. The working memory keeps the most recent thoughts, up to its capacity,
    in the order in which they emerged: after any sequence of thoughts has
    been processed the buffer is the last [capacity] elements of the old
    buffer followed by the sequence, the capacity is as before, the buffer
    does not exceed it, and nothing but the working memory has changed. *)
Theorem working_memory_sliding_window
        (hg : bool) (ts : list Thought) (w : World) :
  (Z.of_nat (List.length (buffer (workingMemory (self w))))
   <= capacity (workingMemory (self w)))%Z ->
  let c := capacity (workingMemory (self w)) in
  let w' := processThoughts hg ts w in
  buffer (workingMemory (self w'))
  = lastn (Z.to_nat c) (buffer (workingMemory (self w)) ++ ts)
  /\ capacity (workingMemory (self w')) = c
  /\ (Z.of_nat (List.length (buffer (workingMemory (self w')))) <= c)%Z
  /\ loadManager (self w') = loadManager (self w)
  /\ awake (self w') = awake (self w)
  /\ calls w' = calls w
  /\ w' = on_self (set_workingMemory (workingMemory (self w'))) w.
Proof.
  intros H c w'. subst w'. rewrite (processThoughts_buffer hg ts w H).
  cbn. repeat split.
  rewrite length_lastn. subst c. lia.
Qed.

(** Nine thoughts into a new instance of capacity 7: the last seven stay. *)
Lemma working_memory_sliding_window_witness :
  let w := newWorld false 0 in
  let t (n : Z) := {| Type_ := "idea"; Content := "t"; Importance := inject_Z n |} in
  (Z.of_nat (List.length (buffer (workingMemory (self w))))
   <= capacity (workingMemory (self w)))%Z
  /\ buffer (workingMemory (self
       (processThoughts true [t 1; t 2; t 3; t 4; t 5; t 6; t 7; t 8; t 9] w)))
     = [t 3; t 4; t 5; t 6; t 7; t 8; t 9]%Z.
Proof.
  intros w t.
  assert (Z.of_nat (List.length (buffer (workingMemory (self w))))
          <= capacity (workingMemory (self w)))%Z as H by (vm_compute; discriminate).
  split; [exact H|].
  destruct (working_memory_sliding_window
              true [t 1; t 2; t 3; t 4; t 5; t 6; t 7; t 8; t 9]%Z w H) as [Hb _].
  rewrite Hb. reflexivity.
Defined.

End WorkingMemoryWindow.

(** ** The load monitor over many ticks *)

Section LoadTicks.

Import Num.
Import time.
Import deeptreeecho.
Import V4Loops.

Local Open Scope Q_scope.

(** The history after a tick: the snapshot of the world as the tick leaves
    it is appended, and the oldest entry goes once there are more than
    1000. *)
Lemma tick_loadHistory (w : World) :
  (List.length (loadHistory (loadManager (self w))) <= 1000)%nat ->
  loadHistory (loadManager (self (cognitiveLoadMonitoring_tick w)))
  = lastn 1000 (loadHistory (loadManager (self w))
                ++ [snapshotOf (cognitiveLoadMonitoring_tick w)]).
Proof.
  intro H.
  assert (snapshotOf (cognitiveLoadMonitoring_tick w)
          = {| Timestamp := clock w;
               Load := currentLoad (loadManager (self w));
               Fatigue :=
                 if awake (self w)
                 then fatigueLevel (loadManager (self w))
                      + currentLoad (loadManager (self w))
                        * fatigueRate (loadManager (self w))
                 else fatigueLevel (loadManager (self w)) |}) as ->.
  { unfold snapshotOf. rewrite tick_fatigueLevel, tick_currentLoad.
    destruct (tick_frame w) as (_ & _ & -> & _). reflexivity. }
  unfold cognitiveLoadMonitoring_tick, lastn.
  rewrite length_app. cbn [List.length].
  destruct (awake (self w)); cbn -[skipn Nat.sub];
    rewrite length_app; cbn [List.length];
    match goal with
    | |- context [(?a >? ?b)%Z] => destruct (Z.gtb_spec a b)
    end; cbn -[skipn Nat.sub];
    match goal with
    | |- _ = skipn ?k _ =>
        first [ replace k with 1%nat by lia | replace k with 0%nat by lia ]
    end; reflexivity.
Qed.

Lemma tickStates_length (n : nat) (w : World) :
  List.length (tickStates n w) = n.
Proof.
  revert w. induction n as [|n IH]; intro w; cbn; [reflexivity|].
  rewrite IH. reflexivity.
Qed.

(** The history after [n] ticks: the snapshots of the worlds the ticks have
    left, appended in order, cut to the last 1000. *)
Lemma loadTicks_loadHistory (n : nat) (w : World) :
  (List.length (loadHistory (loadManager (self w))) <= 1000)%nat ->
  loadHistory (loadManager (self (loadTicks n w)))
  = lastn 1000 (loadHistory (loadManager (self w))
                ++ map snapshotOf (tickStates n w)).
Proof.
  revert w. induction n as [|n IH]; intros w H.
  - cbn [loadTicks tickStates map]. rewrite app_nil_r.
    symmetry. apply lastn_fits. exact H.
  - cbn [loadTicks tickStates map].
    rewrite IH.
    + rewrite tick_loadHistory by exact H.
      rewrite lastn_app_window, <- app_assoc. reflexivity.
    + rewrite tick_loadHistory by exact H.
      rewrite length_lastn. lia.
Qed.

(** X2. The load history keeps the last 1000 snapshots and only them: from a
    history within that bound, [n] ticks leave the old entries followed by
    the snapshots of the worlds the [n] ticks have left, oldest first, cut
    to the last 1000 of that list, so [min (length + n) 1000] entries; the
    old entries are all gone once [n] is 1000 or more, and after each tick
    the newest entry is the snapshot of the world the tick has left (its
    clock, its load, the fatigue just stored). *)
Theorem load_history_keeps_last_thousand (n : nat) (w : World) :
  (List.length (loadHistory (loadManager (self w))) <= 1000)%nat ->
  List.length (loadHistory (loadManager (self (loadTicks n w))))
  = Nat.min (List.length (loadHistory (loadManager (self w))) + n) 1000
  /\ (forall d : LoadSnapshot,
       last (loadHistory (loadManager (self (loadTicks (S n) w)))) d
       = snapshotOf (loadTicks (S n) w))
  /\ loadHistory (loadManager (self (loadTicks n w)))
     = lastn 1000 (loadHistory (loadManager (self w))
                   ++ map snapshotOf (tickStates n w))
  /\ ((1000 <= n)%nat ->
      loadHistory (loadManager (self (loadTicks n w)))
      = lastn 1000 (map snapshotOf (tickStates n w))).
Proof.
  intro H.
  cut (List.length (loadHistory (loadManager (self (loadTicks n w))))
       = Nat.min (List.length (loadHistory (loadManager (self w))) + n) 1000
       /\ forall d : LoadSnapshot,
            last (loadHistory (loadManager (self (loadTicks (S n) w)))) d
            = snapshotOf (loadTicks (S n) w)).
  { intros [Hlen Hlast].
    pose proof (loadTicks_loadHistory n w H) as Hall.
    split; [exact Hlen|]. split; [exact Hlast|]. split; [exact Hall|].
    intro Hn. rewrite Hall. unfold lastn.
    rewrite length_app, length_map, tickStates_length, skipn_app.
    rewrite (skipn_all2 (loadHistory (loadManager (self w)))) by lia.
    cbn [app]. f_equal. lia. }
  assert (List.length (loadHistory (loadManager (self (loadTicks n w))))
          = Nat.min (List.length (loadHistory (loadManager (self w))) + n) 1000)
    as Hlen.
  { induction n as [|n IH].
    - cbn [loadTicks]. lia.
    - rewrite loadTicks_succ, tick_loadHistory by lia.
      rewrite length_lastn, length_app, IH. cbn [List.length]. lia. }
  split; [exact Hlen|].
  intro d. rewrite loadTicks_succ, tick_loadHistory by lia.
  unfold lastn. rewrite length_app. cbn [List.length].
  rewrite skipn_app.
  replace (List.length (loadHistory (loadManager (self (loadTicks n w)))) + 1
           - 1000
           - List.length (loadHistory (loadManager (self (loadTicks n w)))))%nat
    with 0%nat by lia.
  cbn [skipn]. apply last_last.
Qed.

(** An awake instance at load 1, ticked 1003 times from fatigue 0, holds
    1000 snapshots; the oldest one kept is that of the fourth tick. *)
Lemma load_history_keeps_last_thousand_witness :
  let w := Samples.awakeWith 0 1 0%Z in
  (List.length (loadHistory (loadManager (self w))) <= 1000)%nat
  /\ List.length (loadHistory (loadManager (self (loadTicks 1003 w)))) = 1000%nat
  /\ match loadHistory (loadManager (self (loadTicks 1003 w))) with
     | oldest :: _ => Fatigue oldest == 0.04
     | [] => False
     end.
Proof.
  intro w.
  assert (List.length (loadHistory (loadManager (self w))) <= 1000)%nat as H
      by (cbn; lia).
  assert (1000 <= 1003)%nat as Hn by lia.
  split; [exact H|].
  destruct (load_history_keeps_last_thousand 1003 w H)
    as (Hlen & _ & _ & Hfresh).
  split; [rewrite Hlen; reflexivity|].
  rewrite (Hfresh Hn). vm_compute. reflexivity.
Defined.

(** X3. While the instance is awake the load monitor adds the same amount on
    every tick: after [n] ticks the fatigue is the starting level plus [n]
    times load times rate; while it is not awake the ticks leave the
    fatigue as it is.  The ticks change neither the load nor the rate nor
    the awake flag. *)
Theorem fatigue_accumulates_per_tick (n : nat) (w : World) :
  fatigueLevel (loadManager (self (loadTicks n w)))
  == (if awake (self w)
      then fatigueLevel (loadManager (self w))
           + inject_Z (Z.of_nat n)
             * (currentLoad (loadManager (self w))
                * fatigueRate (loadManager (self w)))
      else fatigueLevel (loadManager (self w)))
  /\ awake (self (loadTicks n w)) = awake (self w)
  /\ currentLoad (loadManager (self (loadTicks n w)))
     = currentLoad (loadManager (self w)).
Proof.
  split; [|destruct (loadTicks_frame n w) as (Ha & Hl & _); split; assumption].
  induction n as [|n IH].
  - cbn [loadTicks]. destruct (awake (self w)); cbn; ring.
  - rewrite loadTicks_succ, tick_fatigueLevel.
    destruct (loadTicks_frame n w) as (Ha & Hl & Hr).
    rewrite Ha, Hl, Hr.
    destruct (awake (self w)); [|exact IH].
    rewrite IH, Nat2Z.inj_succ. unfold Z.succ. rewrite inject_Z_plus. ring.
Qed.

End LoadTicks.

(** ** Wake and rest as a pair *)

Section WakeRest.

Import Num.
Import time.
Import deeptreeecho.
Import V4Loops.

Local Open Scope Q_scope.

Lemma Rest_frame (w : World) :
  loadManager (self (Rest w)) = loadManager (self w)
  /\ clock (Rest w) = clock w
  /\ dreamTrigger (self (Rest w)) = dreamTrigger (self w)
  /\ running (self (Rest w)) = running (self w).
Proof.
  unfold Rest. destruct (awake (self w)); repeat split.
Qed.

Lemma Rest_Rest (w : World) : Rest (Rest w) = Rest w.
Proof.
  unfold Rest at 1. rewrite Rest_awake. reflexivity.
Qed.

Lemma Wake_Wake (w : World) : Wake (Wake w) = Wake w.
Proof.
  unfold Wake at 1. rewrite Wake_awake. reflexivity.
Qed.

(** X4. [Rest] and [Wake] act once: a second [Rest] launches no second dream
    cycle and a second [Wake] does not scale the fatigue again.  A [Wake]
    that comes while the dream cycle launched by [Rest] is still asleep
    scales the fatigue by 0.3 at once and does not call the cycle off: when
    the cycle ends, its recovery is applied on top of that, and its own
    wake-up finds the instance awake and changes nothing more. *)
Theorem rest_and_wake_act_once (w : World) (d : Duration) :
  awake (self w) = true ->
  Rest (Rest w) = Rest w
  /\ Wake (Wake (Rest w)) = Wake (Rest w)
  /\ occurrences isGo (calls (Rest (Rest w)))
     = S (occurrences isGo (calls w))
  /\ fatigueLevel (loadManager (self (Wake (Rest w))))
     = fatigueLevel (loadManager (self w)) * 0.3
  /\ fatigueLevel (loadManager (self (dreamCycle d (Wake (Rest w)))))
     = fatigueLevel (recover d (loadManager (self (Wake (Rest w)))))
  /\ startTime (self (dreamCycle d (Wake (Rest w))))
     = startTime (self (Wake (Rest w))).
Proof.
  intro Haw.
  split; [apply Rest_Rest|].
  split; [apply Wake_Wake|].
  split.
  { rewrite Rest_Rest, (Rest_of_awake w Haw). cbn -[occurrences].
    rewrite occurrences_app. cbn. lia. }
  split.
  { rewrite Wake_fatigueLevel, Rest_awake.
    destruct (Rest_frame w) as (-> & _). reflexivity. }
  split.
  { rewrite dreamCycle_fatigueLevel, Wake_awake. reflexivity. }
  unfold dreamCycle, consolidateMemories, dreamSkillPractice, extractPatterns.
  unfold Wake at 1. cbn. rewrite Wake_awake. reflexivity.
Qed.

(** Fatigue 0.9: two calls of [Rest] launch one dream cycle. *)
Lemma rest_and_wake_act_once_witness :
  let w := Samples.awakeWith 0.9 0.5 (31 * Minute)%Z in
  awake (self w) = true
  /\ occurrences isGo (calls (Rest (Rest w))) = 1%nat
  /\ fatigueLevel (loadManager (self (Wake (Rest w)))) == 0.27.
Proof.
  intro w.
  assert (awake (self w) = true) as Haw by reflexivity.
  destruct (rest_and_wake_act_once w (54 * Minute)%Z Haw)
    as (_ & _ & Hgo & Hf & _).
  split; [exact Haw|]. split; [exact Hgo|].
  rewrite Hf. reflexivity.
Defined.

(** X5. After waking, the automatic trigger stays quiet until the minimum wake
    duration has passed, whatever the fatigue: for an instance that was
    not awake, neither right after [Wake] nor right after a completed dream
    cycle does [shouldInitiateRest] answer true, and a tick of the trigger
    loop changes nothing.  It is the time that holds the trigger back: when
    the fatigue left by [Wake] (0.3 times the level before) is at or above
    the threshold and no discussion is active, [shouldInitiateRest] answers
    true from the minimum wake duration on, and a tick of the enabled
    trigger loop then sends the instance to rest. *)
Theorem no_rest_before_min_wake_duration (w : World) (d e : Duration) :
  awake (self w) = false ->
  (0 <= e < minWakeDuration (dreamTrigger (self w)))%Z ->
  shouldInitiateRest (elapse e (Wake w)) = false
  /\ automaticDreamTriggerLoop_tick (elapse e (Wake w)) = elapse e (Wake w)
  /\ shouldInitiateRest (elapse e (dreamCycle d w)) = false
  /\ automaticDreamTriggerLoop_tick (elapse e (dreamCycle d w))
     = elapse e (dreamCycle d w)
  /\ (forall e' : Duration,
         (minWakeDuration (dreamTrigger (self w)) <= e')%Z ->
         fatigueThreshold (dreamTrigger (self w))
         <= fatigueLevel (loadManager (self w)) * 0.3 ->
         inActiveDiscussion (self w) = false ->
         shouldInitiateRest (elapse e' (Wake w)) = true
         /\ (enabled (dreamTrigger (self w)) = true ->
             automaticDreamTriggerLoop_tick (elapse e' (Wake w))
             = Rest (elapse e' (Wake w))
             /\ awake (self (automaticDreamTriggerLoop_tick
                               (elapse e' (Wake w)))) = false)).
Proof.
  intros Haw He.
  assert (forall e' : Duration,
         (minWakeDuration (dreamTrigger (self w)) <= e')%Z ->
         fatigueThreshold (dreamTrigger (self w))
         <= fatigueLevel (loadManager (self w)) * 0.3 ->
         inActiveDiscussion (self w) = false ->
         shouldInitiateRest (elapse e' (Wake w)) = true
         /\ (enabled (dreamTrigger (self w)) = true ->
             automaticDreamTriggerLoop_tick (elapse e' (Wake w))
             = Rest (elapse e' (Wake w))
             /\ awake (self (automaticDreamTriggerLoop_tick
                               (elapse e' (Wake w)))) = false)) as Hlate.
  { intros e' He' Hf Hdisc.
    assert (shouldInitiateRest (elapse e' (Wake w)) = true) as Hs.
    { apply shouldInitiateRest_true. unfold restGuard, elapse, Wake.
      rewrite Haw. cbn. unfold Since, Add.
      split; [lia|]. split; [exact Hf|exact Hdisc]. }
    split; [exact Hs|].
    intro Hen.
    assert (automaticDreamTriggerLoop_tick (elapse e' (Wake w))
            = Rest (elapse e' (Wake w))) as Ht.
    { unfold automaticDreamTriggerLoop_tick. rewrite Hs.
      replace (enabled (dreamTrigger (self (elapse e' (Wake w))))) with true
        by (unfold elapse, Wake; rewrite Haw; cbn; symmetry; exact Hen).
      replace (awake (self (elapse e' (Wake w)))) with true
        by (unfold elapse, Wake; rewrite Haw; reflexivity).
      reflexivity. }
    split; [exact Ht|]. rewrite Ht. apply Rest_awake. }
  assert (forall v : World,
             awake (self v) = false ->
             dreamTrigger (self v) = dreamTrigger (self w) ->
             shouldInitiateRest (elapse e (Wake v)) = false) as Hquiet.
  { intros v Hv Ht. unfold shouldInitiateRest, elapse, Wake.
    rewrite Hv. cbn. rewrite Ht.
    destruct (Qlt_bool _ _); [reflexivity|].
    unfold Since, Add. rewrite Z.max_r by lia.
    destruct (Z.ltb_spec (clock v + e - clock v)
                         (minWakeDuration (dreamTrigger (self w))));
      [reflexivity|lia]. }
  assert (forall v : World,
             shouldInitiateRest v = false ->
             automaticDreamTriggerLoop_tick v = v) as Htick.
  { intros v Hv. unfold automaticDreamTriggerLoop_tick. rewrite Hv.
    destruct (_ || _); reflexivity. }
  assert (shouldInitiateRest (elapse e (dreamCycle d w)) = false) as Hd.
  { unfold dreamCycle, consolidateMemories, dreamSkillPractice, extractPatterns.
    apply Hquiet; [exact Haw|reflexivity]. }
  split; [apply Hquiet; [exact Haw|reflexivity]|].
  split; [apply Htick; apply Hquiet; [exact Haw|reflexivity]|].
  split; [exact Hd|].
  split; [apply Htick; exact Hd|].
  exact Hlate.
Qed.

(** An instance at rest with fatigue 4: the wake-up leaves 1.2 and a dream
    cycle of five minutes 0.9, both above the threshold of 0.75.  Ten
    minutes after the wake-up the trigger is quiet; thirty minutes after it
    the trigger fires. *)
Lemma no_rest_before_min_wake_duration_witness :
  let w := Rest (Samples.awakeWith 4 1 0%Z) in
  awake (self w) = false
  /\ fatigueThreshold (dreamTrigger (self (Wake w)))
     <= fatigueLevel (loadManager (self (Wake w)))
  /\ fatigueThreshold (dreamTrigger (self (dreamCycle (5 * Minute)%Z w)))
     <= fatigueLevel (loadManager (self (dreamCycle (5 * Minute)%Z w)))
  /\ inActiveDiscussion (self (Wake w)) = false
  /\ shouldInitiateRest (elapse (10 * Minute)%Z (Wake w)) = false
  /\ shouldInitiateRest
       (elapse (10 * Minute)%Z (dreamCycle (5 * Minute)%Z w)) = false
  /\ shouldInitiateRest (elapse (30 * Minute)%Z (Wake w)) = true
  /\ awake (self (automaticDreamTriggerLoop_tick
                    (elapse (30 * Minute)%Z (Wake w)))) = false.
Proof.
  intro w.
  assert (awake (self w) = false) as Haw by reflexivity.
  assert (0 <= 10 * Minute < minWakeDuration (dreamTrigger (self w)))%Z as He
      by (vm_compute; split; [discriminate|reflexivity]).
  assert (minWakeDuration (dreamTrigger (self w)) <= 30 * Minute)%Z as He'
      by (vm_compute; discriminate).
  assert (fatigueThreshold (dreamTrigger (self w))
          <= fatigueLevel (loadManager (self w)) * 0.3) as Hf
      by (vm_compute; discriminate).
  assert (inActiveDiscussion (self w) = false) as Hdisc by reflexivity.
  assert (enabled (dreamTrigger (self w)) = true) as Hen by reflexivity.
  destruct (no_rest_before_min_wake_duration w (5 * Minute)%Z
                                             (10 * Minute)%Z Haw He)
    as (H & _ & Hcycle & _ & Hlate).
  destruct (Hlate (30 * Minute)%Z He' Hf Hdisc) as [Hs Htick].
  destruct (Htick Hen) as [_ Hrest].
  split; [exact Haw|].
  split; [vm_compute; discriminate|].
  split; [vm_compute; discriminate|].
  split; [reflexivity|].
  split; [exact H|].
  split; [exact Hcycle|].
  split; [exact Hs|exact Hrest].
Defined.

End WakeRest.

(** ** What a whole rest leaves of the fatigue *)

Section RestCycle.

Import Num.
Import time.
Import deeptreeecho.
Import V4Loops.

Local Open Scope Q_scope.

(** The conversion to whole minutes does not fall below a whole number
    that the operand has reached. *)
Lemma Qtrunc_ge (k : Z) (q : Q) :
  (0 <= k)%Z -> inject_Z k <= q -> (k <= Qtrunc q)%Z.
Proof.
  intros Hk Hq.
  assert (0 <= q) as H0.
  { eapply Qle_trans; [|exact Hq]. change 0 with (inject_Z 0).
    rewrite <- Zle_Qle. exact Hk. }
  assert (Qtrunc q = Qfloor q) as ->.
  { destruct q as [n dn]. unfold Qtrunc, Qfloor. cbn [Qnum Qden].
    apply Z.quot_div_nonneg; [|reflexivity].
    unfold Qle in H0. cbn in H0. lia. }
  rewrite <- (Qfloor_Z k). apply Qfloor_resp_le. exact Hq.
Qed.

Lemma restDuration_range (f : Q) :
  (Z.abs (Qtrunc (round64 (f * 60))) <= maxWholeMinutes)%Z ->
  (5 * Minute <= restDuration f <= 2 * Hour)%Z.
Proof.
  intro H. rewrite restDuration_clamp by exact H.
  apply clampZ_range. vm_compute. discriminate.
Qed.

Lemma restDuration_twenty (f : Q) :
  (Z.abs (Qtrunc (round64 (f * 60))) <= maxWholeMinutes)%Z ->
  1 # 3 <= f ->
  (20 * Minute <= restDuration f)%Z.
Proof.
  intros H Hf. rewrite restDuration_clamp by exact H.
  assert (20 <= Qtrunc (round64 (f * 60)))%Z as Ht.
  { apply Qtrunc_ge; [lia|]. apply round64_ge; [lia|].
    change (inject_Z 20) with 20. lra. }
  set (t := Qtrunc (round64 (f * 60))) in *.
  unfold clampZ, Hour, Minute, Second.
  destruct (Z.ltb_spec (t * (60 * 1000000000)) (5 * (60 * 1000000000)));
    [lia|].
  destruct (Z.ltb_spec (2 * (60 * (60 * 1000000000)))
                       (t * (60 * 1000000000))); lia.
Qed.

(** X6. The fatigue left by an automatic rest, for the recovery rate of the
    constructor (0.05 per minute) and a fatigue that is not negative and
    whose [float64] product with 60 is small enough for its whole part to be
    counted in nanoseconds: the rest computed by [Rest], slept through and
    followed by the wake-up, leaves at most 22.5 per cent of the fatigue
    and never more than 0.075, and leaves exactly 0 when the fatigue was at
    least one third. *)
Theorem rest_cycle_leaves_little_fatigue (w : World) :
  let f := fatigueLevel (loadManager (self w)) in
  awake (self w) = true ->
  recoveryRate (loadManager (self w)) == 0.05 ->
  0 <= f ->
  (Z.abs (Qtrunc (round64 (f * 60))) <= maxWholeMinutes)%Z ->
  awake (self (restCycle w)) = true
  /\ 0 <= fatigueLevel (loadManager (self (restCycle w)))
  /\ fatigueLevel (loadManager (self (restCycle w))) <= 0.225 * f
  /\ fatigueLevel (loadManager (self (restCycle w))) <= 0.075
  /\ (1 # 3 <= f -> fatigueLevel (loadManager (self (restCycle w))) == 0).
Proof.
  intros f Haw Hr Hf Hfit.
  unfold restCycle. fold f.
  set (d := restDuration f).
  pose proof (restDuration_range f Hfit) as Hd. fold d in Hd.
  assert (0 <= d)%Z as Hd0 by (unfold Minute, Second in Hd; lia).
  destruct (dreamCycle_of_resting d (Rest w) (Rest_awake w) Hd0) as (Hawake & _).
  rewrite dreamCycle_fatigueLevel, Rest_awake.
  destruct (Rest_frame w) as (-> & _).
  set (lm := loadManager (self w)) in *.
  pose proof (recover_nonneg d lm) as Hn.
  assert (5 <= Minutes d) as Hm.
  { rewrite <- (Minutes_of_minutes 5). apply Minutes_le. apply Hd. }
  assert (fatigueLevel (recover d lm) <= 0.75 * f) as Hle.
  { rewrite recover_fatigueLevel. cbv zeta. fold f.
    case_Qlt (f * (1.0 - recoveryRate lm * Minutes d)) 0.
    - lra.
    - rewrite Hr.
      assert (0 <= f * (Minutes d - 5)) as Hp
          by (apply Qmult_le_0_compat; lra).
      lra. }
  assert (1 # 3 <= f -> fatigueLevel (recover d lm) == 0) as Hzero.
  { intro H3. apply recover_zero; [exact Hf|].
    pose proof (restDuration_twenty f Hfit H3) as H20. fold d in H20.
    apply Minutes_le in H20. rewrite Minutes_of_minutes in H20.
    change (inject_Z 20) with 20 in H20. fold lm. rewrite Hr. lra. }
  split; [exact Hawake|].
  split; [lra|]. split; [lra|]. split.
  - destruct (Qlt_le_dec f (1 # 3)) as [Hlt|Hge]; [lra|].
    rewrite (Hzero Hge). lra.
  - intro H3. rewrite (Hzero H3). lra.
Qed.

(** Fatigue 0.2: a rest of 12 minutes leaves 0.024. *)
Lemma rest_cycle_leaves_little_fatigue_witness :
  let w := Samples.awakeWith 0.2 0.5 (31 * Minute)%Z in
  awake (self w) = true
  /\ fatigueLevel (loadManager (self (restCycle w))) <= 0.075
  /\ fatigueLevel (loadManager (self (restCycle w))) == 0.024.
Proof.
  intro w.
  assert (awake (self w) = true) as Haw by reflexivity.
  assert (recoveryRate (loadManager (self w)) == 0.05) as Hr by reflexivity.
  assert (0 <= fatigueLevel (loadManager (self w))) as Hf
      by (vm_compute; discriminate).
  assert (Z.abs (Qtrunc (round64 (fatigueLevel (loadManager (self w)) * 60)))
          <= maxWholeMinutes)%Z as Hfit by (vm_compute; discriminate).
  destruct (rest_cycle_leaves_little_fatigue w Haw Hr Hf Hfit)
    as (_ & _ & _ & Hle & _).
  split; [exact Haw|]. split; [exact Hle|]. vm_compute. reflexivity.
Defined.

End RestCycle.

(** ** Starting again after a stop *)

Section Restart.

Import time.

Lemma V4_Start_cancelled (env : deeptreeecho.Component -> Go.error) :
  Go.keeps (fun w => deeptreeecho.cancelled (deeptreeecho.self w))
           (deeptreeecho.Start env).
Proof.
  intro w. unfold deeptreeecho.Start.
  destruct (deeptreeecho.running (deeptreeecho.self w)); [reflexivity|].
  revert w.
  apply (keeps_andThen (fun w => deeptreeecho.cancelled (deeptreeecho.self w))).
  { apply keeps_exec. reflexivity. }
  repeat apply keeps_andThen;
    try (apply keeps_exec; intro w; reflexivity);
    try apply keeps_ok;
    try (intro w; unfold deeptreeecho.startComponent;
         match goal with |- context [env ?c] => destruct (env c) end;
         reflexivity).
  - apply keeps_exec. intro w.
    destruct (deeptreeecho.persistence (deeptreeecho.self w)); reflexivity.
  - apply keeps_exec. intro w. unfold deeptreeecho.Wake.
    destruct (deeptreeecho.awake (deeptreeecho.self w)); reflexivity.
Qed.

Lemma Echoself_Start_cancelled (env : core.Component -> Go.error) :
  Go.keeps (fun w => core.cancelled (core.self w)) (core.Start env).
Proof.
  intro w. unfold core.Start.
  destruct (core.isAwake (core.self w)); [reflexivity|].
  revert w.
  apply (keeps_andThen (fun w => core.cancelled (core.self w))).
  { apply keeps_exec. reflexivity. }
  repeat apply keeps_andThen;
    try (apply keeps_exec; intro w; reflexivity);
    try apply keeps_ok.
  - intro w. unfold core.startEchoBeats.
    destruct (env core.EchoBeats); reflexivity.
  - intro w. unfold core.startStream.
    destruct (core.streamOfConsciousness (core.self w)); [|reflexivity].
    destruct (env core.StreamOfConsciousness); reflexivity.
Qed.

Lemma Echoself_Stop_cancelled (w : core.World) :
  core.isAwake (core.self w) = true ->
  core.cancelled (core.self (snd (core.Stop w))) = true
  /\ core.currentState (core.self (snd (core.Stop w))) = core.StateResting.
Proof.
  intro H. unfold core.Stop, core.persistAllState, core.exec, core.ok,
             Go.andThen, Go.exec, Go.ok.
  rewrite H. cbn.
  destruct (core.streamOfConsciousness (core.self w)); cbn;
    destruct (core.discussionManager (core.self w)); split; reflexivity.
Qed.

(** The calls of a start of [AutonomousEchoself] that goes through: the
    scheduler, the stream when there is one, then the three loops. *)
Lemma Echoself_Start_calls (env : core.Component -> Go.error) (w : core.World) :
  (forall c, env c = None) ->
  core.isAwake (core.self w) = false ->
  core.calls (snd (core.Start env w))
  = (core.calls w
     ++ [core.CallEchoBeatsStart]
     ++ (if core.streamOfConsciousness (core.self w)
         then [core.CallStreamStart] else [])
     ++ [core.CallGo core.JobAutonomousLifeCycle;
         core.CallGo core.JobInterestDecayLoop;
         core.CallGo core.JobConsciousnessMonitoring])%list.
Proof.
  intros Henv H.
  unfold core.Start, core.startEchoBeats, core.startStream, core.exec, core.ok,
    Go.andThen, Go.exec, Go.ok.
  rewrite H, !Henv. cbn.
  destruct (core.streamOfConsciousness (core.self w)); cbn;
    rewrite <- ?app_assoc; reflexivity.
Qed.

Lemma Echoself_Stop_stream (w : core.World) :
  core.streamOfConsciousness (core.self (snd (core.Stop w)))
  = core.streamOfConsciousness (core.self w).
Proof.
  unfold core.Stop, core.persistAllState, core.exec, core.ok,
    Go.andThen, Go.exec, Go.ok.
  destruct (core.isAwake (core.self w)); cbn; [|reflexivity].
  destruct (core.streamOfConsciousness (core.self w)) eqn:E; cbn;
    destruct (core.discussionManager (core.self w)); cbn; exact E.
Qed.

(** X8. [Stop] cancels the context made by the constructor and nothing makes
    a new one: [Start] leaves a cancelled context cancelled.  So an
    instance that is stopped and started again reports success, is marked
    running and launches its loops, but on the cancelled context, for
    [AutonomousConsciousnessV4] (six sub-systems started, five loops
    launched) as for [AutonomousEchoself] (the scheduler and, when there is
    one, the stream started, three loops launched). *)
Theorem restart_runs_on_cancelled_context :
  (forall (env : deeptreeecho.Component -> Go.error) (w : deeptreeecho.World),
      (forall c, env c = None) ->
      deeptreeecho.running (deeptreeecho.self w) = true ->
      let w1 := snd (deeptreeecho.Stop w) in
      let w2 := snd (deeptreeecho.Start env w1) in
      fst (deeptreeecho.Start env w1) = None
      /\ deeptreeecho.running (deeptreeecho.self w2) = true
      /\ deeptreeecho.cancelled (deeptreeecho.self w2) = true
      /\ deeptreeecho.calls w2
         = (deeptreeecho.calls w ++ [deeptreeecho.CallCancel]
            ++ deeptreeecho.startCalls)%list)
  /\ (forall (env : core.Component -> Go.error) (w : core.World),
         (forall c, env c = None) ->
         core.isAwake (core.self w) = true ->
         let w1 := snd (core.Stop w) in
         let w2 := snd (core.Start env w1) in
         fst (core.Start env w1) = None
         /\ core.isAwake (core.self w2) = true
         /\ core.currentState (core.self w2) = core.StateAwake
         /\ core.cancelled (core.self w2) = true
         /\ core.calls w2
            = (core.calls w1
               ++ [core.CallEchoBeatsStart]
               ++ (if core.streamOfConsciousness (core.self w)
                   then [core.CallStreamStart] else [])
               ++ [core.CallGo core.JobAutonomousLifeCycle;
                   core.CallGo core.JobInterestDecayLoop;
                   core.CallGo core.JobConsciousnessMonitoring])%list).
Proof.
  split.
  - intros env w Henv Hrun w1 w2.
    destruct (V4_Stop_running w Hrun) as (_ & Hstopped & Hcan & Hcalls).
    destruct (V4_Start_fresh env w1 Henv Hstopped) as (H1 & H2 & _ & H4).
    repeat split; try assumption.
    + unfold w2. rewrite V4_Start_cancelled. exact Hcan.
    + unfold w2. rewrite H4. unfold w1. rewrite Hcalls.
      rewrite <- app_assoc. reflexivity.
  - intros env w Henv Hrun w1 w2.
    destruct (Echoself_Stop_awake w Hrun) as (_ & Hstopped & _).
    destruct (Echoself_Stop_cancelled w Hrun) as (Hcan & _).
    destruct (Echoself_Start_fresh env w1 Henv Hstopped) as (H1 & H2 & H3).
    repeat split; try assumption.
    + unfold w2. rewrite Echoself_Start_cancelled. exact Hcan.
    + unfold w2. rewrite (Echoself_Start_calls env w1 Henv Hstopped).
      unfold w1. rewrite Echoself_Stop_stream. reflexivity.
Qed.

(** A new instance of each type: started, stopped, started again. *)
Lemma restart_runs_on_cancelled_context_witness :
  let w := snd (deeptreeecho.Start deeptreeecho.allStart
                  (deeptreeecho.newWorld false 0)) in
  let w2 := snd (deeptreeecho.Start deeptreeecho.allStart
                   (snd (deeptreeecho.Stop w))) in
  let v := snd (core.Start core.allStart
                  (core.newWorld core.DefaultEchoselfConfig 0)) in
  let v2 := snd (core.Start core.allStart (snd (core.Stop v))) in
  deeptreeecho.running (deeptreeecho.self w) = true
  /\ deeptreeecho.running (deeptreeecho.self w2) = true
  /\ deeptreeecho.cancelled (deeptreeecho.self w2) = true
  /\ core.isAwake (core.self v) = true
  /\ core.isAwake (core.self v2) = true
  /\ core.cancelled (core.self v2) = true
  /\ core.occurrences EchoselfRuns.isGo (core.calls v2) = 6%nat.
Proof.
  intros w w2 v v2.
  destruct restart_runs_on_cancelled_context as (HV4 & HE).
  assert (deeptreeecho.running (deeptreeecho.self w) = true) as Hrun
      by reflexivity.
  assert (forall c, deeptreeecho.allStart c = None) as Henv
      by (intro c; reflexivity).
  assert (core.isAwake (core.self v) = true) as Hawake by reflexivity.
  assert (forall c, core.allStart c = None) as Henv'
      by (intro c; reflexivity).
  destruct (HV4 deeptreeecho.allStart w Henv Hrun) as (_ & H2 & H3 & _).
  destruct (HE core.allStart v Henv' Hawake) as (_ & E2 & _ & E3 & E4).
  split; [exact Hrun|]. split; [exact H2|]. split; [exact H3|].
  split; [exact Hawake|]. split; [exact E2|]. split; [exact E3|].
  unfold v2. rewrite E4. reflexivity.
Defined.

End Restart.

(** ** The loops while the instance rests *)

Section LoopsAtRest.

Import Num.
Import time.
Import deeptreeecho.
Import V4Loops.

(** What a rest in progress is to the loops: the instance is not awake. *)
Lemma loopStep_asleep (e : LoopEvent) (w : World) :
  awake (self w) = false ->
  awake (self (loopStep e w)) = false
  /\ fatigueLevel (loadManager (self (loopStep e w)))
     = fatigueLevel (loadManager (self w))
  /\ calls (loopStep e w) = calls w.
Proof.
  intro Haw. destruct e; cbn [loopStep].
  - destruct (tick_frame w) as (Ha & _ & _ & Hc & _).
    rewrite Ha, Hc, tick_fatigueLevel, Haw. repeat split; try exact Haw.
  - unfold automaticDreamTriggerLoop_tick. rewrite Haw.
    rewrite orb_true_r. repeat split; try exact Haw.
  - unfold periodicPersistence_tick, saveCurrentStateV4.
    destruct (persistence (self w)); repeat split; try exact Haw.
  - repeat split; try exact Haw.
Qed.

Lemma loopRun_asleep (es : list LoopEvent) :
  forall w : World,
    awake (self w) = false ->
    awake (self (loopRun es w)) = false
    /\ fatigueLevel (loadManager (self (loopRun es w)))
       = fatigueLevel (loadManager (self w))
    /\ calls (loopRun es w) = calls w.
Proof.
  induction es as [|e es IH]; intros w Haw.
  - repeat split. exact Haw.
  - cbn [loopRun].
    destruct (loopStep_asleep e w Haw) as (Ha & Hf & Hc).
    destruct (IH (loopStep e w) Ha) as (Ha' & Hf' & Hc').
    rewrite Ha', Hf', Hc', Hf, Hc. repeat split.
Qed.

(** One step of a loop launches a goroutine only by sending an awake
    instance to rest. *)
Lemma loopStep_awake (e : LoopEvent) (w : World) :
  awake (self w) = true ->
  (awake (self (loopStep e w)) = true /\ calls (loopStep e w) = calls w)
  \/ (awake (self (loopStep e w)) = false
      /\ occurrences isGo (calls (loopStep e w))
         = S (occurrences isGo (calls w))).
Proof.
  intro Haw. destruct e; cbn [loopStep].
  - left. destruct (tick_frame w) as (Ha & _ & _ & Hc & _).
    rewrite Ha, Hc. split; [exact Haw|reflexivity].
  - unfold automaticDreamTriggerLoop_tick.
    destruct (_ || _); [left; split; [exact Haw|reflexivity]|].
    destruct (shouldInitiateRest w); [|left; split; [exact Haw|reflexivity]].
    right. split; [apply Rest_awake|].
    rewrite (Rest_of_awake w Haw). cbn -[occurrences].
    rewrite occurrences_app. cbn. lia.
  - left. unfold periodicPersistence_tick, saveCurrentStateV4.
    destruct (persistence (self w)); split; (exact Haw || reflexivity).
  - left. split; [exact Haw|reflexivity].
Qed.

(** X7. As long as a rest is in progress the loops are idle: whatever ticks
    of the load monitor, the rest trigger and the persistence loop occur,
    and however much time passes, an instance that is not awake stays so,
    its fatigue stays as it is and no call is made.  Hence, from any state,
    the three loops launch at most one dream cycle until something else
    wakes the instance. *)
Theorem loops_idle_while_resting (es : list LoopEvent) (w : World) :
  (awake (self w) = false ->
   awake (self (loopRun es w)) = false
   /\ fatigueLevel (loadManager (self (loopRun es w)))
      = fatigueLevel (loadManager (self w))
   /\ calls (loopRun es w) = calls w)
  /\ (occurrences isGo (calls (loopRun es w))
      <= S (occurrences isGo (calls w)))%nat.
Proof.
  split; [apply loopRun_asleep|].
  revert w. induction es as [|e es IH]; intro w.
  - cbn [loopRun]. lia.
  - cbn [loopRun]. destruct (awake (self w)) eqn:Haw.
    + destruct (loopStep_awake e w Haw) as [[Ha Hc]|[Ha Hc]].
      * specialize (IH (loopStep e w)). rewrite Hc in IH. exact IH.
      * destruct (loopRun_asleep es (loopStep e w) Ha) as (_ & _ & Hc').
        rewrite Hc', Hc. lia.
    + destruct (loopStep_asleep e w Haw) as (Ha & _ & Hc).
      destruct (loopRun_asleep es (loopStep e w) Ha) as (_ & _ & Hc').
      rewrite Hc', Hc. lia.
Qed.

(** Full fatigue after 31 minutes awake: the first trigger tick launches
    the rest, the later ticks launch nothing. *)
Lemma loops_idle_while_resting_witness :
  let w := Samples.awakeWith 1 1 (31 * Minute) in
  let es := [LoadTick; TriggerTick; Elapse (30 * Second); LoadTick;
             TriggerTick; PersistTick; TriggerTick] in
  awake (self (Rest w)) = false
  /\ calls (loopRun es (Rest w)) = calls (Rest w)
  /\ occurrences isGo (calls (loopRun es w)) = 1%nat.
Proof.
  intros w es.
  destruct (loops_idle_while_resting es (Rest w)) as (Hidle & _).
  assert (awake (self (Rest w)) = false) as Ha by reflexivity.
  destruct (Hidle Ha) as (_ & _ & Hc).
  split; [exact Ha|]. split; [exact Hc|]. reflexivity.
Defined.

End LoopsAtRest.

(** ** Runs of [AutonomousEchoself] *)

Section EchoselfInvariants.

Import Num.
Import time.
Import core.
Import EchoselfRuns.

(** Every method is unfolded down to the writes and the calls it makes. *)
Ltac unfold_step :=
  unfold step, Start, Stop, startEchoBeats, startStream, persistAllState,
    autonomousLifeCycle_tick, handleWakeEvent, handleRestEvent,
    handleDreamEvent, handleThoughtEvent, handleLearningEvent,
    onWisdomExtracted, initiateRest, initiateDream, dreamEnd,
    exec, ok, Go.andThen, Go.exec, Go.ok.

(** The case distinctions of a step: the flags of the receiver, the
    answers of the collaborators, the comparisons. *)
Ltac split_cases :=
  repeat match goal with
         | |- context [match ?x with _ => _ end] =>
             lazymatch x with
             | context [match _ with _ => _ end] => fail
             | _ => destruct x eqn:?
             end
         end.

Lemma step_counters (e : Event) (w w' : World) :
  step e w = Some w' ->
  autonomousActions (self w')
  = (if isStringThought e then wrapU64 (autonomousActions (self w) + 1)
     else autonomousActions (self w))
  /\ wisdomCultivated (self w')
     = (if isWisdom e then wrapU64 (wisdomCultivated (self w) + 1)
        else wisdomCultivated (self w)).
Proof.
  destruct e; unfold_step; cbn [isStringThought isWisdom]; try destruct payloadIsString;
    split_cases; intro H; try discriminate H; injection H as <-;
    split; reflexivity.
Qed.

Lemma count_cons (p : Event -> bool) (e : Event) (es : list Event) :
  count p (e :: es) = (if p e then 1 else 0) + count p es.
Proof.
  unfold count. cbn [filter]. destruct (p e); cbn [List.length]; lia.
Qed.

Lemma count_nonneg (p : Event -> bool) (es : list Event) : 0 <= count p es.
Proof.
  unfold count. lia.
Qed.

(** X10. The two other counters of the metrics count what their names say:
    along any run, [autonomousActions] grows by the number of thought
    events whose payload is a string and [wisdomCultivated] by the number
    of wisdom callbacks, one at a time, below the bound of [uint64]; no
    other event touches them. *)
Theorem action_and_wisdom_counters (es : list Event) (w w' : World) :
  0 <= autonomousActions (self w) ->
  0 <= wisdomCultivated (self w) ->
  autonomousActions (self w) + count isStringThought es < 2 ^ 64 ->
  wisdomCultivated (self w) + count isWisdom es < 2 ^ 64 ->
  run es w = Some w' ->
  autonomous_actions (GetMetrics w')
  = autonomous_actions (GetMetrics w) + count isStringThought es
  /\ wisdom_cultivated (GetMetrics w')
     = wisdom_cultivated (GetMetrics w) + count isWisdom es.
Proof.
  cbn [autonomous_actions wisdom_cultivated GetMetrics].
  revert w. induction es as [|e es IH]; intros w Ha Hw Hal Hwl Hrun.
  - cbn in Hrun. injection Hrun as <-. unfold count. cbn. lia.
  - cbn [run] in Hrun. destruct (step e w) as [w1|] eqn:Hstep; [|discriminate].
    rewrite !count_cons in *.
    pose proof (count_nonneg isStringThought es).
    pose proof (count_nonneg isWisdom es).
    destruct (step_counters e w w1 Hstep) as [Hc1 Hc2].
    assert (autonomousActions (self w1)
            = autonomousActions (self w) + (if isStringThought e then 1 else 0))
      as Ha1.
    { rewrite Hc1. destruct (isStringThought e); [|lia].
      apply wrapU64_small. lia. }
    assert (wisdomCultivated (self w1)
            = wisdomCultivated (self w) + (if isWisdom e then 1 else 0))
      as Hw1.
    { rewrite Hc2. destruct (isWisdom e); [|lia].
      apply wrapU64_small. lia. }
    assert (0 <= (if isStringThought e then 1 else 0) <= 1) as Hs
        by (destruct (isStringThought e); lia).
    assert (0 <= (if isWisdom e then 1 else 0) <= 1) as Hi
        by (destruct (isWisdom e); lia).
    destruct (IH w1 ltac:(lia) ltac:(lia) ltac:(lia) ltac:(lia) Hrun)
      as [R1 R2].
    rewrite R1, R2, Ha1, Hw1. lia.
Qed.

(** A started default instance: two thoughts with text, one without, one
    piece of wisdom. *)
Lemma action_and_wisdom_counters_witness :
  let w := newWorld DefaultEchoselfConfig 0 in
  let es := [EvStart allStart; EvThought true; EvThought false; EvWisdom;
             EvThought true] in
  exists w' : World,
    run es w = Some w'
    /\ autonomous_actions (GetMetrics w') = 2
    /\ wisdom_cultivated (GetMetrics w') = 1.
Proof.
  intros w es.
  set (w' := match run es w with Some v => v | None => w end).
  assert (run es w = Some w') as Hrun by (vm_compute; reflexivity).
  exists w'. split; [exact Hrun|].
  apply (action_and_wisdom_counters es w w'); try exact Hrun;
    vm_compute; first [discriminate | reflexivity].
Defined.

Lemma step_balanced (e : Event) (w w' : World) :
  balanced w -> step e w = Some w' -> balanced w'.
Proof.
  unfold balanced. intros [Hb Hg].
  destruct e; unfold_step; split_cases; intro H; try discriminate H;
    injection H as <-; cbn -[occurrences];
    rewrite ?Echoself_occurrences_app; cbn;
    match goal with
    | E : dreamsInFlight w = _ |- _ => rewrite E in Hb
    | _ => idtac
    end; lia.
Qed.

(** X11. Dream cycles are ended only after they were begun: if the trace and
    the goroutines in flight agree at the start (as they do for a new
    instance), they agree after any run, so the calls to [EndDreamCycle]
    never outnumber the calls to [BeginDreamCycle], the difference is the
    number of dream goroutines in flight, and each begun cycle was given
    exactly one goroutine to end it. *)
Theorem dream_cycles_end_after_they_begin (es : list Event) (w w' : World) :
  balanced w ->
  run es w = Some w' ->
  occurrences isBegin (calls w')
  = (occurrences isEnd (calls w') + dreamsInFlight w')%nat
  /\ (occurrences isEnd (calls w') <= occurrences isBegin (calls w'))%nat
  /\ occurrences isGoDreamEnd (calls w') = occurrences isBegin (calls w').
Proof.
  intros Hb Hrun.
  assert (balanced w') as [H1 H2].
  { revert w Hb Hrun. induction es as [|e es IH]; intros w Hb Hrun.
    - cbn in Hrun. injection Hrun as <-. exact Hb.
    - cbn [run] in Hrun. destruct (step e w) as [w1|] eqn:Hstep; [|discriminate].
      apply (IH w1); [|exact Hrun]. eapply step_balanced; eassumption. }
  split; [exact H1|]. split; [lia|exact H2].
Qed.

(** A new default instance: rest, two dream events, one dream ending. *)
Lemma dream_cycles_end_after_they_begin_witness :
  let w := newWorld DefaultEchoselfConfig 0 in
  let es := [EvStart allStart; EvRest; EvDream; EvDream; EvDreamEnd] in
  balanced w
  /\ exists w' : World,
       run es w = Some w'
       /\ (occurrences isEnd (calls w') <= occurrences isBegin (calls w'))%nat
       /\ dreamsInFlight w' = 1%nat.
Proof.
  intros w es.
  assert (balanced w) as Hb by (split; reflexivity).
  set (w' := match run es w with Some v => v | None => w end).
  assert (run es w = Some w') as Hrun by (vm_compute; reflexivity).
  split; [exact Hb|].
  exists w'. split; [exact Hrun|].
  destruct (dream_cycles_end_after_they_begin es w w' Hb Hrun) as (_ & Hle & _).
  split; [exact Hle|]. vm_compute. reflexivity.
Defined.

Lemma step_internal (e : Event) (w w' : World) :
  isInternal e = true ->
  step e w = Some w' ->
  isAwake (self w') = isAwake (self w)
  /\ cancelled (self w') = cancelled (self w)
  /\ (resting (currentState (self w)) = true ->
      resting (currentState (self w')) = true)
  /\ (currentState (self w) = StateDreaming ->
      currentState (self w') = StateDreaming).
Proof.
  destruct e; cbn [isInternal]; intro Hi; try discriminate Hi;
    unfold_step; try destruct payloadIsString; split_cases;
    intro H; try discriminate H; injection H as <-; cbn;
    repeat split; intros;
    try match goal with
        | E : currentState (self w) = _,
          H : context [currentState (self w)] |- _ =>
            rewrite E in H; cbn in H
        end;
    try match goal with
        | E : currentState (self w) = _ |- _ => rewrite ?E
        end;
    first [reflexivity | congruence].
Qed.

(** X12. The instance's own goroutines never bring it back to the awake phase:
    along a run made of life-cycle ticks, dream cycles ending, thought,
    learning and wisdom events and time passing, a phase that is Resting or
    Dreaming stays Resting or Dreaming, and Dreaming stays Dreaming (the
    goroutine that ends a dream cycle counts it and leaves the phase), until
    a wake event of the scheduler or a call from outside arrives; and the
    flag [isAwake] is what it was throughout. *)
Theorem own_goroutines_never_wake (es : list Event) (w w' : World) :
  forallb isInternal es = true ->
  run es w = Some w' ->
  is_awake (GetMetrics w') = is_awake (GetMetrics w)
  /\ (resting (currentState (self w)) = true ->
      resting (current_state (GetMetrics w')) = true)
  /\ (currentState (self w) = StateDreaming ->
      current_state (GetMetrics w') = StateDreaming).
Proof.
  cbn [is_awake current_state GetMetrics].
  revert w. induction es as [|e es IH]; intros w Hall Hrun.
  - cbn in Hrun. injection Hrun as <-. repeat split; auto.
  - cbn [forallb] in Hall. apply andb_true_iff in Hall as [He Hes].
    cbn [run] in Hrun. destruct (step e w) as [w1|] eqn:Hstep; [|discriminate].
    destruct (step_internal e w w1 He Hstep) as (Ha & _ & Hr & Hd).
    destruct (IH w1 Hes Hrun) as (Ha' & Hr' & Hd').
    rewrite Ha', Ha. repeat split; auto.
Qed.

(** A default instance after four hours awake: the ticks lead to rest and
    to a dream, the dream ends, and the phase is still Dreaming. *)
Lemma own_goroutines_never_wake_witness :
  let w := snd (Start allStart (newWorld DefaultEchoselfConfig 0)) in
  let es := [EvElapse (4 * Hour + 1); EvTick false; EvTick false;
             EvDreamEnd; EvTick false; EvElapse Hour; EvTick false] in
  exists w' : World,
    run es w = Some w'
    /\ current_state (GetMetrics w') = StateDreaming
    /\ is_awake (GetMetrics w') = true
    /\ cycles_completed (GetMetrics w') = 1.
Proof.
  intros w es.
  set (w' := match run es w with Some v => v | None => w end).
  assert (run es w = Some w') as Hrun by (vm_compute; reflexivity).
  assert (forallb isInternal es = true) as Hall by reflexivity.
  destruct (own_goroutines_never_wake es w w' Hall Hrun) as (Ha & _ & _).
  exists w'. split; [exact Hrun|].
  split; [vm_compute; reflexivity|].
  split; [rewrite Ha; reflexivity|]. vm_compute. reflexivity.
Defined.

Lemma step_without_dreams (e : Event) (w w' : World) :
  dreamCycle (self w) = false ->
  dreamsInFlight w = 0%nat ->
  step e w = Some w' ->
  dreamCycle (self w') = false
  /\ dreamsInFlight w' = 0%nat
  /\ isDreamEnd e = false
  /\ cyclesCompleted (self w') = cyclesCompleted (self w)
  /\ occurrences isBegin (calls w') = occurrences isBegin (calls w).
Proof.
  intros Hd Hn.
  destruct e; unfold_step; rewrite ?Hd, ?Hn; split_cases;
    intro H; try discriminate H; injection H as <-;
    cbn -[occurrences]; rewrite ?Echoself_occurrences_app; cbn;
    rewrite ?Hd, ?Hn; repeat split;
    first [lia | congruence | cbn in *; congruence].
Qed.

(** X13. With dream cycles disabled in the configuration there is no dream
    component, and then no dream ever runs: along any run of an instance
    without the component and with no dream goroutine in flight, no dream
    cycle is begun, no goroutine is launched to end one, none can finish,
    and [cyclesCompleted] stays what it was.  A dream event still writes the
    phase Dreaming. *)
Theorem no_dream_component_no_cycles (es : list Event) (w w' : World) :
  dreamCycle (self w) = false ->
  dreamsInFlight w = 0%nat ->
  run es w = Some w' ->
  cycles_completed (GetMetrics w') = cycles_completed (GetMetrics w)
  /\ completedDreams es = 0
  /\ dreamsInFlight w' = 0%nat
  /\ occurrences isBegin (calls w') = occurrences isBegin (calls w)
  /\ currentState (self (handleDreamEvent w')) = StateDreaming
  /\ step EvDreamEnd (handleDreamEvent w') = None.
Proof.
  cbn [cycles_completed GetMetrics].
  intros Hd Hn Hrun.
  assert (dreamCycle (self w') = false
          /\ dreamsInFlight w' = 0%nat
          /\ completedDreams es = 0
          /\ cyclesCompleted (self w') = cyclesCompleted (self w)
          /\ occurrences isBegin (calls w') = occurrences isBegin (calls w))
    as (Hd' & Hn' & Hc & Hcy & Hb).
  { revert w Hd Hn Hrun. induction es as [|e es IH]; intros w Hd Hn Hrun.
    - cbn in Hrun. injection Hrun as <-. repeat split; assumption.
    - cbn [run] in Hrun.
      destruct (step e w) as [w1|] eqn:Hstep; [|discriminate].
      destruct (step_without_dreams e w w1 Hd Hn Hstep)
        as (Hd1 & Hn1 & He & Hc1 & Hb1).
      destruct (IH w1 Hd1 Hn1 Hrun) as (Hd2 & Hn2 & Hc2 & Hcy2 & Hb2).
      rewrite completedDreams_cons, He, Hc2, Hcy2, Hc1, Hb2, Hb1.
      repeat split; assumption. }
  repeat split; try assumption.
  - unfold handleDreamEvent, initiateDream. cbn. rewrite Hd'. reflexivity.
  - unfold handleDreamEvent, initiateDream. cbn. rewrite Hd'.
    cbn. unfold dreamEnd. cbn. rewrite Hn'. reflexivity.
Qed.

(** The default configuration with dream cycles switched off. *)
Lemma no_dream_component_no_cycles_witness :
  let cfg :=
    {| PersistenceDir := PersistenceDir DefaultEchoselfConfig;
       WakeCycleDuration := WakeCycleDuration DefaultEchoselfConfig;
       RestCycleDuration := RestCycleDuration DefaultEchoselfConfig;
       DreamCycleDuration := DreamCycleDuration DefaultEchoselfConfig;
       FatigueThreshold := FatigueThreshold DefaultEchoselfConfig;
       EngagementThreshold := EngagementThreshold DefaultEchoselfConfig;
       CuriosityLevel := CuriosityLevel DefaultEchoselfConfig;
       EnableStreamOfConsciousness := true;
       EnableAutonomousLearning := true;
       EnableDiscussions := true;
       EnableDreamCycles := false |} in
  let w := newWorld cfg 0 in
  let es := [EvStart allStart; EvElapse (5 * Hour); EvTick false;
             EvTick false; EvDream; EvTick false] in
  dreamCycle (self w) = false
  /\ exists w' : World,
       run es w = Some w'
       /\ cycles_completed (GetMetrics w') = 0
       /\ current_state (GetMetrics w') = StateDreaming.
Proof.
  intros cfg w es.
  assert (dreamCycle (self w) = false) as Hd by reflexivity.
  assert (dreamsInFlight w = 0%nat) as Hn by reflexivity.
  set (w' := match run es w with Some v => v | None => w end).
  assert (run es w = Some w') as Hrun by (vm_compute; reflexivity).
  destruct (no_dream_component_no_cycles es w w' Hd Hn Hrun) as (Hc & _).
  split; [exact Hd|].
  exists w'. split; [exact Hrun|].
  split; [rewrite Hc; reflexivity|]. vm_compute. reflexivity.
Defined.

Lemma step_budgets (e : Event) (w w' : World) :
  isInternal e = true ->
  step e w = Some w' ->
  (restBudget w' <= restBudget w)%nat /\ (dreamBudget w' <= dreamBudget w)%nat.
Proof.
  unfold restBudget, dreamBudget.
  destruct e; cbn [isInternal]; intro Hi; try discriminate Hi;
    unfold_step; try destruct payloadIsString; split_cases;
    intro H; try discriminate H; injection H as <-;
    cbn -[occurrences]; rewrite ?Echoself_occurrences_app;
    repeat match goal with
           | E : currentState (self w) = _ |- _ => rewrite E in *; clear E
           end;
    cbn; first [lia | exfalso; cbn in *; congruence].
Qed.

(** X14. Left to its own goroutines the instance rests once and dreams once:
    along a run made of life-cycle ticks, dream cycles ending, thought,
    learning and wisdom events and time passing, the life-cycle loop
    schedules at most one wake-up (it initiates at most one rest, and none
    if the phase was already a resting one) and begins at most one dream
    cycle (none if the phase was already Dreaming). *)
Theorem one_rest_and_one_dream_per_wake (es : list Event) (w w' : World) :
  forallb isInternal es = true ->
  run es w = Some w' ->
  (occurrences isScheduleWake (calls w')
   <= occurrences isScheduleWake (calls w)
      + (if resting (currentState (self w)) then 0 else 1))%nat
  /\ (occurrences isBegin (calls w')
      <= occurrences isBegin (calls w)
         + (if dreaming (currentState (self w)) then 0 else 1))%nat.
Proof.
  intros Hall Hrun.
  assert ((restBudget w' <= restBudget w)%nat
          /\ (dreamBudget w' <= dreamBudget w)%nat) as [Hr Hd].
  { revert w Hall Hrun. induction es as [|e es IH]; intros w Hall Hrun.
    - cbn in Hrun. injection Hrun as <-. split; lia.
    - cbn [forallb] in Hall. apply andb_true_iff in Hall as [He Hes].
      cbn [run] in Hrun.
      destruct (step e w) as [w1|] eqn:Hstep; [|discriminate].
      destruct (step_budgets e w w1 He Hstep) as [H1 H2].
      destruct (IH w1 Hes Hrun) as [H3 H4]. split; lia. }
  unfold restBudget, dreamBudget in Hr, Hd. split; lia.
Qed.

(** A default instance kept awake for nine hours of ticks. *)
Lemma one_rest_and_one_dream_per_wake_witness :
  let w := snd (Start allStart (newWorld DefaultEchoselfConfig 0)) in
  let es := [EvElapse (4 * Hour + 1); EvTick false; EvTick false;
             EvElapse (5 * Hour); EvTick false; EvDreamEnd; EvTick false] in
  exists w' : World,
    run es w = Some w'
    /\ occurrences isScheduleWake (calls w') = 1%nat
    /\ occurrences isBegin (calls w') = 1%nat.
Proof.
  intros w es.
  set (w' := match run es w with Some v => v | None => w end).
  assert (run es w = Some w') as Hrun by (vm_compute; reflexivity).
  assert (forallb isInternal es = true) as Hall by reflexivity.
  destruct (one_rest_and_one_dream_per_wake es w w' Hall Hrun) as (_ & _).
  exists w'. split; [exact Hrun|].
  split; vm_compute; reflexivity.
Defined.

(** X15. A start of [AutonomousEchoself] that fails sets the flag [isAwake]
    only at its end, so a failure leaves the instance not awake, in the
    phase Waking, with no goroutine launched and the error wrapped; a later
    [Start] is accepted.  The sub-systems started before the failure are
    not stopped: when the stream fails after the scheduler has started, the
    retry starts the scheduler a second time. *)
Theorem failed_start_can_be_retried
        (env env' : Component -> error) (w : World) (err : string) :
  isAwake (self w) = false ->
  (forall c, env' c = None) ->
  (env EchoBeats = Some err ->
   Start env w
   = (Some (Go.Errorf_w "failed to start echobeats" err),
      call CallEchoBeatsStart (on_self (set_currentState StateWaking) w)))
  /\ (env EchoBeats = None ->
      env StreamOfConsciousness = Some err ->
      streamOfConsciousness (self w) = true ->
      let w1 := snd (Start env w) in
      fst (Start env w)
      = Some (Go.Errorf_w "failed to start stream of consciousness" err)
      /\ isAwake (self w1) = false
      /\ currentState (self w1) = StateWaking
      /\ calls w1 = calls w ++ [CallEchoBeatsStart; CallStreamStart]
      /\ fst (Start env' w1) = None
      /\ isAwake (self (snd (Start env' w1))) = true
      /\ calls (snd (Start env' w1))
         = calls w ++ [CallEchoBeatsStart; CallStreamStart;
                       CallEchoBeatsStart; CallStreamStart;
                       CallGo JobAutonomousLifeCycle;
                       CallGo JobInterestDecayLoop;
                       CallGo JobConsciousnessMonitoring]).
Proof.
  intros Haw Henv'. split.
  - intro He. unfold Start, startEchoBeats, exec, ok, Go.andThen, Go.exec.
    rewrite Haw. cbn. rewrite He. reflexivity.
  - intros He Hs Hsoc w1.
    assert (Start env w
            = (Some (Go.Errorf_w "failed to start stream of consciousness" err),
               call CallStreamStart
                 (call CallEchoBeatsStart
                    (on_self (set_currentState StateWaking) w)))) as Hfail.
    { unfold Start, startEchoBeats, startStream, exec, ok,
        Go.andThen, Go.exec, Go.ok.
      rewrite Haw. cbn. rewrite He. cbn. rewrite Hsoc, Hs. reflexivity. }
    subst w1. rewrite Hfail. cbn [fst snd].
    set (w1 := call CallStreamStart
                 (call CallEchoBeatsStart
                    (on_self (set_currentState StateWaking) w))).
    assert (isAwake (self w1) = false) as Haw1 by exact Haw.
    destruct (Echoself_Start_fresh env' w1 Henv' Haw1) as (R1 & R2 & _).
    assert (calls (snd (Start env' w1))
            = calls w1 ++ [CallEchoBeatsStart; CallStreamStart;
                           CallGo JobAutonomousLifeCycle;
                           CallGo JobInterestDecayLoop;
                           CallGo JobConsciousnessMonitoring]) as Hcalls.
    { unfold Start, startEchoBeats, startStream, exec, ok,
        Go.andThen, Go.exec, Go.ok.
      rewrite Haw1, !Henv'.
      assert (streamOfConsciousness (self w1) = true) as Hsoc1 by exact Hsoc.
      cbn. rewrite Hsoc. cbn. rewrite <- !app_assoc. reflexivity. }
    split; [reflexivity|]. split; [exact Haw|]. split; [reflexivity|].
    split; [cbn; rewrite <- app_assoc; reflexivity|].
    split; [exact R1|]. split; [exact R2|].
    rewrite Hcalls. cbn. rewrite <- !app_assoc. reflexivity.
Qed.

(** The stream fails on the first start of a new default instance. *)
Lemma failed_start_can_be_retried_witness :
  let w := newWorld DefaultEchoselfConfig 0 in
  let env (c : Component) : error :=
    match c with
    | EchoBeats => None
    | StreamOfConsciousness => Some "no history file"%string
    end in
  isAwake (self w) = false
  /\ fst (Start env w)
     = Some "failed to start stream of consciousness: no history file"%string
  /\ isAwake (self (snd (Start allStart (snd (Start env w))))) = true.
Proof.
  intros w env.
  assert (isAwake (self w) = false) as Haw by reflexivity.
  assert (forall c, allStart c = None) as Henv' by (intro c; reflexivity).
  destruct (failed_start_can_be_retried env allStart w "no history file"
              Haw Henv') as (_ & Hstream).
  destruct (Hstream eq_refl eq_refl eq_refl) as (H1 & _ & _ & _ & _ & H6 & _).
  split; [exact Haw|]. split; [exact H1|exact H6].
Defined.

End EchoselfInvariants.

(** ** The string helpers of the test program *)

Section MainHelpers.

Import Num.
Import main.

Local Open Scope string_scope.

Lemma length_append (s t : string) :
  String.length (s ++ t) = (String.length s + String.length t)%nat.
Proof.
  induction s as [|c s IH]; cbn; [reflexivity|]. rewrite IH. reflexivity.
Qed.

Lemma append_assoc (s t u : string) : (s ++ t) ++ u = s ++ (t ++ u).
Proof.
  induction s as [|c s IH]; cbn; [reflexivity|]. rewrite IH. reflexivity.
Qed.

Lemma append_empty_r (s : string) : s ++ "" = s.
Proof.
  induction s as [|c s IH]; cbn; [reflexivity|]. rewrite IH. reflexivity.
Qed.

Lemma length_substring (m : nat) (s : string) :
  (m <= String.length s)%nat -> String.length (substring 0 m s) = m.
Proof.
  revert s. induction m as [|m IH]; intros s H.
  - destruct s; reflexivity.
  - destruct s as [|c s]; cbn in *; [lia|]. rewrite IH by lia. reflexivity.
Qed.

(** The prefix cut by [substring] followed by the rest is the string. *)
Lemma substring_prefix (m : nat) (s : string) :
  (m <= String.length s)%nat ->
  exists rest : string, s = substring 0 m s ++ rest.
Proof.
  revert s. induction m as [|m IH]; intros s H.
  - exists s. destruct s; reflexivity.
  - destruct s as [|c s]; cbn in *; [lia|].
    destruct (IH s ltac:(lia)) as [rest Hrest].
    exists rest. rewrite <- Hrest. reflexivity.
Qed.

Lemma repeat_loop_acc (n : nat) (s acc : string) :
  repeat_loop n s acc = acc ++ repeat_loop n s "".
Proof.
  revert acc. induction n as [|n IH]; intro acc; cbn [repeat_loop].
  - rewrite append_empty_r. reflexivity.
  - rewrite (IH (acc ++ s)), (IH ("" ++ s)). cbn [append].
    rewrite append_assoc. reflexivity.
Qed.

(** The loop adds one copy in front of what the shorter loop gives. *)
Lemma repeat_loop_S (n : nat) (s : string) :
  repeat_loop (S n) s "" = s ++ repeat_loop n s "".
Proof.
  cbn [repeat_loop]. rewrite repeat_loop_acc. reflexivity.
Qed.

Lemma repeat_loop_concat (n : nat) (s : string) :
  repeat_loop n s "" = String.concat "" (List.repeat s n).
Proof.
  induction n as [|n IH]; [reflexivity|].
  rewrite repeat_loop_S, IH.
  destruct n as [|n]; cbn [List.repeat String.concat].
  - apply append_empty_r.
  - reflexivity.
Qed.

(** X16. [repeat s count] is [count] copies of [s]: its length is [count] times
    the length of [s], it is empty for a count that is not positive, and
    repeating [a + b] times is repeating [a] times, then [b] times.  One
    repetition is [s] itself, one more repetition puts one more [s] at the
    end, and the whole is the concatenation of a list of [count] times
    [s]. *)
Theorem repeat_copies (s : string) (a b : Z) :
  Z.of_nat (String.length (repeat s a))
  = Z.max 0 a * Z.of_nat (String.length s)
  /\ (a <= 0 -> repeat s a = "")
  /\ (0 <= a -> 0 <= b -> repeat s (a + b) = repeat s a ++ repeat s b)
  /\ repeat s 1 = s
  /\ (0 <= a -> repeat s (a + 1) = repeat s a ++ s)
  /\ repeat s a = String.concat "" (List.repeat s (Z.to_nat a)).
Proof.
  assert (repeat s 1 = s) as Hone.
  { unfold repeat. change (Z.to_nat 1) with 1%nat.
    rewrite repeat_loop_S. apply append_empty_r. }
  assert (0 <= a -> 0 <= b -> repeat s (a + b) = repeat s a ++ repeat s b)
    as Hadd.
  { intros Ha Hb. unfold repeat. rewrite Z2Nat.inj_add by assumption.
    generalize (Z.to_nat b) as m. generalize (Z.to_nat a) as n.
    induction n as [|n IH]; intro m; cbn [repeat_loop Nat.add].
    + reflexivity.
    + rewrite (repeat_loop_acc (n + m)), (repeat_loop_acc n), IH.
      rewrite !append_assoc. reflexivity. }
  split; [|split; [|split; [exact Hadd|split; [exact Hone|split]]]].
  - unfold repeat.
    assert (forall n : nat,
               String.length (repeat_loop n s "")
               = (n * String.length s)%nat) as Hlen.
    { induction n as [|n IH]; cbn [repeat_loop]; [reflexivity|].
      rewrite repeat_loop_acc, length_append, IH. cbn. lia. }
    rewrite Hlen. lia.
  - intro H. unfold repeat.
    replace (Z.to_nat a) with 0%nat by lia. reflexivity.
  - intro Ha.
    assert (repeat s (a + 1) = repeat s a ++ repeat s 1) as H.
    { unfold repeat. rewrite Z2Nat.inj_add by lia.
      generalize (Z.to_nat 1) as m. generalize (Z.to_nat a) as n.
      induction n as [|n IH]; intro m; cbn [repeat_loop Nat.add].
      + reflexivity.
      + rewrite (repeat_loop_acc (n + m)), (repeat_loop_acc n), IH.
        rewrite !append_assoc. reflexivity. }
    rewrite H, Hone. reflexivity.
  - unfold repeat. apply repeat_loop_concat.
Qed.

(** X17. A call that fits [int] and asks for at least three bytes never fails:
    [truncate] returns the string itself when it is no longer than
    [maxLen], and otherwise its first [maxLen - 3] bytes followed by three
    dots, which is exactly [maxLen] bytes long. *)
Theorem truncate_fits (s : string) (maxLen : Z) :
  3 <= maxLen < 2 ^ 63 ->
  exists r : string,
    truncate s maxLen = Some r
    /\ Z.of_nat (String.length r) <= maxLen
    /\ (Z.of_nat (String.length s) <= maxLen -> r = s)
    /\ (maxLen < Z.of_nat (String.length s) ->
        r = substring 0 (Z.to_nat (maxLen - 3)) s ++ "..."
        /\ Z.of_nat (String.length r) = maxLen
        /\ exists rest : string,
             s = substring 0 (Z.to_nat (maxLen - 3)) s ++ rest).
Proof.
  intro H. unfold truncate.
  destruct (Z.leb_spec (Z.of_nat (String.length s)) maxLen) as [Hle|Hgt].
  - exists s. split; [reflexivity|]. split; [exact Hle|].
    split; [reflexivity|]. intro Hgt. lia.
  - rewrite wrap64_small by lia. unfold slice_to.
    destruct (Z.ltb_spec (maxLen - 3) 0) as [|_]; [lia|].
    destruct (Z.ltb_spec (Z.of_nat (String.length s)) (maxLen - 3)) as [|_];
      [lia|].
    cbn [orb].
    assert (String.length (substring 0 (Z.to_nat (maxLen - 3)) s ++ "...")
            = Z.to_nat maxLen) as Hlen.
    { rewrite length_append, length_substring by lia. cbn. lia. }
    eexists. split; [reflexivity|].
    split; [rewrite Hlen; lia|].
    split; [lia|]. intros _.
    split; [reflexivity|]. split; [rewrite Hlen; lia|].
    apply substring_prefix. lia.
Qed.

Lemma truncate_fits_witness :
  3 <= 10 < 2 ^ 63
  /\ truncate "Pattern recognition" 10 = Some "Pattern..."
  /\ truncate "Wisdom" 10 = Some "Wisdom".
Proof.
  assert (3 <= 10 < 2 ^ 63) as H by (split; [discriminate|reflexivity]).
  destruct (truncate_fits "Pattern recognition" 10 H) as (r & Hr & _).
  split; [exact H|]. split; reflexivity.
Defined.

(** X18. [truncate] fails (the slice expression panics) exactly when the string
    is longer than [maxLen] and [maxLen] is below 3, for every [maxLen] of
    type [int], negative ones and those where [maxLen-3] wraps around
    included, and every string of less than [2^63 - 3] bytes. *)
Theorem truncate_panics_iff (s : string) (maxLen : Z) :
  - 2 ^ 63 <= maxLen < 2 ^ 63 ->
  Z.of_nat (String.length s) + 3 < 2 ^ 63 ->
  truncate s maxLen = None
  <-> maxLen < Z.of_nat (String.length s) /\ maxLen < 3.
Proof.
  intros Hm Hs. unfold truncate.
  destruct (Z.leb_spec (Z.of_nat (String.length s)) maxLen) as [Hle|Hgt].
  - split; [discriminate|lia].
  - unfold slice_to.
    destruct (Z_lt_le_dec maxLen 3) as [H3|H3].
    + assert (wrap64 (maxLen - 3) < 0
              \/ Z.of_nat (String.length s) < wrap64 (maxLen - 3)) as Hw.
      { destruct (Z_lt_le_dec (maxLen - 3) (- 2 ^ 63)) as [Hu|Hu].
        - right. unfold wrap64.
          replace (maxLen - 3 + 2 ^ 63) with
            ((maxLen - 3 + 2 ^ 63 + 2 ^ 64) + (-1) * 2 ^ 64) by ring.
          rewrite Z.mod_add by lia. rewrite Z.mod_small by lia. lia.
        - left. rewrite wrap64_small by lia. lia. }
      destruct (Z.ltb_spec (wrap64 (maxLen - 3)) 0);
        destruct (Z.ltb_spec (Z.of_nat (String.length s)) (wrap64 (maxLen - 3)));
        cbn [orb]; try (split; [intros _; lia|reflexivity]).
      lia.
    + rewrite wrap64_small by lia.
      destruct (Z.ltb_spec (maxLen - 3) 0); [lia|].
      destruct (Z.ltb_spec (Z.of_nat (String.length s)) (maxLen - 3)); [lia|].
      cbn [orb]. split; [discriminate|lia].
Qed.

Lemma truncate_panics_iff_witness :
  - 2 ^ 63 <= 2 < 2 ^ 63
  /\ truncate "abcd" 2 = None
  /\ truncate "ab" 2 = Some "ab".
Proof.
  assert (- 2 ^ 63 <= 2 < 2 ^ 63) as Hm by (split; [discriminate|reflexivity]).
  assert (Z.of_nat (String.length "abcd") + 3 < 2 ^ 63) as Hs by reflexivity.
  destruct (truncate_panics_iff "abcd" 2 Hm Hs) as [_ Hback].
  split; [exact Hm|]. split; [|reflexivity].
  apply Hback. split; reflexivity.
Defined.

End MainHelpers.

(** ** When the load saturates *)

Section LoadSaturation.

Import Num.
Import time.
Import deeptreeecho.

Local Open Scope Q_scope.

Lemma occupancy_le_one (ac : AutonomousConsciousnessV4) :
  (0 < capacity (workingMemory ac))%Z ->
  (Z.of_nat (List.length (buffer (workingMemory ac)))
   <= capacity (workingMemory ac))%Z ->
  occupancy ac <= 1.
Proof.
  intros Hc Hl. unfold occupancy.
  apply Qle_shift_div_r.
  - change 0 with (inject_Z 0). rewrite <- Zlt_Qlt. exact Hc.
  - rewrite Qmult_1_l. rewrite <- Zle_Qle. exact Hl.
Qed.

(** X9. With the working memory within its capacity, the computed load never
    falls below the base load 0.1, and the cap at 1 is reached exactly
    when a discussion is active, a skill is being practiced and the working
    memory is at least two thirds full; in every other state the load is
    the plain sum of its contributors. *)
Theorem load_floor_and_saturation (ac : AutonomousConsciousnessV4) :
  (0 < capacity (workingMemory ac))%Z ->
  (Z.of_nat (List.length (buffer (workingMemory ac)))
   <= capacity (workingMemory ac))%Z ->
  0.1 <= calculateCurrentLoad ac
  /\ (calculateCurrentLoad ac == 1
      <-> inActiveDiscussion ac = true
          /\ IsCurrentlyPracticing (skills ac) = true
          /\ 2 # 3 <= occupancy ac)
  /\ (calculateCurrentLoad ac < 1 ->
      calculateCurrentLoad ac
      == 0.1 + 0.3 * occupancy ac
         + 0.4 * indicator (inActiveDiscussion ac)
         + 0.3 * indicator (IsCurrentlyPracticing (skills ac))).
Proof.
  intros Hc Hl.
  pose proof (occupancy_nonneg ac Hc) as H0.
  pose proof (occupancy_le_one ac Hc Hl) as H1.
  rewrite calculateCurrentLoad_unfold. unfold weightedLoad.
  set (occ := occupancy ac) in *.
  destruct (inActiveDiscussion ac), (IsCurrentlyPracticing (skills ac));
    cbn [indicator];
    match goal with
    | |- context [Qle_bool ?c ?e] =>
        destruct (Qle_bool c e) eqn:E;
        [ apply Qle_bool_iff in E | apply Qle_bool_false_iff in E ]
    end;
    (split; [lra|]); (split; [|intro; lra]);
    (split; [intro Heq; first [ repeat split; lra | exfalso; lra ]
            | intros (Hd & Hp & Ho); first [discriminate | lra]]).
Qed.

(** Five thoughts out of seven, in a discussion, while practicing. *)
Lemma load_floor_and_saturation_witness :
  let ac :=
    set_skills {| IsCurrentlyPracticing := true |}
      (set_workingMemory
         {| buffer := [Samples.aThought; Samples.aThought; Samples.aThought;
                       Samples.aThought; Samples.aThought];
            capacity := 7 |} Samples.inDiscussion) in
  (0 < capacity (workingMemory ac))%Z
  /\ calculateCurrentLoad ac == 1
  /\ 0.1 <= calculateCurrentLoad Samples.inDiscussion.
Proof.
  intro ac.
  assert (0 < capacity (workingMemory ac))%Z as Hc by reflexivity.
  assert (Z.of_nat (List.length (buffer (workingMemory ac)))
          <= capacity (workingMemory ac))%Z as Hl by (vm_compute; discriminate).
  destruct (load_floor_and_saturation ac Hc Hl) as (_ & Hsat & _).
  split; [exact Hc|]. split.
  - apply Hsat. repeat split. vm_compute. discriminate.
  - vm_compute. discriminate.
Defined.

End LoadSaturation.

Section MainHelpersAtSamples.

Import main.

Local Open Scope string_scope.

(** The rule printed under the title of the test program: one sign, then
    fifty more; and no sign for a negative count. *)
Lemma repeat_copies_witness :
  Z.of_nat (String.length ("=" ++ repeat "=" 50)) = 51
  /\ repeat "-" (-1) = ""
  /\ repeat "ab" (2 + 1) = repeat "ab" 2 ++ repeat "ab" 1
  /\ repeat "ab" (2 + 1) = "ababab".
Proof.
  destruct (repeat_copies "=" 50 0) as (Hlen & _ & _).
  destruct (repeat_copies "-" (-1) 0) as (_ & Hneg & _).
  destruct (repeat_copies "ab" 2 1) as (_ & _ & Hadd & _ & Hsucc & _).
  split; [reflexivity|]. split; [|split].
  - apply Hneg. discriminate.
  - apply Hadd; discriminate.
  - rewrite Hsucc by discriminate. reflexivity.
Defined.

End MainHelpersAtSamples.
